(** * Payment reconciliation of the travel-booking backend

    A shallow embedding of [listings/models.py], [listings/views.py],
    [listings/listings/views.py] and [listings/tasks.py]: the Booking and
    Payment models with their methods, the two payment views
    ([initiate_payment], [verify_payment]), the booking-creation views and the
    confirmation-mail task.

    The relational database is a record of tables, each a finite map from
    primary key to row.  A view is a computation over that record which
    returns a value or raises a Python exception; changes made before an
    exception stay (the project runs in autocommit mode: there is no
    [ATOMIC_REQUESTS] and no [transaction.atomic]).  The payment gateway, the
    clock, the uuid generator and the mail transport are inputs of the
    computations. *)

From Stdlib Require Import ZArith Lia Ascii String.
From stdpp Require Import gmap strings list fin_maps.

Local Open Scope Z_scope.
Local Open Scope string_scope.

(** ** Python values

    JSON documents as [response.json()] returns them and as the views build
    them for [Response(...)].  The views compare such a value with a string,
    test its truth value or store it; they compute with none, and a number
    is kept as an integer. *)

#[warnings="-register-all"]
Inductive value : Type :=
| VNone
| VBool (b : bool)
| VNum (n : Z)
| VStr (s : string)
| VList (l : list value)
| VDict (d : gmap string value).

(** Python truth value testing, as used by [if transaction_id:] and
    [if error_message:]. *)
Definition truthy (v : value) : bool :=
  match v with
  | VNone => false
  | VBool b => b
  | VNum n => negb (Z.eqb n 0)
  | VStr s => negb (String.eqb s "")
  | VList l => match l with [] => false | _ :: _ => true end
  | VDict d => negb (Nat.eqb (size d) 0)
  end.

(** [v == 'literal'] for a string literal. *)
Definition eq_str (v : value) (s : string) : bool :=
  match v with
  | VStr t => String.eqb t s
  | _ => false
  end.

(** Python exceptions the modelled code can meet. *)
Inductive exn : Type :=
| IntegrityError
| DoesNotExist (model : string)
| MultipleObjectsReturned
| KeyError (key : string)
| TypeError
| AttributeError
| ValueError
| RequestException (detail : string)
| MailError (detail : string)
| OtherException (detail : string).

(** [isinstance(e, requests.exceptions.RequestException)]. *)
Definition is_RequestException (e : exn) : bool :=
  match e with
  | RequestException _ => true
  | _ => false
  end.

Inductive result (A : Type) : Type :=
| Ok (a : A)
| Raise (e : exn).
Arguments Ok {A} a.
Arguments Raise {A} e.

(** ** Computations with state and exceptions *)

Definition action (S A : Type) : Type := S → result A * S.

Global Instance action_ret {S} : MRet (action S) := λ A a s, (Ok a, s).

Global Instance action_bind {S} : MBind (action S) := λ A B k m s,
  match m s with
  | (Ok a, s') => k a s'
  | (Raise e, s') => (Raise e, s')
  end.

Definition raise {S A} (e : exn) : action S A := λ s, (Raise e, s).

Definition get_state {S} : action S S := λ s, (Ok s, s).

Definition modify {S} (f : S → S) : action S unit := λ s, (Ok tt, f s).

(** [try: m except Exception as e: h e] *)
Definition try_except {S A} (m : action S A) (h : exn → action S A) : action S A :=
  λ s, match m s with
       | (Ok a, s') => (Ok a, s')
       | (Raise e, s') => h e s'
       end.

(** Runs a computation on a component of the state. *)
Definition zoom {S T A} (proj : T → S) (inj : S → T → T) (m : action S A) : action T A :=
  λ t, let '(r, s') := m (proj t) in (r, inj s' t).

(** Dictionary and subscript access on Python values. *)

(** [v.get(key, default)]: only a dict has [get]. *)
Definition py_get {S} (v : value) (key : string) (default : value) : action S value :=
  match v with
  | VDict d => mret (match d !! key with Some x => x | None => default end)
  | _ => raise AttributeError
  end.

(** [v[key]] for a string key. *)
Definition py_getitem {S} (v : value) (key : string) : action S value :=
  match v with
  | VDict d => match d !! key with Some x => mret x | None => raise (KeyError key) end
  | _ => raise TypeError
  end.

(** A dict literal. *)
Definition dict (items : list (string * value)) : value := VDict (list_to_map items).

(** What a [CharField], [TextField] or [URLField] column holds once a value
    is assigned and saved: [None] stays NULL, a [str] is kept, anything else
    goes through [str()].  The instance in memory is given the attribute in
    this form at the assignment already: the views read such an attribute
    back through [PaymentSerializer] only, whose fields apply the same
    conversion. *)
Definition to_column (str_value : value → string) (v : value) : option string :=
  match v with
  | VNone => None
  | VStr s => Some s
  | _ => Some (str_value v)
  end.

(** ** The data model ([listings/models.py])

    A [DecimalField(decimal_places=2)] is the integer count of its
    hundredths; a [DateField] is the proleptic ordinal of the day, so that
    [(check_out - check_in).days] is a subtraction; a [DateTimeField] is a
    number of seconds.  A [ForeignKey] holds the primary key of its target.
    Columns that no modelled code reads or writes (description, location,
    image_url, ...) are left out. *)

Module Listing.
Record t : Type := mk {
  title : string;
  price_per_night : Z;
  max_guests : Z;
  available : bool;
}.
End Listing.

Module User.
Record t : Type := mk {
  username : string;
  email : string;
  first_name : string;
  last_name : string;
  is_staff : bool;
}.
End User.

Module Booking.
Record t : Type := mk {
  booking_id : string;
  user : Z;
  listing : Z;
  check_in : option Z;
  check_out : option Z;
  number_of_guests : Z;
  total_price : option Z;
  status : string;
  created_at : option Z;
  updated_at : option Z;
}.

Definition set_total_price (v : option Z) (b : t) : t :=
  mk (booking_id b) (user b) (listing b) (check_in b) (check_out b)
     (number_of_guests b) v (status b) (created_at b) (updated_at b).
Definition set_status (v : string) (b : t) : t :=
  mk (booking_id b) (user b) (listing b) (check_in b) (check_out b)
     (number_of_guests b) (total_price b) v (created_at b) (updated_at b).
Definition set_created_at (v : option Z) (b : t) : t :=
  mk (booking_id b) (user b) (listing b) (check_in b) (check_out b)
     (number_of_guests b) (total_price b) (status b) v (updated_at b).
Definition set_updated_at (v : option Z) (b : t) : t :=
  mk (booking_id b) (user b) (listing b) (check_in b) (check_out b)
     (number_of_guests b) (total_price b) (status b) (created_at b) v.
Definition set_user (v : Z) (b : t) : t :=
  mk (booking_id b) v (listing b) (check_in b) (check_out b)
     (number_of_guests b) (total_price b) (status b) (created_at b) (updated_at b).
Definition set_booking_id (v : string) (b : t) : t :=
  mk v (user b) (listing b) (check_in b) (check_out b)
     (number_of_guests b) (total_price b) (status b) (created_at b) (updated_at b).
Definition set_dates (ci co : option Z) (b : t) : t :=
  mk (booking_id b) (user b) (listing b) ci co
     (number_of_guests b) (total_price b) (status b) (created_at b) (updated_at b).

(** A model instance in memory: its primary key ([None] until the first
    save) and its attributes. *)
Record obj : Type := Obj { pk : option Z; cols : t }.

Definition on_cols (f : t → t) (b : obj) : obj := Obj (pk b) (f (cols b)).
End Booking.

Module Payment.
Record t : Type := mk {
  payment_id : string;
  booking : Z;
  transaction_id : option string;
  reference : string;
  amount : option Z;
  currency : string;
  status : string;
  payment_method : option string;
  chapa_reference : option string;
  checkout_url : option string;
  initiated_at : option Z;
  completed_at : option Z;
  updated_at : option Z;
  error_message : option string;
  raw_response : value;
}.

Definition set_transaction_id (v : option string) (p : t) : t :=
  mk (payment_id p) (booking p) v (reference p) (amount p) (currency p)
     (status p) (payment_method p) (chapa_reference p) (checkout_url p)
     (initiated_at p) (completed_at p) (updated_at p) (error_message p)
     (raw_response p).
Definition set_status (v : string) (p : t) : t :=
  mk (payment_id p) (booking p) (transaction_id p) (reference p) (amount p)
     (currency p) v (payment_method p) (chapa_reference p) (checkout_url p)
     (initiated_at p) (completed_at p) (updated_at p) (error_message p)
     (raw_response p).
Definition set_payment_method (v : option string) (p : t) : t :=
  mk (payment_id p) (booking p) (transaction_id p) (reference p) (amount p)
     (currency p) (status p) v (chapa_reference p) (checkout_url p)
     (initiated_at p) (completed_at p) (updated_at p) (error_message p)
     (raw_response p).
Definition set_chapa_reference (v : option string) (p : t) : t :=
  mk (payment_id p) (booking p) (transaction_id p) (reference p) (amount p)
     (currency p) (status p) (payment_method p) v (checkout_url p)
     (initiated_at p) (completed_at p) (updated_at p) (error_message p)
     (raw_response p).
Definition set_checkout_url (v : option string) (p : t) : t :=
  mk (payment_id p) (booking p) (transaction_id p) (reference p) (amount p)
     (currency p) (status p) (payment_method p) (chapa_reference p) v
     (initiated_at p) (completed_at p) (updated_at p) (error_message p)
     (raw_response p).
Definition set_completed_at (v : option Z) (p : t) : t :=
  mk (payment_id p) (booking p) (transaction_id p) (reference p) (amount p)
     (currency p) (status p) (payment_method p) (chapa_reference p)
     (checkout_url p) (initiated_at p) v (updated_at p) (error_message p)
     (raw_response p).
Definition set_updated_at (v : option Z) (p : t) : t :=
  mk (payment_id p) (booking p) (transaction_id p) (reference p) (amount p)
     (currency p) (status p) (payment_method p) (chapa_reference p)
     (checkout_url p) (initiated_at p) (completed_at p) v (error_message p)
     (raw_response p).
Definition set_error_message (v : option string) (p : t) : t :=
  mk (payment_id p) (booking p) (transaction_id p) (reference p) (amount p)
     (currency p) (status p) (payment_method p) (chapa_reference p)
     (checkout_url p) (initiated_at p) (completed_at p) (updated_at p) v
     (raw_response p).
Definition set_raw_response (v : value) (p : t) : t :=
  mk (payment_id p) (booking p) (transaction_id p) (reference p) (amount p)
     (currency p) (status p) (payment_method p) (chapa_reference p)
     (checkout_url p) (initiated_at p) (completed_at p) (updated_at p)
     (error_message p) v.

(** A Payment instance in memory.  [booking_obj] is the related-object
    cache behind [payment.booking]: empty after [objects.get], filled by
    the first access or by [objects.create(booking=...)]. *)
Record obj : Type := Obj {
  pk : Z;
  cols : t;
  booking_obj : option Booking.obj;
}.

Definition on_cols (f : t → t) (p : obj) : obj :=
  Obj (pk p) (f (cols p)) (booking_obj p).
Definition set_booking_obj (b : option Booking.obj) (p : obj) : obj :=
  Obj (pk p) (cols p) b.
End Payment.

(** ** Celery ([listings/tasks.py])

    A task declaration keeps what [@shared_task(bind=True, max_retries=3)]
    and the [def] line fix: the retry bound and the names of the parameters
    after [self], none of which has a default. *)
Record Task : Type := {
  task_name : string;
  max_retries : nat;
  parameters : list string;
}.

Definition send_booking_confirmation_email : Task := {|
  task_name := "listings.tasks.send_booking_confirmation_email";
  max_retries := 3;
  parameters := ["booking_id"; "user_email"; "user_name"; "listing_title";
                 "check_in"; "check_out"];
|}.

(** A message on the broker queue: the keyword arguments of the call, the
    retry counter [self.request.retries] and the delay before delivery. *)
Record Job : Type := {
  job_task : Task;
  job_kwargs : list (string * value);
  job_retries : nat;
  job_countdown : Z;
}.

(** How one run of a task ends in the worker. *)
Inductive TaskOutcome : Type :=
| Success (returned : value)
| Retry (countdown : Z) (exc : exn)
| Failure (exc : exn).

(** A message handed to [send_mail]. *)
Record Email : Type := {
  subject : string;
  message : string;
  from_email : string;
  recipient_list : list string;
}.

(** What [send_mail(..., fail_silently=False)] does with it. *)
Inductive Delivery : Type :=
| Delivered
| Undelivered (exc : exn).

(** ** The gateway: an HTTP request of the views to the Chapa API. *)
Inductive GatewayCall : Type :=
| Post (url : string) (json : value) (authorization : string)
| Get (url : string) (authorization : string).

(** What the request yields: a response whose body parsed as JSON, or an
    exception out of [requests.post]/[requests.get] or [response.json()]. *)
Inductive GatewayReply : Type :=
| Responded (status_code : Z) (response_data : value)
| Failed (e : exn).

(** ** The state the views and the worker act on

    The four tables, the broker queue, the requests sent to the gateway, the
    mails that left and the outcomes the worker recorded. *)
Record World : Type := {
  listings : gmap Z Listing.t;
  users : gmap Z User.t;
  bookings : gmap Z Booking.t;
  payments : gmap Z Payment.t;
  queue : list Job;
  gateway_log : list GatewayCall;
  outbox : list Email;
  task_log : list TaskOutcome;
}.

Definition set_bookings (v : gmap Z Booking.t) (w : World) : World :=
  Build_World (listings w) (users w) v (payments w) (queue w) (gateway_log w)
    (outbox w) (task_log w).
Definition set_payments (v : gmap Z Payment.t) (w : World) : World :=
  Build_World (listings w) (users w) (bookings w) v (queue w) (gateway_log w)
    (outbox w) (task_log w).
Definition set_queue (v : list Job) (w : World) : World :=
  Build_World (listings w) (users w) (bookings w) (payments w) v (gateway_log w)
    (outbox w) (task_log w).
Definition set_gateway_log (v : list GatewayCall) (w : World) : World :=
  Build_World (listings w) (users w) (bookings w) (payments w) (queue w) v
    (outbox w) (task_log w).
Definition set_outbox (v : list Email) (w : World) : World :=
  Build_World (listings w) (users w) (bookings w) (payments w) (queue w)
    (gateway_log w) v (task_log w).
Definition set_task_log (v : list TaskOutcome) (w : World) : World :=
  Build_World (listings w) (users w) (bookings w) (payments w) (queue w)
    (gateway_log w) (outbox w) v.

(** ** Requests, responses and what the repository leaves outside

    [listings/serializers.py] and the Chapa entries of the settings module
    and the mail sender's address are not part of the sources at hand; they, [str()] of an exception or of
    a non-string value, and Celery's [app.strict_typing] option are fields
    of [Env], so every statement below holds for all of them. *)

Record Request : Type := {
  request_user : Z;
  request_data : value;
  query_params : gmap string string;
}.

Record Response : Type := {
  response_data : value;
  response_status : Z;
}.

(** [serializer.validated_data] of [PaymentInitiateSerializer]. *)
Record InitiateData : Type := {
  init_booking_id : string;
  init_email : string;
  init_first_name : string;
  init_last_name : string;
  init_phone_number : option string;
}.

Record Env : Type := {
  CHAPA_BASE_URL : string;
  CHAPA_SECRET_KEY : string;
  CHAPA_CALLBACK_URL : string;
  DEFAULT_FROM_EMAIL : string;
  (** Celery checks the arguments of [delay] against the task's signature
      when this is set; it is unless a project turns it off. *)
  strict_typing : bool;
  str_exn : exn → string;
  str_value : value → string;
  str_Decimal : option Z → string;
  str_date : option Z → string;
  (** [is_valid()]: the errors, or the validated data. *)
  PaymentInitiateSerializer : value → value + InitiateData;
  (** [BookingSerializer]: the errors, or the attributes of the new
      instance (its [user] is overwritten by [save(user=...)]). *)
  BookingSerializer : value → value + Booking.t;
  BookingSerializer_data : Booking.obj → value;
  (** [PaymentSerializer(payment).data] *)
  PaymentSerializer : World → Payment.obj → value;
}.

(** What the environment hands to one request: the clock, the uuids drawn
    and the gateway's answer should the view ask. *)
Record Inputs : Type := {
  now : Z;
  uuid4_hex : string;
  uuid4_default : string;
  gateway : GatewayReply;
}.

(** ** The object-relational layer *)

(** [Model.objects.get(...)]: exactly one row must match. *)
Definition objects_get {R} (model : string) (P : R → bool) (tbl : gmap Z R)
    : result (Z * R) :=
  match map_to_list (filter (λ kr, P kr.2 = true) tbl) with
  | [] => Raise (DoesNotExist model)
  | [kr] => Ok kr
  | _ :: _ :: _ => Raise MultipleObjectsReturned
  end.

(** The primary key an INSERT gets from the database: one no row has. *)
Definition next_pk {R} (tbl : gmap Z R) : Z := fresh (dom tbl).

(** Unique columns of two rows collide. *)
Definition Booking_clash (r r' : Booking.t) : bool :=
  bool_decide (Booking.booking_id r' = Booking.booking_id r).

Definition Payment_clash (r r' : Payment.t) : bool :=
  bool_decide (Payment.payment_id r' = Payment.payment_id r)
  || bool_decide (Payment.booking r' = Payment.booking r)
  || bool_decide (Payment.reference r' = Payment.reference r)
  || (bool_decide (is_Some (Payment.transaction_id r))
      && bool_decide (Payment.transaction_id r' = Payment.transaction_id r)).

(** No row other than the one at [pk] collides with [r]. *)
Definition unique_ok {R} (clash : R → R → bool) (pk : option Z) (r : R)
    (tbl : gmap Z R) : bool :=
  bool_decide (map_Forall (λ k r', Some k = pk ∨ clash r r' = false) tbl).

(** NOT NULL and FOREIGN KEY constraints of a Booking row. *)
Definition Booking_row_ok (w : World) (r : Booking.t) : bool :=
  bool_decide (is_Some (Booking.check_in r))
  && bool_decide (is_Some (Booking.check_out r))
  && bool_decide (is_Some (Booking.total_price r))
  && bool_decide (is_Some (users w !! Booking.user r))
  && bool_decide (is_Some (listings w !! Booking.listing r)).

Definition Payment_row_ok (w : World) (r : Payment.t) : bool :=
  bool_decide (is_Some (Payment.amount r))
  && bool_decide (is_Some (bookings w !! Payment.booking r)).

Definition self {O W} : action (O * W) O := λ s, (Ok s.1, s).
Definition set_self {O W} (f : O → O) : action (O * W) unit :=
  modify (λ s, (f s.1, s.2)).
(** A database operation inside a method. *)
Definition db {O W A} (m : action W A) : action (O * W) A :=
  zoom snd (λ w s, (s.1, w)) m.
(** Calls a method on an instance; the instance as the method left it is
    dropped. *)
Definition call {O W A} (o : O) (m : action (O * W) A) : action W A :=
  λ w, let '(r, s) := m (o, w) in (r, s.2).
(** Calls a method and keeps the instance as the method left it. *)
Definition run {O W A} (o : O) (m : action (O * W) A) : action W (A * O) :=
  λ w, let '(r, s) := m (o, w) in
       (match r with Ok a => Ok (a, s.1) | Raise e => Raise e end, s.2).

(** [models.Model.save] of a Booking: [auto_now]/[auto_now_add] first, then
    the INSERT (no primary key yet) or UPDATE. *)
Definition Booking_Model_save (now : Z) : action (Booking.obj * World) unit :=
  λ '(b, w),
    let c := Booking.cols b in
    let c := match Booking.pk b with
             | None => Booking.set_created_at (Some now) c
             | Some _ => c
             end in
    let c := Booking.set_updated_at (Some now) c in
    if Booking_row_ok w c && unique_ok Booking_clash (Booking.pk b) c (bookings w)
    then
      let k := match Booking.pk b with
               | Some k => k
               | None => next_pk (bookings w)
               end in
      (Ok tt, (Booking.Obj (Some k) c, set_bookings (<[k := c]> (bookings w)) w))
    else (Raise IntegrityError, (Booking.Obj (Booking.pk b) c, w)).

(** [models.Model.save] of a Payment that has a primary key (UPDATE). *)
Definition Payment_Model_save (now : Z) : action (Payment.obj * World) unit :=
  λ '(p, w),
    let c := Payment.set_updated_at (Some now) (Payment.cols p) in
    let p' := Payment.Obj (Payment.pk p) c (Payment.booking_obj p) in
    if Payment_row_ok w c && unique_ok Payment_clash (Some (Payment.pk p)) c (payments w)
    then (Ok tt, (p', set_payments (<[Payment.pk p := c]> (payments w)) w))
    else (Raise IntegrityError, (p', w)).

(** [Payment.objects.create(booking=..., reference=..., amount=...,
    currency=..., status=...)]: the other columns take their defaults, the
    row is INSERTed. *)
Definition Payment_objects_create (now : Z) (payment_id : string)
    (booking : Booking.obj) (reference : string) (amount : option Z)
    (currency status : string) : action World Payment.obj :=
  match Booking.pk booking with
  | None => raise ValueError
  | Some bk =>
    λ w,
      let c := Payment.mk payment_id bk None reference amount currency status
                 None None None (Some now) None (Some now) None VNone in
      if Payment_row_ok w c && unique_ok Payment_clash None c (payments w)
      then
        let k := next_pk (payments w) in
        (Ok (Payment.Obj k c (Some booking)),
         set_payments (<[k := c]> (payments w)) w)
      else (Raise IntegrityError, w)
  end.

(** [Booking.objects.get(booking_id=..., user=...)] *)
Definition Booking_objects_get (booking_id : string) (user : Z) : action World Booking.obj :=
  λ w,
    match objects_get "Booking" (λ b, bool_decide (Booking.booking_id b = booking_id)
                            && bool_decide (Booking.user b = user)) (bookings w) with
    | Ok (k, c) => (Ok (Booking.Obj (Some k) c), w)
    | Raise e => (Raise e, w)
    end.

(** [Payment.objects.get(reference=...)] *)
Definition Payment_objects_get (reference : string) : action World Payment.obj :=
  λ w,
    match objects_get "Payment" (λ p, bool_decide (Payment.reference p = reference))
            (payments w) with
    | Ok (k, c) => (Ok (Payment.Obj k c None), w)
    | Raise e => (Raise e, w)
    end.

(** [booking.payment], the reverse side of the one-to-one field. *)
Definition Booking_payment (booking : Booking.obj) : action World Payment.obj :=
  λ w,
    match Booking.pk booking with
    | None => (Raise (DoesNotExist "Payment"), w)
    | Some bk =>
      match objects_get "Payment" (λ p, bool_decide (Payment.booking p = bk))
              (payments w) with
      | Ok (k, c) => (Ok (Payment.Obj k c (Some booking)), w)
      | Raise e => (Raise e, w)
      end
    end.

(** [hasattr(booking, 'payment')] swallows the [RelatedObjectDoesNotExist]
    (an [AttributeError] subclass) and nothing else; the instance found stays
    cached on the booking. *)
Definition hasattr_payment (booking : Booking.obj) : action World (option Payment.obj) :=
  try_except (p ← Booking_payment booking; mret (Some p))
    (λ e, match e with DoesNotExist _ => mret None | _ => raise e end).

(** [self.listing] of a Booking. *)
Definition Booking_listing : action (Booking.obj * World) Listing.t :=
  b ← self;
  w ← db get_state;
  match listings w !! Booking.listing (Booking.cols b) with
  | Some l => mret l
  | None => raise (DoesNotExist "Listing")
  end.

(** [self.user] of a Booking. *)
Definition Booking_user : action (Booking.obj * World) User.t :=
  b ← self;
  w ← db get_state;
  match users w !! Booking.user (Booking.cols b) with
  | Some u => mret u
  | None => raise (DoesNotExist "User")
  end.

(** [self.booking.<m>] of a Payment: the cached Booking instance, fetched on
    first access, on which [m] then runs. *)
Definition Payment_booking {A} (m : action (Booking.obj * World) A)
    : action (Payment.obj * World) A :=
  λ '(p, w),
    let fetched :=
      match Payment.booking_obj p with
      | Some b => Some b
      | None =>
        match bookings w !! Payment.booking (Payment.cols p) with
        | Some c => Some (Booking.Obj (Some (Payment.booking (Payment.cols p))) c)
        | None => None
        end
      end in
    match fetched with
    | None => (Raise (DoesNotExist "Booking"), (p, w))
    | Some b =>
      let '(r, (b', w')) := m (b, w) in
      (r, (Payment.set_booking_obj (Some b') p, w'))
    end.

(** ** Model methods ([listings/models.py]) *)

(** [Booking.calculate_total_price] *)
Definition Booking_calculate_total_price : action (Booking.obj * World) Z :=
  b ← self;
  match Booking.check_out (Booking.cols b), Booking.check_in (Booking.cols b) with
  | Some check_out, Some check_in =>
    let nights := check_out - check_in in
    if Z.ltb 0 nights then
      l ← Booking_listing;
      let total := Listing.price_per_night l * nights in
      set_self (Booking.on_cols (Booking.set_total_price (Some total)));;
      mret total
    else mret 0
  | _, _ => mret 0
  end.

(** [not self.total_price or self.total_price == 0] *)
Definition total_price_unset (b : Booking.t) : bool :=
  match Booking.total_price b with
  | None => true
  | Some t => Z.eqb t 0
  end.

(** [Booking.save] *)
Definition Booking_save (now : Z) : action (Booking.obj * World) unit :=
  b ← self;
  (if total_price_unset (Booking.cols b)
   then Booking_calculate_total_price;; mret tt
   else mret tt);;
  Booking_Model_save now.

(** [Payment.mark_as_completed]; [timezone.now()] is [now]. *)
Definition Payment_mark_as_completed (str : value → string) (now : Z)
    (transaction_id : value) : action (Payment.obj * World) unit :=
  set_self (Payment.on_cols (Payment.set_status "completed"));;
  (if truthy transaction_id
   then set_self (Payment.on_cols
                    (Payment.set_transaction_id (to_column str transaction_id)))
   else mret tt);;
  set_self (Payment.on_cols (Payment.set_completed_at (Some now)));;
  Payment_Model_save now;;
  Payment_booking (set_self (Booking.on_cols (Booking.set_status "confirmed")));;
  Payment_booking (Booking_save now).

(** [Payment.mark_as_failed] *)
Definition Payment_mark_as_failed (str : value → string) (now : Z)
    (error_message : value) : action (Payment.obj * World) unit :=
  set_self (Payment.on_cols (Payment.set_status "failed"));;
  (if truthy error_message
   then set_self (Payment.on_cols
                    (Payment.set_error_message (to_column str error_message)))
   else mret tt);;
  Payment_Model_save now;;
  Payment_booking (set_self (Booking.on_cols (Booking.set_status "cancelled")));;
  Payment_booking (Booking_save now).

(** ** Celery: calling and running a task *)

(** Binding keyword arguments to the task's parameters, as Python does for a
    call: every parameter is given and no other keyword is. *)
Definition check_arguments (t : Task) (kwargs : list (string * value)) : bool :=
  forallb (λ p, bool_decide (p ∈ kwargs.*1)) (parameters t)
  && forallb (λ k, bool_decide (k ∈ parameters t)) (kwargs.*1).

(** [task.delay] with keyword arguments: with [strict_typing] the arguments are checked
    in the caller and a mismatch raises [TypeError] there; otherwise the
    message goes on the queue. *)
Definition delay (env : Env) (t : Task) (kwargs : list (string * value))
    : action World unit :=
  if strict_typing env && negb (check_arguments t kwargs)
  then raise TypeError
  else modify (λ w, set_queue (queue w ++ [Build_Job t kwargs 0 0]) w).

(** [self.retry(exc=exc, countdown=countdown)]: once the retry counter has
    reached [max_retries] the exception itself is raised and the task
    fails; before that a retry is scheduled. *)
Definition Task_retry (t : Task) (request_retries : nat) (exc : exn)
    (countdown : Z) : TaskOutcome :=
  if Nat.ltb (max_retries t) (request_retries + 1)
  then Failure exc
  else Retry countdown exc.

(** A keyword argument inside an f-string. *)
Definition fmt (env : Env) (v : value) : string :=
  match v with
  | VStr s => s
  | _ => str_value env v
  end.

Definition kwarg (kwargs : list (string * value)) (name : string) : value :=
  match list_find (λ kv, kv.1 = name) kwargs with
  | Some (_, (_, v)) => v
  | None => VNone
  end.

(** The mail [send_booking_confirmation_email] composes. *)
Definition confirmation_email (env : Env) (kwargs : list (string * value)) : Email := {|
  subject := "Booking Confirmation - " +:+ fmt env (kwarg kwargs "listing_title");
  message :=
    "
Dear " +:+ fmt env (kwarg kwargs "user_name") +:+ ",

Thank you for your booking!

Booking Details:
----------------
Booking ID: " +:+ fmt env (kwarg kwargs "booking_id") +:+ "
Property: " +:+ fmt env (kwarg kwargs "listing_title") +:+ "
Check-in: " +:+ fmt env (kwarg kwargs "check_in") +:+ "
Check-out: " +:+ fmt env (kwarg kwargs "check_out") +:+ "

We look forward to hosting you!

Best regards,
ALX Travel App Team
        ";
  from_email := DEFAULT_FROM_EMAIL env;
  recipient_list := [fmt env (kwarg kwargs "user_email")];
|}.

(** The body of [send_booking_confirmation_email] for one delivery attempt:
    the outcome and the mail that left, if one did. *)
Definition send_booking_confirmation_email_body (env : Env) (request_retries : nat)
    (kwargs : list (string * value)) (mail : Delivery) : TaskOutcome * list Email :=
  match mail with
  | Delivered =>
    (Success (dict [("status", VStr "success");
                    ("message", VStr ("Email sent to " +:+ fmt env (kwarg kwargs "user_email")));
                    ("booking_id", kwarg kwargs "booking_id")]),
     [confirmation_email env kwargs])
  | Undelivered exc =>
    (Task_retry send_booking_confirmation_email request_retries exc
       (60 * 2 ^ Z.of_nat request_retries), [])
  end.

(** One run of a job in the worker: the call fails with [TypeError] before
    the body starts when the arguments do not fit the signature. *)
Definition run_job (env : Env) (job : Job) (mail : Delivery) : TaskOutcome * list Email :=
  if check_arguments (job_task job) (job_kwargs job)
  then send_booking_confirmation_email_body env (job_retries job) (job_kwargs job) mail
  else (Failure TypeError, []).

(** The message a scheduled retry puts back on the queue. *)
Definition retry_job (job : Job) (countdown : Z) : Job :=
  Build_Job (job_task job) (job_kwargs job) (S (job_retries job)) countdown.

(** The worker takes the first message of the queue and runs it. *)
Definition worker_step (env : Env) (mail : Delivery) (w : World) : World :=
  match queue w with
  | [] => w
  | job :: rest =>
    let '(outcome, mails) := run_job env job mail in
    let rest' := match outcome with
                 | Retry countdown _ => (rest ++ [retry_job job countdown])%list
                 | _ => rest
                 end in
    set_task_log (task_log w ++ [outcome])
      (set_outbox (outbox w ++ mails) (set_queue rest' w))
  end.

(** The worker runs until the queue is empty or [mails], the fate of each
    delivery attempt in turn, is used up. *)
Fixpoint worker_run (env : Env) (mails : list Delivery) (w : World) : World :=
  match mails with
  | [] => w
  | mail :: mails' =>
    match queue w with
    | [] => w
    | _ :: _ => worker_run env mails' (worker_step env mail w)
    end
  end.

(** The outcomes of a job and of its retries; [mail n] is the fate of the
    delivery in the run whose retry counter is [n]. *)
Fixpoint job_outcomes (fuel : nat) (env : Env) (mail : nat → Delivery) (job : Job)
    : list TaskOutcome :=
  match fuel with
  | O => []
  | S fuel' =>
    let outcome := (run_job env job (mail (job_retries job))).1 in
    outcome ::
    match outcome with
    | Retry countdown _ => job_outcomes fuel' env mail (retry_job job countdown)
    | _ => []
    end
  end.

(** ** The gateway client: [requests.post]/[requests.get] followed by
    [response.json()] *)
Definition requests_call (reply : GatewayReply) (c : GatewayCall)
    : action World (Z * value) :=
  λ w,
    (match reply with
     | Responded status_code data => Ok (status_code, data)
     | Failed e => Raise e
     end,
     set_gateway_log (gateway_log w ++ [c]) w).

(** [s.upper()] on ASCII text. *)
Definition ascii_upper (c : ascii) : ascii :=
  let n := nat_of_ascii c in
  if Nat.leb 97 n && Nat.leb n 122 then ascii_of_nat (n - 32)%nat else c.

Fixpoint upper (s : string) : string :=
  match s with
  | EmptyString => EmptyString
  | String c s' => String (ascii_upper c) (upper s')
  end.

(** [f"TRV-{uuid.uuid4().hex[:12].upper()}"] *)
Definition make_reference (hex : string) : string :=
  "TRV-" +:+ upper (String.substring 0 12 hex).

(** ** The views ([listings/views.py]) *)

Definition HTTP_200_OK : Z := 200.
Definition HTTP_201_CREATED : Z := 201.
Definition HTTP_400_BAD_REQUEST : Z := 400.
Definition HTTP_404_NOT_FOUND : Z := 404.
Definition HTTP_500_INTERNAL_SERVER_ERROR : Z := 500.

(** [try: m except Model.DoesNotExist: ...]: a missing row of that model is
    [None], any other exception goes on. *)
Definition or_DoesNotExist {S A} (model : string) (m : action S A)
    : action S (option A) :=
  try_except (a ← m; mret (Some a))
    (λ e, match e with
          | DoesNotExist m => if String.eqb m model then mret None else raise e
          | _ => raise e
          end).

Definition opt_str (o : option string) : value :=
  match o with
  | Some s => VStr s
  | None => VNone
  end.

(** [payment.status in ['completed', 'processing']] *)
Definition in_progress_or_done (status : string) : bool :=
  String.eqb status "completed" || String.eqb status "processing".

(** The [try] block of [initiate_payment]; [self] is [payment].  In the
    response, [payment.checkout_url] is the value assigned to the attribute
    a few statements before. *)
Definition initiate_payment_try (env : Env) (inp : Inputs) (reference : string)
    (chapa_url : string) (payload : value) (authorization : string)
    : action (Payment.obj * World) Response :=
  '(status_code, response_data) ←
      db (requests_call (gateway inp) (Post chapa_url payload authorization));
  accepted ← (if Z.eqb status_code 200
              then st ← py_get response_data "status" VNone;
                   mret (eq_str st "success")
              else mret false);
  if accepted : bool then
    data ← py_getitem response_data "data";
    checkout_url ← py_getitem data "checkout_url";
    set_self (Payment.on_cols
                (Payment.set_checkout_url (to_column (str_value env) checkout_url)));;
    data ← py_getitem response_data "data";
    tx_ref ← py_get data "tx_ref" (VStr reference);
    set_self (Payment.on_cols
                (Payment.set_chapa_reference (to_column (str_value env) tx_ref)));;
    set_self (Payment.on_cols (Payment.set_status "processing"));;
    set_self (Payment.on_cols (Payment.set_raw_response response_data));;
    Payment_Model_save (now inp);;
    payment ← self;
    mret {|
      response_data :=
        dict [("status", VStr "success");
              ("message", VStr "Payment initiated successfully");
              ("data",
               dict [("payment_id", VStr (Payment.payment_id (Payment.cols payment)));
                     ("reference", VStr (Payment.reference (Payment.cols payment)));
                     ("checkout_url", checkout_url);
                     ("amount", VStr (str_Decimal env (Payment.amount (Payment.cols payment))));
                     ("currency", VStr (Payment.currency (Payment.cols payment)))])];
      response_status := HTTP_200_OK |}
  else
    error_message ← py_get response_data "message" (VStr "Payment initiation failed");
    Payment_mark_as_failed (str_value env) (now inp) error_message;;
    mret {|
      response_data :=
        dict [("status", VStr "error");
              ("message", error_message);
              ("data", response_data)];
      response_status := HTTP_400_BAD_REQUEST |}.

(** The two [except] clauses of [initiate_payment], tried in order. *)
Definition initiate_payment_except (env : Env) (inp : Inputs) (e : exn)
    : action (Payment.obj * World) Response :=
  if is_RequestException e then
    let error_message := "Failed to connect to payment gateway: " +:+ str_exn env e in
    Payment_mark_as_failed (str_value env) (now inp) (VStr error_message);;
    mret {|
      response_data := dict [("status", VStr "error"); ("message", VStr error_message)];
      response_status := HTTP_500_INTERNAL_SERVER_ERROR |}
  else
    let error_message := "Unexpected error: " +:+ str_exn env e in
    Payment_mark_as_failed (str_value env) (now inp) (VStr error_message);;
    mret {|
      response_data := dict [("status", VStr "error");
                             ("message", VStr "An unexpected error occurred")];
      response_status := HTTP_500_INTERNAL_SERVER_ERROR |}.

(** The [payload] dict of [initiate_payment]. *)
Definition initiate_payload (env : Env) (email first_name last_name phone_number
    reference : string) (booking : Booking.t) (listing : Listing.t) : value :=
  dict [("amount", VStr (str_Decimal env (Booking.total_price booking)));
        ("currency", VStr "ETB");
        ("email", VStr email);
        ("first_name", VStr first_name);
        ("last_name", VStr last_name);
        ("phone_number", VStr phone_number);
        ("tx_ref", VStr reference);
        ("callback_url", VStr (CHAPA_CALLBACK_URL env +:+ "?reference=" +:+ reference));
        ("return_url", VStr (CHAPA_CALLBACK_URL env +:+ "?reference=" +:+ reference));
        ("customization",
         dict [("title", VStr ("Booking Payment - " +:+ Listing.title listing));
               ("description",
                VStr ("Payment for booking " +:+ Booking.booking_id booking))])].

(** [initiate_payment(request)].  An exception that leaves the view is the
    [Raise] of the result: the framework answers it with a server error. *)
Definition initiate_payment (env : Env) (inp : Inputs) (request : Request)
    : action World Response :=
  match PaymentInitiateSerializer env (request_data request) with
  | inl errors => mret (Build_Response errors HTTP_400_BAD_REQUEST)
  | inr validated_data =>
    let booking_id := init_booking_id validated_data in
    let email := init_email validated_data in
    let first_name := init_first_name validated_data in
    let last_name := init_last_name validated_data in
    let phone_number := default "" (init_phone_number validated_data) in
    found ← or_DoesNotExist "Booking"
              (Booking_objects_get booking_id (request_user request));
    match found with
    | None =>
      mret (Build_Response (dict [("error", VStr "Booking not found")])
              HTTP_404_NOT_FOUND)
    | Some booking =>
      existing ← hasattr_payment booking;
      if match existing with
         | Some payment => in_progress_or_done (Payment.status (Payment.cols payment))
         | None => false
         end
      then
        mret (Build_Response
                (dict [("error", VStr "Payment already initiated or completed")])
                HTTP_400_BAD_REQUEST)
      else
        let reference := make_reference (uuid4_hex inp) in
        payment ← Payment_objects_create (now inp) (uuid4_default inp) booking
                    reference (Booking.total_price (Booking.cols booking))
                    "ETB" "pending";
        let chapa_url := CHAPA_BASE_URL env +:+ "/transaction/initialize" in
        listing ← call booking Booking_listing;
        let payload :=
          initiate_payload env email first_name last_name phone_number reference
            (Booking.cols booking) listing in
        let authorization := "Bearer " +:+ CHAPA_SECRET_KEY env in
        call payment
          (try_except
             (initiate_payment_try env inp reference chapa_url payload authorization)
             (initiate_payment_except env inp))
    end
  end.

(** The [try] block of [verify_payment]; [self] is [payment]. *)
Definition verify_payment_try (env : Env) (inp : Inputs) (chapa_url : string)
    (authorization : string) : action (Payment.obj * World) Response :=
  '(status_code, response_data) ←
      db (requests_call (gateway inp) (Get chapa_url authorization));
  accepted ← (if Z.eqb status_code 200
              then st ← py_get response_data "status" VNone;
                   mret (eq_str st "success")
              else mret false);
  if accepted : bool then
    transaction_data ← py_get response_data "data" (VDict ∅);
    transaction_status ← py_get transaction_data "status" VNone;
    if eq_str transaction_status "success" then
      transaction_id ← py_get transaction_data "reference" VNone;
      Payment_mark_as_completed (str_value env) (now inp) transaction_id;;
      method ← py_get transaction_data "method" (VStr "");
      set_self (Payment.on_cols
                  (Payment.set_payment_method (to_column (str_value env) method)));;
      set_self (Payment.on_cols (Payment.set_raw_response response_data));;
      Payment_Model_save (now inp);;
      booking ← Payment_booking self;
      user ← Payment_booking Booking_user;
      db (delay env send_booking_confirmation_email
            [("booking_id", VStr (Booking.booking_id (Booking.cols booking)));
             ("user_email", VStr (User.email user))]);;
      payment ← self;
      w ← db get_state;
      mret {|
        response_data :=
          dict [("status", VStr "success");
                ("message", VStr "Payment verified and completed successfully");
                ("data", PaymentSerializer env w payment)];
        response_status := HTTP_200_OK |}
    else if eq_str transaction_status "failed" then
      Payment_mark_as_failed (str_value env) (now inp) (VStr "Payment failed at gateway");;
      set_self (Payment.on_cols (Payment.set_raw_response response_data));;
      Payment_Model_save (now inp);;
      payment ← self;
      w ← db get_state;
      mret {|
        response_data :=
          dict [("status", VStr "failed");
                ("message", VStr "Payment verification failed");
                ("data", PaymentSerializer env w payment)];
        response_status := HTTP_400_BAD_REQUEST |}
    else
      set_self (Payment.on_cols (Payment.set_status "processing"));;
      set_self (Payment.on_cols (Payment.set_raw_response response_data));;
      Payment_Model_save (now inp);;
      payment ← self;
      w ← db get_state;
      mret {|
        response_data :=
          dict [("status", VStr "processing");
                ("message", VStr "Payment is still being processed");
                ("data", PaymentSerializer env w payment)];
        response_status := HTTP_200_OK |}
  else
    error_message ← py_get response_data "message" (VStr "Verification failed");
    mret {|
      response_data := dict [("status", VStr "error"); ("message", error_message)];
      response_status := HTTP_400_BAD_REQUEST |}.

(** The two [except] clauses of [verify_payment]. *)
Definition verify_payment_except (env : Env) (e : exn)
    : action (Payment.obj * World) Response :=
  if is_RequestException e then
    let error_message := "Failed to verify payment: " +:+ str_exn env e in
    mret {|
      response_data := dict [("status", VStr "error"); ("message", VStr error_message)];
      response_status := HTTP_500_INTERNAL_SERVER_ERROR |}
  else
    mret {|
      response_data := dict [("status", VStr "error");
                             ("message", VStr "An unexpected error occurred")];
      response_status := HTTP_500_INTERNAL_SERVER_ERROR |}.

(** [query_params.get('reference') or query_params.get('tx_ref')] *)
Definition reference_param (request : Request) : option string :=
  match query_params request !! "reference" with
  | Some r => if String.eqb r "" then query_params request !! "tx_ref" else Some r
  | None => query_params request !! "tx_ref"
  end.

(** [verify_payment(request)] *)
Definition verify_payment (env : Env) (inp : Inputs) (request : Request)
    : action World Response :=
  match reference_param request with
  | None | Some "" =>
    mret (Build_Response (dict [("error", VStr "Payment reference is required")])
            HTTP_400_BAD_REQUEST)
  | Some reference =>
    found ← or_DoesNotExist "Payment" (Payment_objects_get reference);
    match found with
    | None =>
      mret (Build_Response (dict [("error", VStr "Payment not found")])
              HTTP_404_NOT_FOUND)
    | Some payment =>
      if String.eqb (Payment.status (Payment.cols payment)) "completed" then
        w ← get_state;
        mret {|
          response_data :=
            dict [("status", VStr "success");
                  ("message", VStr "Payment already verified and completed");
                  ("data", PaymentSerializer env w payment)];
          response_status := HTTP_200_OK |}
      else
        let chapa_url := CHAPA_BASE_URL env +:+ "/transaction/verify/" +:+ reference in
        let authorization := "Bearer " +:+ CHAPA_SECRET_KEY env in
        call payment
          (try_except (verify_payment_try env inp chapa_url authorization)
                      (verify_payment_except env))
    end
  end.


(** [BookingViewSet.perform_create]: [serializer.save(user=...)] builds the
    instance from the validated attributes and saves it; the view then
    recomputes the price and saves again. *)
Definition BookingViewSet_perform_create (inp : Inputs) (attrs : Booking.t)
    (request : Request) : action World Booking.obj :=
  let instance :=
    Booking.Obj None
      (Booking.set_booking_id (uuid4_default inp)
         (Booking.set_user (request_user request) attrs)) in
  '(_, booking) ← run instance (Booking_save (now inp));
  '(_, booking) ← run booking Booking_calculate_total_price;
  '(_, booking) ← run booking (Booking_save (now inp));
  mret booking.

(** [ModelViewSet.create] around it. *)
Definition BookingViewSet_create (env : Env) (inp : Inputs) (request : Request)
    : action World Response :=
  match BookingSerializer env (request_data request) with
  | inl errors => mret (Build_Response errors HTTP_400_BAD_REQUEST)
  | inr attrs =>
    booking ← BookingViewSet_perform_create inp attrs request;
    mret (Build_Response (BookingSerializer_data env booking) HTTP_201_CREATED)
  end.

(** [BookingViewSet.get_queryset]: the bookings of the requester.  A
    queryset is the rows it selects under their primary keys; the order
    [Meta.ordering] puts them in is left out. *)
Definition BookingViewSet_get_queryset (request : Request) (w : World)
    : gmap Z Booking.t :=
  filter (λ kr, Booking.user kr.2 = request_user request) (bookings w).

(** ** The booking views that notify ([listings/listings/views.py]) *)

(** Python's whitespace among the ASCII characters. *)
Definition py_isspace (c : ascii) : bool :=
  let n := nat_of_ascii c in
  Nat.eqb n 32 || (Nat.leb 9 n && Nat.leb n 13) || (Nat.leb 28 n && Nat.leb n 31).

Fixpoint lstrip (s : string) : string :=
  match s with
  | EmptyString => EmptyString
  | String c s' => if py_isspace c then lstrip s' else s
  end.

(** [s.strip()] *)
Definition strip (s : string) : string :=
  String.rev (lstrip (String.rev (lstrip s))).

(** [User.get_full_name] *)
Definition get_full_name (u : User.t) : string :=
  strip (User.first_name u +:+ " " +:+ User.last_name u).

Module listings_views.

(** [BookingViewSet.perform_create]: saves the booking and queues the
    confirmation mail with all six arguments of the task. *)
Definition BookingViewSet_perform_create (env : Env) (inp : Inputs)
    (attrs : Booking.t) (request : Request) : action World Booking.obj :=
  let instance :=
    Booking.Obj None
      (Booking.set_booking_id (uuid4_default inp)
         (Booking.set_user (request_user request) attrs)) in
  '(_, booking) ← run instance (Booking_save (now inp));
  user ← call booking Booking_user;
  let user_name :=
    if String.eqb (get_full_name user) "" then User.username user
    else get_full_name user in
  listing ← call booking Booking_listing;
  delay env send_booking_confirmation_email
    [("booking_id", match Booking.pk booking with Some k => VNum k | None => VNone end);
     ("user_email", VStr (User.email user));
     ("user_name", VStr user_name);
     ("listing_title", VStr (Listing.title listing));
     ("check_in", VStr (str_date env (Booking.check_in (Booking.cols booking))));
     ("check_out", VStr (str_date env (Booking.check_out (Booking.cols booking))))];;
  mret booking.

(** [BookingViewSet.create] *)
Definition BookingViewSet_create (env : Env) (inp : Inputs) (request : Request)
    : action World Response :=
  match BookingSerializer env (request_data request) with
  | inl errors => mret (Build_Response errors HTTP_400_BAD_REQUEST)
  | inr attrs =>
    booking ← BookingViewSet_perform_create env inp attrs request;
    mret (Build_Response
            (dict [("message",
                    VStr "Booking created successfully! Confirmation email will be sent shortly.");
                   ("booking", BookingSerializer_data env booking)])
            HTTP_201_CREATED)
  end.

(** [BookingViewSet.get_queryset]: every booking for a staff member, the
    requester's own otherwise.  [request.user] is the row the
    authentication loaded; there is no queryset without it. *)
Definition BookingViewSet_get_queryset (request : Request) (w : World)
    : option (gmap Z Booking.t) :=
  match users w !! request_user request with
  | Some user =>
    Some (if User.is_staff user then bookings w
          else filter (λ kr, Booking.user kr.2 = request_user request) (bookings w))
  | None => None
  end.

End listings_views.

(** A request served, then the worker left to deliver: the response is what
    the client holds, whatever the worker meets afterwards. *)
Definition create_then_deliver (env : Env) (inp : Inputs) (request : Request)
    (mails : list Delivery) (w : World) : result Response * World :=
  let '(r, w') := listings_views.BookingViewSet_create env inp request w in
  (r, worker_run env mails w').

(** ** A concrete deployment, used to run the views

    The scenario of the specification: a listing at 200.00 a night, a
    booking of three nights by user 1 that is priced 600.00 and awaits its
    payment. *)

Definition demo_initiate_serializer (data : value) : value + InitiateData :=
  match data with
  | VDict d =>
    match d !! "booking_id", d !! "email", d !! "first_name", d !! "last_name" with
    | Some (VStr b), Some (VStr e), Some (VStr f), Some (VStr l) =>
      inr (Build_InitiateData b e f l
             (match d !! "phone_number" with Some (VStr p) => Some p | _ => None end))
    | _, _, _, _ => inl (dict [("detail", VStr "invalid")])
    end
  | _ => inl (dict [("detail", VStr "invalid")])
  end.

Definition demo_booking_attrs : Booking.t :=
  Booking.mk "" 0 1 (Some 739000) (Some 739003) 2 None "pending" None None.

Definition demo_env (strict : bool) : Env := {|
  CHAPA_BASE_URL := "https://api.chapa.co/v1";
  CHAPA_SECRET_KEY := "CHASECK_TEST";
  CHAPA_CALLBACK_URL := "http://localhost:8000/api/payments/verify/";
  DEFAULT_FROM_EMAIL := "noreply@alxtravel.test";
  strict_typing := strict;
  str_exn := λ _, "exception";
  str_value := λ _, "value";
  str_Decimal := λ _, "600.00";
  str_date := λ _, "2024-05-01";
  PaymentInitiateSerializer := demo_initiate_serializer;
  BookingSerializer := λ _, inr demo_booking_attrs;
  BookingSerializer_data := λ b, VStr (Booking.booking_id (Booking.cols b));
  PaymentSerializer := λ _ p,
    dict [("reference", VStr (Payment.reference (Payment.cols p)));
          ("status", VStr (Payment.status (Payment.cols p)))];
|}.

Definition demo_listing : Listing.t := Listing.mk "Lakeside Cabin" 20000 4 true.
Definition demo_user : User.t := User.mk "abebe" "abebe@example.com" "Abebe" "Bikila" false.
Definition demo_booking : Booking.t :=
  Booking.mk "b-0001" 1 1 (Some 739000) (Some 739003) 2 (Some 60000) "pending"
    (Some 1000) (Some 1000).

(** The payment of [demo_booking] in a given status. *)
Definition demo_payment (status : string) : Payment.t :=
  Payment.mk "p-0001" 1 None "TRV-0123456789AB" (Some 60000) "ETB" status
    None None None (Some 1100) None (Some 1100) None VNone.

Definition demo_world : World := {|
  listings := {[ 1 := demo_listing ]};
  users := {[ 1 := demo_user ]};
  bookings := {[ 1 := demo_booking ]};
  payments := ∅;
  queue := [];
  gateway_log := [];
  outbox := [];
  task_log := [];
|}.

(** [demo_world] once the booking has a payment in the given status. *)
Definition demo_world_paying (status : string) : World :=
  set_payments {[ 1 := demo_payment status ]} demo_world.

Definition demo_initiate_request : Request := {|
  request_user := 1;
  request_data := dict [("booking_id", VStr "b-0001");
                        ("email", VStr "abebe@example.com");
                        ("first_name", VStr "Abebe");
                        ("last_name", VStr "Bikila")];
  query_params := ∅;
|}.

Definition demo_verify_request : Request := {|
  request_user := 0;
  request_data := VNone;
  query_params := {[ "reference" := "TRV-0123456789AB" ]};
|}.

Definition demo_inputs (reply : GatewayReply) : Inputs := {|
  now := 2000;
  uuid4_hex := "0123456789abcdef0123456789abcdef";
  uuid4_default := "p-0002";
  gateway := reply;
|}.

(** Answers of the gateway. *)
Definition reply_checkout : GatewayReply :=
  Responded 200
    (dict [("status", VStr "success");
           ("data", dict [("checkout_url", VStr "https://checkout.chapa.co/pay/abc")])]).

Definition reply_rejected : GatewayReply :=
  Responded 400 (dict [("status", VStr "failed"); ("message", VStr "Invalid API Key")]).

Definition reply_verified (transaction_status : string) : GatewayReply :=
  Responded 200
    (dict [("status", VStr "success");
           ("data", dict [("status", VStr transaction_status);
                          ("reference", VStr "CHAPA-REF-1");
                          ("method", VStr "telebirr")])]).

Definition reply_timeout : GatewayReply := Failed (RequestException "timed out").


(** The arguments [BookingViewSet.perform_create] queues for it. *)
Definition demo_kwargs : list (string * value) :=
  [("booking_id", VNum 2);
   ("user_email", VStr "abebe@example.com");
   ("user_name", VStr "Abebe Bikila");
   ("listing_title", VStr "Lakeside Cabin");
   ("check_in", VStr "2024-05-01");
   ("check_out", VStr "2024-05-04")].

(** ** Vocabulary of the statements *)

(** Every stored row satisfies the constraints [models.py] declares: it
    would pass, at its own key, the checks a save makes. *)
Definition table_wf {R} (row_ok : R → bool) (clash : R → R → bool)
    (tbl : gmap Z R) : Prop :=
  map_Forall (λ k r, row_ok r = true ∧ unique_ok clash (Some k) r tbl = true) tbl.

Definition db_wf (w : World) : Prop :=
  table_wf (Booking_row_ok w) Booking_clash (bookings w)
  ∧ table_wf (Payment_row_ok w) Payment_clash (payments w).

(** The Payment rows of a booking. *)
Definition payments_of (bk : Z) (w : World) : gmap Z Payment.t :=
  filter (λ kr, Payment.booking kr.2 = bk) (payments w).

(** The gateway answered with status code 200 and a JSON object whose
    ["status"] is ["success"]: the condition of the views' first [if]. *)
Definition accepted (reply : GatewayReply) : bool :=
  match reply with
  | Responded status_code (VDict d) =>
    Z.eqb status_code 200 && eq_str (default VNone (d !! "status")) "success"
  | _ => false
  end.

(** [response_data.get('data', {}).get('status')] where it evaluates. *)
Definition transaction_status (response_data : gmap string value) : option value :=
  match default (VDict ∅) (response_data !! "data") with
  | VDict t => Some (default VNone (t !! "status"))
  | _ => None
  end.

(** The ["status"] tag of a response body. *)
Definition status_tag (r : Response) : option value :=
  match response_data r with
  | VDict d => d !! "status"
  | _ => None
  end.

(** The three statuses the glossary calls terminal. *)
Definition terminal (status : string) : bool :=
  String.eqb status "completed" || String.eqb status "failed"
  || String.eqb status "cancelled".

(** What [Booking.save] leaves in [total_price]: the product of price and
    nights when the field was unset and the stay has a night, the field
    itself otherwise. *)
Definition priced (w : World) (c : Booking.t) : Booking.t :=
  if total_price_unset c then
    match Booking.check_out c, Booking.check_in c, listings w !! Booking.listing c with
    | Some check_out, Some check_in, Some l =>
      if Z.ltb 0 (check_out - check_in)
      then Booking.set_total_price
             (Some (Listing.price_per_night l * (check_out - check_in))) c
      else c
    | _, _, _ => c
    end
  else c.

(** The columns of a Payment that a constraint looks at. *)
Definition Payment_keys (c : Payment.t)
    : string * Z * option string * string * option Z :=
  (Payment.payment_id c, Payment.booking c, Payment.transaction_id c,
   Payment.reference c, Payment.amount c).

(** The columns of a Booking that a constraint looks at, the price apart. *)
Definition Booking_keys (c : Booking.t) : string * Z * Z * option Z * option Z :=
  (Booking.booking_id c, Booking.user c, Booking.listing c,
   Booking.check_in c, Booking.check_out c).

(** A computation keeps an invariant of its state, however it ends. *)
Definition preserves {S A} (I : S → Prop) (m : action S A) : Prop :=
  ∀ s, I s → I (m s).2.

(** The Payment row at key [k] is [c]; inside a method of a Payment or of a
    Booking instance; inside a method of a Payment instance other than the
    one at [k]. *)
Definition row_kept (k : Z) (c : Payment.t) (w : World) : Prop :=
  payments w !! k = Some c.

Definition row_kept_in {O} (k : Z) (c : Payment.t) (s : O * World) : Prop :=
  row_kept k c s.2.

Definition row_kept_beside (k : Z) (c : Payment.t) (s : Payment.obj * World) : Prop :=
  row_kept k c s.2 ∧ Payment.pk s.1 ≠ k.

(** "Every terminal status is absorbing", for [verify_payment]: a Payment
    whose status is terminal has that status after the call. *)
Definition terminal_absorbing : Prop :=
  ∀ env inp request w k c,
    payments w !! k = Some c →
    terminal (Payment.status c) = true →
    Payment.status <$> payments (verify_payment env inp request w).2 !! k
    = Some (Payment.status c).


(** The ["message"] entry of a response body. *)
Definition message_of (r : Response) : option value :=
  match response_data r with
  | VDict d => d !! "message"
  | _ => None
  end.

(** The constraints hold, seen from inside a method. *)
Definition wf_in {O} (s : O * World) : Prop := db_wf s.2.

(** A job as [delay] queues it. *)
Definition fresh_job (kwargs : list (string * value)) : Job :=
  Build_Job send_booking_confirmation_email kwargs 0 0.

(** A condition on the state that the writes of the payment views do not
    disturb, as long as they fall on the keys [Kp] of the payments table and
    [Kb] of the bookings table. *)
Record stable_under_writes (Kp Kb : Z → Prop) (I : World → Prop) : Prop := {
  stable_log : ∀ l w, I w → I (set_gateway_log l w);
  stable_queue : ∀ q w, I w → I (set_queue q w);
  stable_payment :
    ∀ k c w, Kp k → I w → I (set_payments (<[k := c]> (payments w)) w);
  stable_booking :
    ∀ k c w, Kb k → I w → I (set_bookings (<[k := c]> (bookings w)) w);
}.

(** The condition inside a method of a Booking instance stored at a key of
    [Kb]; inside a method of a Payment instance stored at a key of [Kp]
    whose Booking is at a key of [Kb]. *)
Definition writes_in_booking (Kb : Z → Prop) (I : World → Prop)
    (s : Booking.obj * World) : Prop :=
  I s.2 ∧ ∃ bk, Booking.pk s.1 = Some bk ∧ Kb bk.

Definition writes_in_payment (Kp Kb : Z → Prop) (I : World → Prop)
    (s : Payment.obj * World) : Prop :=
  I s.2 ∧ Kp (Payment.pk s.1) ∧ Kb (Payment.booking (Payment.cols s.1))
  ∧ ∀ b, Payment.booking_obj s.1 = Some b → ∃ bk, Booking.pk b = Some bk ∧ Kb bk.

(** From [w] to [w'] no Payment and no Booking row went away, and the
    listings, the users, the mails sent and the worker's record are the
    same. *)
Definition nothing_deleted (w w' : World) : Prop :=
  dom (payments w) ⊆ dom (payments w')
  ∧ dom (bookings w) ⊆ dom (bookings w')
  ∧ listings w' = listings w ∧ users w' = users w
  ∧ outbox w' = outbox w ∧ task_log w' = task_log w.


(** A Payment row after [mark_as_failed(msg)]; a Booking row after the
    [save] that follows [self.booking.status = status]. *)
Definition failed_payment (str : value → string) (now : Z) (msg : value)
    (c : Payment.t) : Payment.t :=
  Payment.set_updated_at (Some now)
    ((if truthy msg then Payment.set_error_message (to_column str msg) else id)
       (Payment.set_status "failed" c)).

Definition saved_booking (now : Z) (w : World) (status : string) (b : Booking.t)
    : Booking.t :=
  Booking.set_updated_at (Some now) (priced w (Booking.set_status status b)).


(** The request [verify_payment] sends to the gateway. *)
Definition verify_call (env : Env) (reference : string) : GatewayCall :=
  Get (CHAPA_BASE_URL env +:+ "/transaction/verify/" +:+ reference)
      ("Bearer " +:+ CHAPA_SECRET_KEY env).


(** The ["data"] entry of a response body. *)
Definition data_of (r : Response) : option value :=
  match response_data r with
  | VDict d => d !! "data"
  | _ => None
  end.





(** A Payment row after [mark_as_completed(transaction_id)]. *)
Definition completed_payment (str : value → string) (now : Z) (transaction_id : value)
    (c : Payment.t) : Payment.t :=
  Payment.set_updated_at (Some now)
    (Payment.set_completed_at (Some now)
       ((if truthy transaction_id
         then Payment.set_transaction_id (to_column str transaction_id)
         else id) (Payment.set_status "completed" c))).

(** A second booking of the same user, paid: its Payment holds the
    gateway's reference CHAPA-REF-1 as transaction id. *)
Definition demo_booking_paid : Booking.t :=
  Booking.mk "b-0007" 1 1 (Some 739010) (Some 739012) 2 (Some 40000) "confirmed"
    (Some 1000) (Some 1200).

Definition demo_payment_paid : Payment.t :=
  Payment.mk "p-0007" 7 (Some "CHAPA-REF-1") "TRV-AAAAAAAAAAAA" (Some 40000) "ETB"
    "completed" (Some "telebirr") None None (Some 1100) (Some 1200) (Some 1200)
    None VNone.

Definition demo_world_two : World :=
  set_payments (<[7 := demo_payment_paid]> {[ 1 := demo_payment "processing" ]})
    (set_bookings (<[7 := demo_booking_paid]> {[ 1 := demo_booking ]}) demo_world).

(** The stay has no night to charge: a date is missing, or [check_out] is
    not after [check_in]. *)
Definition no_night (c : Booking.t) : Prop :=
  match Booking.check_out c, Booking.check_in c with
  | Some check_out, Some check_in => (check_out <= check_in)%Z
  | _, _ => True
  end.

(** The log of gateway requests is [L]; the same inside a method. *)
Definition log_is (L : list GatewayCall) (w : World) : Prop := gateway_log w = L.

Definition log_in {O} (L : list GatewayCall) (s : O * World) : Prop :=
  gateway_log s.2 = L.

(** From the log [L] to the log [L'] nothing was sent, or one request, which
    satisfies [P]. *)
Definition sent_at_most_one (P : GatewayCall → Prop) (L L' : list GatewayCall)
    : Prop :=
  L' = L ∨ ∃ call, P call ∧ L' = (L ++ [call])%list.

(** What a computation returns, when it returns, satisfies [P]. *)
Definition answers {S A} (P : A → Prop) (m : action S A) : Prop :=
  ∀ s, match (m s).1 with Ok a => P a | Raise _ => True end.

(** The status codes the payment views answer with. *)
Definition payment_view_status (r : Response) : Prop :=
  response_status r = HTTP_200_OK ∨ response_status r = HTTP_400_BAD_REQUEST
  ∨ response_status r = HTTP_404_NOT_FOUND
  ∨ response_status r = HTTP_500_INTERNAL_SERVER_ERROR.

Arguments Payment_Model_save : simpl never.
Arguments Booking_Model_save : simpl never.
Arguments Booking_save : simpl never.
Arguments Payment_booking : simpl never.
Arguments Payment_mark_as_completed : simpl never.
Arguments Payment_mark_as_failed : simpl never.
Arguments Payment_objects_create : simpl never.
Arguments delay : simpl never.

(** * Properties *)

(** ** The object-relational layer *)

Section Lookup.
Context {R : Type} (model : string) (P : R → bool).

(** A [get] that finds a row finds the only row that matches. *)
Lemma objects_get_Ok (tbl : gmap Z R) k c :
  objects_get model P tbl = Ok (k, c) →
  tbl !! k = Some c ∧ P c = true
  ∧ ∀ k' c', tbl !! k' = Some c' → P c' = true → k' = k.
Proof.
  unfold objects_get. intros H.
  destruct (map_to_list (filter (λ kr, P kr.2 = true) tbl)) as [|kr [|kr' l]] eqn:E;
    simplify_eq.
  assert (Hin : ∀ k' c', tbl !! k' = Some c' ∧ P c' = true ↔ (k', c') ∈ [(k, c)]).
  { intros k' c'. rewrite <- E, elem_of_map_to_list, map_lookup_filter_Some.
    reflexivity. }
  destruct (proj2 (Hin k c)) as [Hk HP]; [apply list_elem_of_singleton; done|].
  split; [exact Hk|]. split; [exact HP|].
  intros k' c' Hk' HP'.
  assert (Hel : (k', c') ∈ [(k, c)]) by (apply Hin; split; assumption).
  apply list_elem_of_singleton in Hel. congruence.
Qed.

(** The one matching row is found. *)
Lemma objects_get_unique (tbl : gmap Z R) k c :
  tbl !! k = Some c → P c = true →
  (∀ k' c', tbl !! k' = Some c' → P c' = true → k' = k) →
  objects_get model P tbl = Ok (k, c).
Proof.
  intros Hk HP Huniq. unfold objects_get.
  assert (filter (λ kr, P kr.2 = true) tbl = {[ k := c ]}) as ->.
  { apply map_eq. intros i. destruct (decide (i = k)) as [->|Hne].
    - rewrite lookup_singleton_eq. apply map_lookup_filter_Some. done.
    - rewrite lookup_singleton_ne by done.
      apply map_lookup_filter_None. right. intros c' Hc' HP'.
      apply Hne. eapply Huniq; done. }
  rewrite map_to_list_singleton. done.
Qed.

(** No row matches. *)
Lemma objects_get_none (tbl : gmap Z R) :
  (∀ k c, tbl !! k = Some c → P c = false) →
  objects_get model P tbl = Raise (DoesNotExist model).
Proof.
  intros Hnone. unfold objects_get.
  assert (filter (λ kr, P kr.2 = true) tbl = ∅) as ->.
  { apply map_empty_filter. intros k c Hk HP. simpl in HP.
    rewrite (Hnone k c Hk) in HP. done. }
  rewrite map_to_list_empty. done.
Qed.

(** [get] raises one of its two exceptions or returns a stored row. *)
Lemma objects_get_cases (tbl : gmap Z R) :
  objects_get model P tbl = Raise (DoesNotExist model)
  ∨ objects_get model P tbl = Raise MultipleObjectsReturned
  ∨ ∃ k c, objects_get model P tbl = Ok (k, c) ∧ tbl !! k = Some c ∧ P c = true.
Proof.
  destruct (objects_get model P tbl) as [[k c]|e] eqn:E.
  - right; right. exists k, c. split; [done|].
    apply objects_get_Ok in E. tauto.
  - unfold objects_get in E.
    destruct (map_to_list _) as [|? [|? ?]]; simplify_eq; auto.
Qed.
End Lookup.

Section Unique.
Context {R : Type} (clash : R → R → bool).

Lemma unique_ok_true pk (r : R) (tbl : gmap Z R) :
  unique_ok clash pk r tbl = true
  ↔ ∀ k r', tbl !! k = Some r' → Some k = pk ∨ clash r r' = false.
Proof. unfold unique_ok. rewrite bool_decide_eq_true. reflexivity. Qed.

Lemma unique_ok_false pk (r : R) (tbl : gmap Z R) k r' :
  tbl !! k = Some r' → Some k ≠ pk → clash r r' = true →
  unique_ok clash pk r tbl = false.
Proof.
  intros Hk Hpk Hclash. apply not_true_is_false. rewrite unique_ok_true.
  intros H. destruct (H k r' Hk); congruence.
Qed.

(** The check looks at the new row through [clash] only. *)
Lemma unique_ok_ext pk (r1 r2 : R) (tbl : gmap Z R) :
  (∀ r', clash r1 r' = clash r2 r') →
  unique_ok clash pk r1 tbl = unique_ok clash pk r2 tbl.
Proof.
  intros Hext. apply eq_true_iff_eq. rewrite !unique_ok_true.
  split; intros H k r' Hk; specialize (H k r' Hk);
    [rewrite <- Hext | rewrite Hext]; done.
Qed.

(** A row that was inserted at a fresh key passes the check of an update
    at that key. *)
Lemma unique_ok_inserted k (r r0 : R) (tbl : gmap Z R) :
  unique_ok clash None r tbl = true →
  unique_ok clash (Some k) r (<[k := r0]> tbl) = true.
Proof.
  rewrite !unique_ok_true. intros H k' r' Hk'.
  destruct (decide (k' = k)) as [->|Hne]; [by left|].
  rewrite lookup_insert_ne in Hk' by done.
  destruct (H k' r' Hk'); [done | by right].
Qed.

(** Overwriting the row at [k] does not disturb the check at [k]. *)
Lemma unique_ok_overwrite k (r r0 : R) (tbl : gmap Z R) :
  unique_ok clash (Some k) r tbl = true →
  unique_ok clash (Some k) r (<[k := r0]> tbl) = true.
Proof.
  rewrite !unique_ok_true. intros H k' r' Hk'.
  destruct (decide (k' = k)) as [->|Hne]; [by left|].
  rewrite lookup_insert_ne in Hk' by done. eauto.
Qed.
End Unique.

Lemma next_pk_fresh {R} (tbl : gmap Z R) : tbl !! next_pk tbl = None.
Proof. apply not_elem_of_dom. unfold next_pk. apply is_fresh. Qed.

(** ** Running computations step by step *)

Lemma bind_Ok {S A B} (m : action S A) (k : A → action S B) s a s' :
  m s = (Ok a, s') → (m ≫= k) s = k a s'.
Proof. intros H. unfold mbind, action_bind. rewrite H. done. Qed.

Lemma bind_Raise {S A B} (m : action S A) (k : A → action S B) s e s' :
  m s = (Raise e, s') → (m ≫= k) s = (Raise e, s').
Proof. intros H. unfold mbind, action_bind. rewrite H. done. Qed.

Lemma or_DoesNotExist_Ok {S A} model (m : action S A) s a s' :
  m s = (Ok a, s') → or_DoesNotExist model m s = (Ok (Some a), s').
Proof.
  intros H. unfold or_DoesNotExist, try_except.
  rewrite (bind_Ok _ _ _ _ _ H). done.
Qed.

(** ** Rows of a well-formed database *)

Lemma Payment_clash_false r r' :
  Payment_clash r r' = false →
  Payment.payment_id r' ≠ Payment.payment_id r
  ∧ Payment.booking r' ≠ Payment.booking r
  ∧ Payment.reference r' ≠ Payment.reference r.
Proof.
  unfold Payment_clash. rewrite !orb_false_iff, !bool_decide_eq_false. tauto.
Qed.

Lemma Payment_clash_booking r r' :
  Payment.booking r' = Payment.booking r → Payment_clash r r' = true.
Proof.
  intros H. unfold Payment_clash.
  rewrite (bool_decide_eq_true_2 _ H), !orb_true_r. done.
Qed.

Section WellFormed.
Context (w : World) (Hwf : db_wf w).

Lemma wf_payment_unique k c k' c' :
  payments w !! k = Some c → payments w !! k' = Some c' →
  Payment.booking c' = Payment.booking c
  ∨ Payment.reference c' = Payment.reference c
  ∨ Payment.payment_id c' = Payment.payment_id c →
  k' = k.
Proof.
  intros Hk Hk' Hsame. destruct Hwf as [_ Hp].
  destruct (Hp k c Hk) as [_ Hu].
  rewrite unique_ok_true in Hu.
  destruct (Hu k' c' Hk') as [?|Hclash]; [congruence|].
  apply Payment_clash_false in Hclash.
  destruct Hclash as (? & ? & ?), Hsame as [?|[?|?]]; done.
Qed.

Lemma wf_booking_unique bk b bk' b' :
  bookings w !! bk = Some b → bookings w !! bk' = Some b' →
  Booking.booking_id b' = Booking.booking_id b → bk' = bk.
Proof.
  intros Hk Hk' Hsame. destruct Hwf as [Hb _].
  destruct (Hb bk b Hk) as [_ Hu].
  rewrite unique_ok_true in Hu.
  destruct (Hu bk' b' Hk') as [?|Hclash]; [congruence|].
  unfold Booking_clash in Hclash. rewrite bool_decide_eq_false in Hclash. done.
Qed.

Lemma wf_Booking_objects_get bk b :
  bookings w !! bk = Some b →
  Booking_objects_get (Booking.booking_id b) (Booking.user b) w
  = (Ok (Booking.Obj (Some bk) b), w).
Proof.
  intros Hk. unfold Booking_objects_get.
  erewrite objects_get_unique; [done | exact Hk | |].
  - rewrite !bool_decide_eq_true_2; done.
  - intros bk' b' Hk' HP. apply andb_true_iff in HP as [HP _].
    apply bool_decide_eq_true in HP. eapply wf_booking_unique; done.
Qed.

Lemma wf_Payment_objects_get k c :
  payments w !! k = Some c →
  Payment_objects_get (Payment.reference c) w = (Ok (Payment.Obj k c None), w).
Proof.
  intros Hk. unfold Payment_objects_get.
  erewrite objects_get_unique; [done | exact Hk | |].
  - rewrite bool_decide_eq_true_2; done.
  - intros k' c' Hk' HP. apply bool_decide_eq_true in HP.
    eapply wf_payment_unique; eauto.
Qed.

Lemma wf_Booking_payment k c b :
  payments w !! k = Some c →
  Booking_payment (Booking.Obj (Some (Payment.booking c)) b) w
  = (Ok (Payment.Obj k c (Some (Booking.Obj (Some (Payment.booking c)) b))), w).
Proof.
  intros Hk. unfold Booking_payment. simpl.
  erewrite objects_get_unique; [done | exact Hk | |].
  - rewrite bool_decide_eq_true_2; done.
  - intros k' c' Hk' HP. apply bool_decide_eq_true in HP.
    eapply wf_payment_unique; eauto.
Qed.

Lemma wf_hasattr_payment k c b :
  payments w !! k = Some c →
  hasattr_payment (Booking.Obj (Some (Payment.booking c)) b) w
  = (Ok (Some (Payment.Obj k c (Some (Booking.Obj (Some (Payment.booking c)) b)))), w).
Proof.
  intros Hk. unfold hasattr_payment, try_except.
  rewrite (bind_Ok _ _ _ _ _ (wf_Booking_payment k c b Hk)). done.
Qed.

(** A booking has at most one Payment row. *)
Lemma wf_payments_of k c :
  payments w !! k = Some c → payments_of (Payment.booking c) w = {[ k := c ]}.
Proof.
  intros Hk. unfold payments_of. apply map_eq. intros i.
  destruct (decide (i = k)) as [->|Hne].
  - rewrite lookup_singleton_eq. apply map_lookup_filter_Some. done.
  - rewrite lookup_singleton_ne by done.
    apply map_lookup_filter_None. right. intros c' Hc' HP. simpl in HP.
    apply Hne. eapply wf_payment_unique; eauto.
Qed.
End WellFormed.


(** ** Initiating a payment for a booking that has one *)

Section InitiateWithPayment.
Context (env : Env) (inp : Inputs) (request : Request) (w : World).
Context (validated_data : InitiateData).
Context (bk : Z) (b : Booking.t) (k : Z) (c : Payment.t).
Hypothesis Hwf : db_wf w.
Hypothesis Hvalid : PaymentInitiateSerializer env (request_data request) = inr validated_data.
Hypothesis Hbooking : bookings w !! bk = Some b.
Hypothesis Hid : Booking.booking_id b = init_booking_id validated_data.
Hypothesis Howner : Booking.user b = request_user request.
Hypothesis Hpayment : payments w !! k = Some c.
Hypothesis Hof : Payment.booking c = bk.

(** The view up to its conflict check. *)
Lemma initiate_payment_to_check :
  initiate_payment env inp request w
  = (if in_progress_or_done (Payment.status c)
     then mret (Build_Response
                  (dict [("error", VStr "Payment already initiated or completed")])
                  HTTP_400_BAD_REQUEST)
     else
       payment ← Payment_objects_create (now inp) (uuid4_default inp)
                   (Booking.Obj (Some bk) b) (make_reference (uuid4_hex inp))
                   (Booking.total_price b) "ETB" "pending";
       listing ← call (Booking.Obj (Some bk) b) Booking_listing;
       call payment
         (try_except
            (initiate_payment_try env inp (make_reference (uuid4_hex inp))
               (CHAPA_BASE_URL env +:+ "/transaction/initialize")
               (initiate_payload env (init_email validated_data)
                  (init_first_name validated_data) (init_last_name validated_data)
                  (default "" (init_phone_number validated_data))
                  (make_reference (uuid4_hex inp)) b listing)
               ("Bearer " +:+ CHAPA_SECRET_KEY env))
            (initiate_payment_except env inp))) w.
Proof.
  unfold initiate_payment. rewrite Hvalid.
  pose proof (wf_Booking_objects_get w Hwf bk b Hbooking) as Hget.
  rewrite Hid, Howner in Hget.
  rewrite (bind_Ok _ _ _ _ _ (or_DoesNotExist_Ok "Booking" _ _ _ _ Hget)).
  subst bk.
  rewrite (bind_Ok _ _ _ _ _ (wf_hasattr_payment w Hwf k c b Hpayment)).
  simpl. destruct (in_progress_or_done (Payment.status c)); reflexivity.
Qed.

(** C1. A booking whose Payment is 'processing' or 'completed': a further
    [initiate_payment] for it is answered with the conflict error (status
    400, "Payment already initiated or completed"), the whole state is as
    before (no Payment row is added, the Payment and the Booking are
    untouched, the gateway is not called), and the booking still has
    exactly one Payment row. *)
Theorem initiate_payment_conflict :
  Payment.status c = "processing" ∨ Payment.status c = "completed" →
  initiate_payment env inp request w
  = (Ok (Build_Response
           (dict [("error", VStr "Payment already initiated or completed")])
           HTTP_400_BAD_REQUEST), w)
  ∧ size (payments_of bk (initiate_payment env inp request w).2) = 1%nat
  ∧ payments_of bk (initiate_payment env inp request w).2 = payments_of bk w.
Proof.
  intros Hstatus.
  assert (Hrun : initiate_payment env inp request w
                 = (Ok (Build_Response
                          (dict [("error", VStr "Payment already initiated or completed")])
                          HTTP_400_BAD_REQUEST), w)).
  { rewrite initiate_payment_to_check.
    assert (in_progress_or_done (Payment.status c) = true) as ->; [|done].
    destruct Hstatus as [-> | ->]; reflexivity. }
  rewrite Hrun. simpl. split; [done|]. split; [|done].
  subst bk. rewrite (wf_payments_of w Hwf k c Hpayment).
  apply map_size_singleton.
Qed.

(** C10. A booking whose Payment is 'pending', 'failed' or 'cancelled':
    the conflict check lets the request through, the INSERT of a second
    Payment row for the booking violates the one-to-one constraint, and
    the [IntegrityError] leaves the view unhandled; no row is written and
    the gateway is not called. *)
Theorem initiate_payment_second_row_integrity_error :
  Payment.status c = "pending" ∨ Payment.status c = "failed"
  ∨ Payment.status c = "cancelled" →
  in_progress_or_done (Payment.status c) = false
  ∧ initiate_payment env inp request w = (Raise IntegrityError, w).
Proof.
  intros Hstatus.
  assert (Hcheck : in_progress_or_done (Payment.status c) = false).
  { destruct Hstatus as [-> | [-> | ->]]; reflexivity. }
  split; [exact Hcheck|].
  rewrite initiate_payment_to_check, Hcheck.
  apply bind_Raise. unfold Payment_objects_create. simpl.
  rewrite (unique_ok_false Payment_clash None _ (payments w) k c Hpayment);
    [ | discriminate | apply Payment_clash_booking; simpl; congruence ].
  rewrite andb_false_r. reflexivity.
Qed.
End InitiateWithPayment.

(** The demonstration database satisfies its constraints. *)
Lemma demo_world_paying_wf status : db_wf (demo_world_paying status).
Proof.
  split.
  - apply map_Forall_singleton. split; [reflexivity|].
    apply unique_ok_true. intros k r Hk.
    change (({[ 1 := demo_booking ]} : gmap Z Booking.t) !! k = Some r) in Hk.
    apply lookup_singleton_Some in Hk as [<- _]. by left.
  - apply map_Forall_singleton. split; [reflexivity|].
    apply unique_ok_true. intros k r Hk.
    change (({[ 1 := demo_payment status ]} : gmap Z Payment.t) !! k = Some r) in Hk.
    apply lookup_singleton_Some in Hk as [<- _]. by left.
Qed.

Lemma initiate_payment_conflict_witness :
  initiate_payment (demo_env true) (demo_inputs reply_checkout)
    demo_initiate_request (demo_world_paying "processing")
  = (Ok (Build_Response
           (dict [("error", VStr "Payment already initiated or completed")])
           HTTP_400_BAD_REQUEST), demo_world_paying "processing")
  ∧ size (payments_of 1
            (initiate_payment (demo_env true) (demo_inputs reply_checkout)
               demo_initiate_request (demo_world_paying "processing")).2) = 1%nat
  ∧ payments_of 1
      (initiate_payment (demo_env true) (demo_inputs reply_checkout)
         demo_initiate_request (demo_world_paying "processing")).2
    = payments_of 1 (demo_world_paying "processing").
Proof.
  apply (initiate_payment_conflict (demo_env true) (demo_inputs reply_checkout)
           demo_initiate_request (demo_world_paying "processing")
           (Build_InitiateData "b-0001" "abebe@example.com" "Abebe" "Bikila" None)
           1 demo_booking 1 (demo_payment "processing")).
  - apply demo_world_paying_wf.
  - reflexivity.
  - reflexivity.
  - reflexivity.
  - reflexivity.
  - reflexivity.
  - reflexivity.
  - left. reflexivity.
Defined.

Lemma initiate_payment_second_row_integrity_error_witness :
  in_progress_or_done (Payment.status (demo_payment "failed")) = false
  ∧ initiate_payment (demo_env true) (demo_inputs reply_checkout)
      demo_initiate_request (demo_world_paying "failed")
    = (Raise IntegrityError, demo_world_paying "failed").
Proof.
  apply (initiate_payment_second_row_integrity_error (demo_env true)
           (demo_inputs reply_checkout) demo_initiate_request
           (demo_world_paying "failed")
           (Build_InitiateData "b-0001" "abebe@example.com" "Abebe" "Bikila" None)
           1 demo_booking 1 (demo_payment "failed")).
  - apply demo_world_paying_wf.
  - reflexivity.
  - reflexivity.
  - reflexivity.
  - reflexivity.
  - reflexivity.
  - reflexivity.
  - right. left. reflexivity.
Defined.

(** ** Saving rows *)

Lemma Payment_row_ok_keys w c c0 :
Payment_keys c = Payment_keys c0 → Payment_row_ok w c = Payment_row_ok w c0.
Proof. unfold Payment_keys, Payment_row_ok. intros [= _ -> _ _ ->]. done. Qed.

Lemma Payment_clash_keys c c0 r :
Payment_keys c = Payment_keys c0 → Payment_clash c r = Payment_clash c0 r.
Proof. unfold Payment_keys, Payment_clash. intros [= -> -> -> -> _]. done. Qed.

(** An UPDATE of a Payment goes through when the columns under a constraint
    are those of a row [c0] that satisfies the constraints at that key. *)
Lemma Payment_Model_save_Ok now p c0 w :
Payment_row_ok w c0 = true →
unique_ok Payment_clash (Some (Payment.pk p)) c0 (payments w) = true →
Payment_keys (Payment.cols p) = Payment_keys c0 →
Payment_Model_save now (p, w)
= (Ok tt,
   (Payment.on_cols (Payment.set_updated_at (Some now)) p,
    set_payments
      (<[Payment.pk p := Payment.set_updated_at (Some now) (Payment.cols p)]>
         (payments w)) w)).
Proof.
intros Hrow Huniq Hkeys. unfold Payment_Model_save.
assert (Hk : Payment_keys (Payment.set_updated_at (Some now) (Payment.cols p))
             = Payment_keys c0)
  by (rewrite <- Hkeys; reflexivity).
rewrite (Payment_row_ok_keys _ _ _ Hk), Hrow.
rewrite (unique_ok_ext Payment_clash _ _ c0), Huniq; [done|].
intros r'. apply Payment_clash_keys. exact Hk.
Qed.

(** ** Verifying a payment that exists *)

Section VerifyFound.
Context (env : Env) (inp : Inputs) (request : Request) (w : World).
Context (reference : string) (k : Z) (c : Payment.t).
Hypothesis Hwf : db_wf w.
Hypothesis Hparam : reference_param request = Some reference.
Hypothesis Hnonempty : reference ≠ "".
Hypothesis Hpayment : payments w !! k = Some c.
Hypothesis Href : Payment.reference c = reference.

(** The request the view sends to the gateway. *)
Let call_sent : GatewayCall :=
  Get (CHAPA_BASE_URL env +:+ "/transaction/verify/" +:+ reference)
      ("Bearer " +:+ CHAPA_SECRET_KEY env).

(** The view up to its test of the stored status. *)
Lemma verify_payment_found :
verify_payment env inp request w
= (if String.eqb (Payment.status c) "completed" then
     w0 ← get_state;
     mret {|
       response_data :=
         dict [("status", VStr "success");
               ("message", VStr "Payment already verified and completed");
               ("data", PaymentSerializer env w0 (Payment.Obj k c None))];
       response_status := HTTP_200_OK |}
   else
     call (Payment.Obj k c None)
       (try_except
          (verify_payment_try env inp
             (CHAPA_BASE_URL env +:+ "/transaction/verify/" +:+ reference)
             ("Bearer " +:+ CHAPA_SECRET_KEY env))
          (verify_payment_except env))) w.
Proof.
unfold verify_payment. rewrite Hparam.
destruct reference as [|a s] eqn:E; [done|]. rewrite <- E in *.
pose proof (wf_Payment_objects_get w Hwf k c Hpayment) as Hget.
rewrite Href in Hget.
rewrite (bind_Ok _ _ _ _ _ (or_DoesNotExist_Ok "Payment" _ _ _ _ Hget)).
simpl. reflexivity.
Qed.

(** C3. A 'completed' Payment: [verify_payment] answers 200 with the tag
    "success" and the serialized Payment as it is stored, whatever the
    gateway would have said; the state, the log of gateway requests
    included, is the one before, and a second call returns the same. *)
Theorem verify_payment_completed_idempotent :
Payment.status c = "completed" →
verify_payment env inp request w
= (Ok {| response_data :=
           dict [("status", VStr "success");
                 ("message", VStr "Payment already verified and completed");
                 ("data", PaymentSerializer env w (Payment.Obj k c None))];
         response_status := HTTP_200_OK |}, w)
∧ (∀ r, (verify_payment env inp request w).1 = Ok r →
        status_tag r = Some (VStr "success"))
∧ gateway_log (verify_payment env inp request w).2 = gateway_log w
∧ payments (verify_payment env inp request w).2 = payments w
∧ bookings (verify_payment env inp request w).2 = bookings w
∧ ∀ inp', verify_payment env inp' request (verify_payment env inp request w).2
          = verify_payment env inp request w.
Proof.
intros Hstatus.
assert (Hrun : ∀ i, verify_payment env i request w
               = (Ok {| response_data :=
                          dict [("status", VStr "success");
                                ("message", VStr "Payment already verified and completed");
                                ("data", PaymentSerializer env w (Payment.Obj k c None))];
                        response_status := HTTP_200_OK |}, w)).
{ intros i. unfold verify_payment. rewrite Hparam.
  destruct reference as [|a s] eqn:E; [done|]. rewrite <- E in *.
  pose proof (wf_Payment_objects_get w Hwf k c Hpayment) as Hget.
  rewrite Href in Hget.
  rewrite (bind_Ok _ _ _ _ _ (or_DoesNotExist_Ok "Payment" _ _ _ _ Hget)).
  simpl. rewrite Hstatus. reflexivity. }
rewrite !Hrun. simpl. split; [done|]. split.
- intros r [= <-]. reflexivity.
- split_and!; first [done | intros inp'; apply Hrun].
Qed.

(** C5. A Payment that is not 'completed', and a gateway request that raises
    (a transport error or any other exception) or is answered with anything
    but status code 200 and a "success" envelope: the caller gets a response
    tagged "error" with status 400 or 500, and the state differs from the
    one before in the log of gateway requests only: no Payment row, no
    Booking row and no queued job has changed. *)
Theorem verify_payment_error_no_mutation :
Payment.status c ≠ "completed" →
accepted (gateway inp) = false →
∃ resp,
  verify_payment env inp request w
  = (Ok resp, set_gateway_log (gateway_log w ++ [call_sent]) w)
  ∧ status_tag resp = Some (VStr "error")
  ∧ (response_status resp = HTTP_400_BAD_REQUEST
     ∨ response_status resp = HTTP_500_INTERNAL_SERVER_ERROR)
  ∧ payments (verify_payment env inp request w).2 = payments w
  ∧ bookings (verify_payment env inp request w).2 = bookings w
  ∧ queue (verify_payment env inp request w).2 = queue w.
Proof.
intros Hst Hacc. rewrite verify_payment_found.
apply String.eqb_neq in Hst. rewrite Hst.
unfold call, try_except, verify_payment_try.
unfold mbind, action_bind, db, zoom, requests_call.
destruct (gateway inp) as [code body|e]; simpl.
- destruct (Z.eqb code 200) eqn:Hcode; simpl in Hacc.
  + destruct body; simpl;
      try (eexists; split; [reflexivity|];
           split; [reflexivity|]; split; [by right|done]).
    rewrite Hcode in Hacc. simpl in Hacc.
    destruct (d !! "status") as [v|]; simpl in Hacc |- *; [rewrite Hacc; simpl|];
      (eexists; split; [reflexivity|]; split; [reflexivity|]; split; [by left|done]).
  + destruct body; simpl;
      try (eexists; split; [reflexivity|];
           split; [reflexivity|]; split; [by right|done]).
    eexists; split; [reflexivity|]. split; [reflexivity|]. split; [by left|done].
- unfold verify_payment_except.
  destruct (is_RequestException e); simpl;
    (eexists; split; [reflexivity|]; split; [reflexivity|]; split; [by right|done]).
Qed.

(** C8. A Payment that is not 'completed', and a gateway answer with status
    code 200, a "success" envelope and a transaction status that is neither
    "success" nor "failed": the Payment row gets status 'processing' (and the
    answer as its raw response), the response is tagged "processing", and
    the table of bookings is the one before. *)
Theorem verify_payment_still_processing (d : gmap string value) (ts : value) :
Payment.status c ≠ "completed" →
gateway inp = Responded 200 (VDict d) →
eq_str (default VNone (d !! "status")) "success" = true →
transaction_status d = Some ts →
eq_str ts "success" = false →
eq_str ts "failed" = false →
let c' := Payment.set_updated_at (Some (now inp))
            (Payment.set_raw_response (VDict d)
               (Payment.set_status "processing" c)) in
let w' := set_payments (<[k := c']> (payments w))
            (set_gateway_log (gateway_log w ++ [call_sent]) w) in
verify_payment env inp request w
= (Ok {| response_data :=
           dict [("status", VStr "processing");
                 ("message", VStr "Payment is still being processed");
                 ("data", PaymentSerializer env w' (Payment.Obj k c' None))];
         response_status := HTTP_200_OK |}, w')
∧ payments w' !! k = Some c'
∧ Payment.status c' = "processing"
∧ bookings w' = bookings w
∧ (∀ k', k' ≠ k → payments w' !! k' = payments w !! k').
Proof.
intros Hst Hg Henv Hts Hns Hnf c' w'.
split; [|split; [apply lookup_insert_eq|split; [done|split; [done|]]]].
2: { intros k' Hne. unfold w'. simpl. apply lookup_insert_ne. done. }
rewrite verify_payment_found.
apply String.eqb_neq in Hst. rewrite Hst.
unfold call, try_except, verify_payment_try.
unfold mbind at 1. unfold action_bind at 1.
unfold db, zoom, requests_call. rewrite Hg. simpl.
unfold mbind, action_bind. simpl.
destruct (d !! "status") as [v|] eqn:Hstatus; simpl in Henv; [|discriminate].
rewrite Henv. simpl.
unfold transaction_status, default in Hts.
destruct (d !! "data") as [[| | | | |t]|] eqn:Hdata;
  cbv [id] in Hts; simplify_eq; simpl.
- rewrite Hns, Hnf. simpl.
  destruct (proj2 Hwf k c Hpayment) as [Hrow Huniq].
  erewrite Payment_Model_save_Ok
    by first [exact Hrow | exact Huniq | reflexivity].
  reflexivity.
- rewrite lookup_empty. simpl.
  destruct (proj2 Hwf k c Hpayment) as [Hrow Huniq].
  erewrite Payment_Model_save_Ok
    by first [exact Hrow | exact Huniq | reflexivity].
  reflexivity.
Qed.
End VerifyFound.

Lemma verify_payment_completed_idempotent_witness :
(verify_payment (demo_env true) (demo_inputs reply_timeout) demo_verify_request
   (demo_world_paying "completed")).2 = demo_world_paying "completed"
∧ ∀ inp',
    verify_payment (demo_env true) inp' demo_verify_request
      (demo_world_paying "completed")
    = verify_payment (demo_env true) (demo_inputs reply_timeout)
        demo_verify_request (demo_world_paying "completed").
Proof.
destruct (verify_payment_completed_idempotent (demo_env true)
            (demo_inputs reply_timeout) demo_verify_request
            (demo_world_paying "completed") "TRV-0123456789AB" 1
            (demo_payment "completed")) as (Hrun & _ & _ & _ & _ & Hagain).
- apply demo_world_paying_wf.
- reflexivity.
- discriminate.
- reflexivity.
- reflexivity.
- reflexivity.
- rewrite Hrun in Hagain. simpl in Hagain. rewrite Hrun. simpl.
  split; [reflexivity | exact Hagain].
Defined.

Lemma verify_payment_error_no_mutation_witness :
payments (verify_payment (demo_env true) (demo_inputs reply_timeout)
            demo_verify_request (demo_world_paying "processing")).2
= payments (demo_world_paying "processing")
∧ bookings (verify_payment (demo_env true) (demo_inputs reply_timeout)
              demo_verify_request (demo_world_paying "processing")).2
  = bookings (demo_world_paying "processing").
Proof.
destruct (verify_payment_error_no_mutation (demo_env true)
            (demo_inputs reply_timeout) demo_verify_request
            (demo_world_paying "processing") "TRV-0123456789AB" 1
            (demo_payment "processing")) as (resp & _ & _ & _ & Hp & Hb & _).
- apply demo_world_paying_wf.
- reflexivity.
- discriminate.
- reflexivity.
- reflexivity.
- discriminate.
- reflexivity.
- split; [exact Hp | exact Hb].
Defined.

Lemma verify_payment_still_processing_witness :
Payment.status <$>
  payments (verify_payment (demo_env true) (demo_inputs (reply_verified "pending"))
              demo_verify_request (demo_world_paying "pending")).2 !! 1
= Some "processing"
∧ bookings (verify_payment (demo_env true) (demo_inputs (reply_verified "pending"))
              demo_verify_request (demo_world_paying "pending")).2
  = bookings (demo_world_paying "pending").
Proof.
assert (Hne : "TRV-0123456789AB" ≠ "") by discriminate.
destruct (verify_payment_still_processing (demo_env true)
            (demo_inputs (reply_verified "pending")) demo_verify_request
            (demo_world_paying "pending") "TRV-0123456789AB" 1
            (demo_payment "pending") (demo_world_paying_wf "pending")
            eq_refl Hne eq_refl eq_refl
            (list_to_map
               [("status", VStr "success");
                ("data", dict [("status", VStr "pending");
                               ("reference", VStr "CHAPA-REF-1");
                               ("method", VStr "telebirr")])])
            (VStr "pending")) as (Hrun & Hrow & Hstatus & Hb & _).
- discriminate.
- reflexivity.
- reflexivity.
- reflexivity.
- reflexivity.
- reflexivity.
- rewrite Hrun. split; [|exact Hb].
  exact (f_equal (fmap Payment.status) Hrow).
Defined.

(** ** What a call leaves alone *)

Section Preserves.
Context {S : Type} (I : S → Prop).

Lemma preserves_ret {A} (a : A) : preserves I (mret a).
Proof. intros s Hs. exact Hs. Qed.

Lemma preserves_raise {A} e : preserves I (raise e : action S A).
Proof. intros s Hs. exact Hs. Qed.

Lemma preserves_get_state : preserves I (get_state : action S S).
Proof. intros s Hs. exact Hs. Qed.

Lemma preserves_bind {A B} (m : action S A) (k : A → action S B) :
preserves I m → (∀ a, preserves I (k a)) → preserves I (m ≫= k).
Proof.
intros Hm Hk s Hs. unfold mbind, action_bind.
specialize (Hm s Hs). destruct (m s) as [[a|e] s']; simpl in *.
- apply Hk. exact Hm.
- exact Hm.
Qed.

Lemma preserves_try_except {A} (m : action S A) (h : exn → action S A) :
preserves I m → (∀ e, preserves I (h e)) → preserves I (try_except m h).
Proof.
intros Hm Hh s Hs. unfold try_except.
specialize (Hm s Hs). destruct (m s) as [[a|e] s']; simpl in *.
- exact Hm.
- apply Hh. exact Hm.
Qed.

Lemma preserves_py_get v key default : preserves I (py_get v key default).
Proof. destruct v; intros st Hst; exact Hst. Qed.

Lemma preserves_py_getitem v key : preserves I (py_getitem v key).
Proof.
destruct v; try (intros st Hst; exact Hst).
simpl. destruct (d !! key); intros st Hst; exact Hst.
Qed.
End Preserves.

Section RowKept.
Context (k : Z) (c : Payment.t).

(** A database operation that keeps the row keeps it inside a method. *)
Lemma preserves_db_beside {A} (m : action World A) :
preserves (row_kept k c) m → preserves (row_kept_beside k c) (db m).
Proof.
intros Hm [p w] [Hrow Hpk]. unfold db, zoom. simpl in *.
specialize (Hm w Hrow). destruct (m w) as [r w']. simpl in *. done.
Qed.

Lemma preserves_db_in {O A} (m : action World A) :
preserves (row_kept k c) m → preserves (row_kept_in (O := O) k c) (db m).
Proof.
intros Hm [b w] Hrow. unfold db, zoom, row_kept_in in *. simpl in *.
specialize (Hm w Hrow). destruct (m w) as [r w']. simpl in *. done.
Qed.

Lemma preserves_self_beside : preserves (row_kept_beside k c) self.
Proof. intros s Hs. exact Hs. Qed.

Lemma preserves_self_in {O} : preserves (row_kept_in (O := O) k c) self.
Proof. intros s Hs. exact Hs. Qed.

Lemma preserves_set_cols f :
preserves (row_kept_beside k c) (set_self (Payment.on_cols f)).
Proof. intros [p w] Hs. exact Hs. Qed.

Lemma preserves_set_self_in {O} (f : O → O) :
preserves (row_kept_in k c) (set_self f).
Proof. intros [b w] Hs. exact Hs. Qed.

Lemma preserves_requests_call reply call :
preserves (row_kept k c) (requests_call reply call).
Proof. intros w Hw. exact Hw. Qed.

Lemma preserves_delay env t kwargs : preserves (row_kept k c) (delay env t kwargs).
Proof.
intros w Hw. unfold delay.
destruct (strict_typing env && negb (check_arguments t kwargs)); exact Hw.
Qed.

(** Saving a Payment other than the one at [k]. *)
Lemma preserves_Payment_Model_save now :
preserves (row_kept_beside k c) (Payment_Model_save now).
Proof.
intros [p w] [Hrow Hpk]. unfold Payment_Model_save. simpl in *.
destruct (_ && _); simpl; split; try done.
unfold row_kept. simpl. rewrite lookup_insert_ne; done.
Qed.

Lemma preserves_Booking_Model_save now :
preserves (row_kept_in k c) (Booking_Model_save now).
Proof.
intros [b w] Hrow. unfold Booking_Model_save.
destruct (_ && _); exact Hrow.
Qed.

Lemma preserves_Booking_listing : preserves (row_kept_in k c) Booking_listing.
Proof.
unfold Booking_listing.
apply preserves_bind; [apply preserves_self_in|]. intros b.
apply preserves_bind; [apply preserves_db_in, preserves_get_state|]. intros w.
destruct (listings w !! _); [apply preserves_ret | apply preserves_raise].
Qed.

Lemma preserves_Booking_user : preserves (row_kept_in k c) Booking_user.
Proof.
unfold Booking_user.
apply preserves_bind; [apply preserves_self_in|]. intros b.
apply preserves_bind; [apply preserves_db_in, preserves_get_state|]. intros w.
destruct (users w !! _); [apply preserves_ret | apply preserves_raise].
Qed.

Lemma preserves_Booking_calculate_total_price :
preserves (row_kept_in k c) Booking_calculate_total_price.
Proof.
unfold Booking_calculate_total_price.
apply preserves_bind; [apply preserves_self_in|]. intros b.
destruct (Booking.check_out (Booking.cols b)) as [co|],
  (Booking.check_in (Booking.cols b)) as [ci|]; try apply preserves_ret.
destruct (Z.ltb 0 (co - ci)); [|apply preserves_ret].
apply preserves_bind; [apply preserves_Booking_listing|]. intros l.
apply preserves_bind; [apply preserves_set_self_in|]. intros _.
apply preserves_ret.
Qed.

Lemma preserves_Booking_save now : preserves (row_kept_in k c) (Booking_save now).
Proof.
unfold Booking_save.
apply preserves_bind; [apply preserves_self_in|]. intros b.
apply preserves_bind; [|intros _; apply preserves_Booking_Model_save].
destruct (total_price_unset (Booking.cols b)); [|apply preserves_ret].
apply preserves_bind; [apply preserves_Booking_calculate_total_price|].
intros _. apply preserves_ret.
Qed.

(** A method of the related Booking, called through [self.booking]. *)
Lemma preserves_Payment_booking {A} (m : action (Booking.obj * World) A) :
preserves (row_kept_in k c) m →
preserves (row_kept_beside k c) (Payment_booking m).
Proof.
intros Hm [p w] [Hrow Hpk]. unfold Payment_booking.
destruct (match Payment.booking_obj p with Some b => Some b | None => _ end)
  as [b|]; [|done].
specialize (Hm (b, w) Hrow). destruct (m (b, w)) as [r [b' w']].
split; [exact Hm | exact Hpk].
Qed.

Lemma preserves_Payment_mark_as_failed str now msg :
preserves (row_kept_beside k c) (Payment_mark_as_failed str now msg).
Proof.
unfold Payment_mark_as_failed.
apply preserves_bind; [apply preserves_set_cols|]. intros _.
apply preserves_bind;
  [destruct (truthy msg); [apply preserves_set_cols | apply preserves_ret]|].
intros _.
apply preserves_bind; [apply preserves_Payment_Model_save|]. intros _.
apply preserves_bind;
  [apply preserves_Payment_booking, preserves_set_self_in|]. intros _.
apply preserves_Payment_booking, preserves_Booking_save.
Qed.

Lemma preserves_Payment_mark_as_completed str now tid :
preserves (row_kept_beside k c) (Payment_mark_as_completed str now tid).
Proof.
unfold Payment_mark_as_completed.
apply preserves_bind; [apply preserves_set_cols|]. intros _.
apply preserves_bind;
  [destruct (truthy tid); [apply preserves_set_cols | apply preserves_ret]|].
intros _.
apply preserves_bind; [apply preserves_set_cols|]. intros _.
apply preserves_bind; [apply preserves_Payment_Model_save|]. intros _.
apply preserves_bind;
  [apply preserves_Payment_booking, preserves_set_self_in|]. intros _.
apply preserves_Payment_booking, preserves_Booking_save.
Qed.
End RowKept.

(** Walks through a [try] block of a payment view, statement by statement. *)
Ltac keep_row :=
  repeat first
    [ apply preserves_ret
    | apply preserves_raise
    | apply preserves_py_get
    | apply preserves_py_getitem
    | apply preserves_set_cols
    | apply preserves_self_beside
    | apply preserves_Payment_Model_save
    | apply preserves_Payment_mark_as_failed
    | apply preserves_Payment_mark_as_completed
    | apply preserves_Payment_booking;
      first [apply preserves_self_in | apply preserves_Booking_user]
    | apply preserves_db_beside;
      first [apply preserves_requests_call | apply preserves_delay
            | apply preserves_get_state]
    | apply preserves_bind; [|intros ?]
    | match goal with
      | |- preserves _ (if ?b then _ else _) => destruct b
      | |- preserves _ (match ?x with _ => _ end) => destruct x
      end ].

Section RowKeptByViews.
Context (k : Z) (c : Payment.t).

Lemma preserves_call_in {O A} (o : O) (m : action (O * World) A) :
preserves (row_kept_in k c) m → preserves (row_kept k c) (call o m).
Proof.
intros Hm w Hw. unfold call. specialize (Hm (o, w) Hw).
destruct (m (o, w)) as [r s]. exact Hm.
Qed.

Lemma preserves_call_beside {A} (p : Payment.obj) (m : action (Payment.obj * World) A) :
Payment.pk p ≠ k →
preserves (row_kept_beside k c) m → preserves (row_kept k c) (call p m).
Proof.
intros Hpk Hm w Hw. unfold call. specialize (Hm (p, w) (conj Hw Hpk)).
destruct (m (p, w)) as [r s]. exact (proj1 Hm).
Qed.

Lemma preserves_verify_payment_try env inp url authorization :
preserves (row_kept_beside k c) (verify_payment_try env inp url authorization).
Proof. unfold verify_payment_try. keep_row. Qed.

Lemma preserves_verify_payment_except env e :
preserves (row_kept_beside k c) (verify_payment_except env e).
Proof. unfold verify_payment_except. keep_row. Qed.

Lemma preserves_initiate_payment_try env inp reference url payload authorization :
preserves (row_kept_beside k c)
  (initiate_payment_try env inp reference url payload authorization).
Proof. unfold initiate_payment_try. keep_row. Qed.

Lemma preserves_initiate_payment_except env inp e :
preserves (row_kept_beside k c) (initiate_payment_except env inp e).
Proof. unfold initiate_payment_except. keep_row. Qed.

(** What [Payment.objects.get(reference=...)] hands to [verify_payment]. *)
Lemma Payment_objects_get_found reference w :
∃ res, or_DoesNotExist "Payment" (Payment_objects_get reference) w = (res, w)
       ∧ ∀ p, res = Ok (Some p) → payments w !! Payment.pk p = Some (Payment.cols p).
Proof.
unfold or_DoesNotExist, try_except, mbind, action_bind, Payment_objects_get.
destruct (objects_get_cases "Payment"
            (λ p, bool_decide (Payment.reference p = reference)) (payments w))
  as [-> | [-> | (k' & c' & -> & Hk' & _)]]; simpl.
- eexists; split; [reflexivity|]. intros p [=].
- eexists; split; [reflexivity|]. intros p [=].
- eexists; split; [reflexivity|]. intros p [= <-]. exact Hk'.
Qed.

(** Neither lookup at the start of [initiate_payment] writes. *)
Lemma Booking_objects_get_state booking_id user w :
(or_DoesNotExist "Booking" (Booking_objects_get booking_id user) w).2 = w.
Proof.
unfold or_DoesNotExist, try_except, mbind, action_bind, Booking_objects_get.
destruct (objects_get _ _ _) as [[bk b]|[]]; simpl; try done.
destruct (String.eqb _ _); done.
Qed.

Lemma hasattr_payment_state booking w : (hasattr_payment booking w).2 = w.
Proof.
unfold hasattr_payment, try_except, mbind, action_bind, Booking_payment.
destruct (Booking.pk booking); [|done].
destruct (objects_get _ _ _) as [[k' c']|[]]; done.
Qed.

(** [Payment.objects.create] writes at a key that was free. *)
Lemma Payment_objects_create_beside now payment_id booking reference amount
  currency status w :
row_kept k c w →
row_kept k c (Payment_objects_create now payment_id booking reference amount
                currency status w).2
∧ ∀ p, (Payment_objects_create now payment_id booking reference amount
          currency status w).1 = Ok p → Payment.pk p ≠ k.
Proof.
intros Hw. unfold Payment_objects_create.
destruct (Booking.pk booking) as [bk|]; [|split; [exact Hw|intros p [=]]].
destruct (_ && _); simpl; [|split; [exact Hw|intros p [=]]].
assert (Hne : next_pk (payments w) ≠ k).
{ intros Heq. pose proof (next_pk_fresh (payments w)) as Hfresh.
  rewrite Heq in Hfresh. unfold row_kept in Hw. congruence. }
split.
- unfold row_kept. simpl. rewrite lookup_insert_ne; done.
- intros p [= <-]. exact Hne.
Qed.

(** C6, as the code has it.  A 'completed' Payment is absorbing: whatever
    the request, the gateway's answer and the other inputs,
    [verify_payment] and [initiate_payment] leave its row as it is. *)
Theorem completed_payment_absorbing env inp request w :
payments w !! k = Some c →
Payment.status c = "completed" →
payments (verify_payment env inp request w).2 !! k = Some c
∧ payments (initiate_payment env inp request w).2 !! k = Some c.
Proof.
intros Hrow Hstatus. split.
- unfold verify_payment.
  destruct (reference_param request) as [[|a s]|]; try exact Hrow.
  destruct (Payment_objects_get_found (String a s) w) as (res & Hget & Hfound).
  unfold mbind at 1, action_bind at 1. rewrite Hget.
  destruct res as [[p|]|e]; try exact Hrow.
  destruct (String.eqb (Payment.status (Payment.cols p)) "completed") eqn:Hp;
    [exact Hrow|].
  apply (preserves_call_beside p); [| |exact Hrow].
  + intros Heq. specialize (Hfound p eq_refl). rewrite Heq, Hrow in Hfound.
    injection Hfound as Hc. rewrite <- Hc, Hstatus in Hp. discriminate.
  + apply preserves_try_except;
      [apply preserves_verify_payment_try
      |intros e; apply preserves_verify_payment_except].
- unfold initiate_payment.
  destruct (PaymentInitiateSerializer env (request_data request))
    as [errors|validated_data]; [exact Hrow|].
  unfold mbind at 1, action_bind at 1.
  pose proof (Booking_objects_get_state (init_booking_id validated_data)
                (request_user request) w) as Hget.
  destruct (or_DoesNotExist "Booking" _ w) as [[[booking|]|e] w1];
    simpl in Hget; subst w1; try exact Hrow.
  unfold mbind at 1, action_bind at 1.
  pose proof (hasattr_payment_state booking w) as Hhas.
  destruct (hasattr_payment booking w) as [[existing|e] w1];
    simpl in Hhas; subst w1; [|exact Hrow].
  destruct (match existing with Some _ => _ | None => _ end); [exact Hrow|].
  unfold mbind at 1, action_bind at 1.
  destruct (Payment_objects_create_beside (now inp) (uuid4_default inp) booking
              (make_reference (uuid4_hex inp))
              (Booking.total_price (Booking.cols booking)) "ETB" "pending" w Hrow)
    as [Hcreated Hpk].
  destruct (Payment_objects_create _ _ _ _ _ _ _ w) as [[payment|e] w1];
    simpl in Hcreated; [|exact Hcreated].
  specialize (Hpk payment eq_refl).
  apply preserves_bind; [| |exact Hcreated].
  + apply preserves_call_in, preserves_Booking_listing.
  + intros listing. apply preserves_call_beside; [exact Hpk|].
    apply preserves_try_except;
      [apply preserves_initiate_payment_try
      |intros e; apply preserves_initiate_payment_except].
Qed.
End RowKeptByViews.

Lemma completed_payment_absorbing_witness :
payments (verify_payment (demo_env true) (demo_inputs (reply_verified "failed"))
            demo_verify_request (demo_world_paying "completed")).2 !! 1
= Some (demo_payment "completed")
∧ payments (initiate_payment (demo_env true) (demo_inputs reply_rejected)
              demo_initiate_request (demo_world_paying "completed")).2 !! 1
  = Some (demo_payment "completed").
Proof.
split.
- apply (completed_payment_absorbing 1 (demo_payment "completed")
           (demo_env true) (demo_inputs (reply_verified "failed"))
           demo_verify_request (demo_world_paying "completed"));
    reflexivity.
- apply (completed_payment_absorbing 1 (demo_payment "completed")
           (demo_env true) (demo_inputs reply_rejected)
           demo_initiate_request (demo_world_paying "completed"));
    reflexivity.
Defined.

(** C6, as the specification words it, fails: a 'failed' Payment is verified
    against the gateway again, and an answer that is neither "success" nor
    "failed" makes it 'processing'. *)
Lemma terminal_status_not_absorbing : ¬ terminal_absorbing.
Proof.
intros Hclaim.
specialize (Hclaim (demo_env true) (demo_inputs (reply_verified "pending"))
              demo_verify_request (demo_world_paying "failed") 1
              (demo_payment "failed") eq_refl eq_refl).
vm_compute in Hclaim. discriminate Hclaim.
Qed.

(** C2, on the scenario of the specification.  The gateway reports
    "success" for a 'processing' Payment: the Payment becomes 'completed'
    with the gateway's reference and the time of completion, its Booking
    becomes 'confirmed'.  The notification is not queued: [delay] is called
    with two of the six arguments of the task, Celery's argument check
    raises [TypeError], the view's last [except] clause turns it into a 500
    response.  With the check turned off one message is queued, and its run
    in the worker fails with [TypeError] before the body starts: no mail
    leaves. *)
Theorem verify_payment_success_notification_lost :
let run strict :=
  verify_payment (demo_env strict) (demo_inputs (reply_verified "success"))
    demo_verify_request (demo_world_paying "processing") in
(Payment.status <$> payments (run true).2 !! 1 = Some "completed"
 ∧ Payment.transaction_id <$> payments (run true).2 !! 1 = Some (Some "CHAPA-REF-1")
 ∧ Payment.completed_at <$> payments (run true).2 !! 1 = Some (Some 2000)
 ∧ Booking.status <$> bookings (run true).2 !! 1 = Some "confirmed"
 ∧ queue (run true).2 = []
 ∧ (run true).1
   = Ok {| response_data := dict [("status", VStr "error");
                                  ("message", VStr "An unexpected error occurred")];
           response_status := HTTP_500_INTERNAL_SERVER_ERROR |})
∧ (Payment.status <$> payments (run false).2 !! 1 = Some "completed"
   ∧ Booking.status <$> bookings (run false).2 !! 1 = Some "confirmed"
   ∧ ∃ job, queue (run false).2 = [job]
            ∧ job_kwargs job = [("booking_id", VStr "b-0001");
                                ("user_email", VStr "abebe@example.com")]
            ∧ ∀ mail, run_job (demo_env false) job mail = (Failure TypeError, [])).
Proof.
intros run. split.
- vm_compute. repeat split.
- split; [vm_compute; reflexivity|]. split; [vm_compute; reflexivity|].
  eexists. split; [vm_compute; reflexivity|]. split; [reflexivity|].
  intros mail. reflexivity.
Qed.

(** ** Saving a booking, failing a payment *)

Lemma Booking_row_ok_true w c :
Booking_row_ok w c = true →
is_Some (Booking.check_in c) ∧ is_Some (Booking.check_out c)
∧ is_Some (Booking.total_price c) ∧ is_Some (users w !! Booking.user c)
∧ is_Some (listings w !! Booking.listing c).
Proof.
unfold Booking_row_ok. rewrite !andb_true_iff, !bool_decide_eq_true. tauto.
Qed.

Lemma priced_keys w c :
Booking_keys (priced w c) = Booking_keys c
∧ Booking.status (priced w c) = Booking.status c
∧ (is_Some (Booking.total_price c) → is_Some (Booking.total_price (priced w c))).
Proof.
unfold priced. destruct (total_price_unset c); [|done].
destruct (Booking.check_out c) as [co|], (Booking.check_in c) as [ci|],
  (listings w !! Booking.listing c) as [l|]; try done.
destruct (Z.ltb 0 (co - ci)); [|done]. simpl. split; [done|]. split; [done|]. eauto.
Qed.

Lemma Booking_row_ok_keys w c c0 :
Booking_keys c = Booking_keys c0 →
is_Some (Booking.total_price c) →
Booking_row_ok w c0 = true → Booking_row_ok w c = true.
Proof.
unfold Booking_keys. intros [= Hid Hu Hl Hci Hco] Ht Hrow.
apply Booking_row_ok_true in Hrow as (? & ? & ? & ? & ?).
unfold Booking_row_ok. rewrite Hu, Hl, Hci, Hco.
rewrite !andb_true_iff, !bool_decide_eq_true. tauto.
Qed.

(** [Booking.save] of a stored booking whose row satisfies the constraints:
    the row is rewritten with the price [priced] leaves. *)
Lemma Booking_save_Ok now bk c w :
Booking_row_ok w c = true →
unique_ok Booking_clash (Some bk) c (bookings w) = true →
Booking_save now (Booking.Obj (Some bk) c, w)
= (Ok tt,
   (Booking.Obj (Some bk) (Booking.set_updated_at (Some now) (priced w c)),
    set_bookings (<[bk := Booking.set_updated_at (Some now) (priced w c)]> (bookings w)) w)).
Proof.
intros Hrow Huniq.
assert (Hsave : ∀ c1, Booking_keys c1 = Booking_keys c →
                      is_Some (Booking.total_price c1) →
          Booking_Model_save now (Booking.Obj (Some bk) c1, w)
          = (Ok tt,
             (Booking.Obj (Some bk) (Booking.set_updated_at (Some now) c1),
              set_bookings (<[bk := Booking.set_updated_at (Some now) c1]> (bookings w)) w))).
{ intros c1 Hkeys Ht. unfold Booking_Model_save. simpl.
  rewrite (Booking_row_ok_keys w (Booking.set_updated_at (Some now) c1) c);
    [|rewrite <- Hkeys; reflexivity | exact Ht | exact Hrow].
  rewrite (unique_ok_ext Booking_clash _ _ c), Huniq; [done|].
  intros r'. unfold Booking_clash. simpl.
  unfold Booking_keys in Hkeys. injection Hkeys as -> _ _ _ _. done. }
pose proof (Booking_row_ok_true w c Hrow) as (Hci & Hco & Ht & _ & Hl).
destruct (priced_keys w c) as (Hkeys & _ & Hprice).
specialize (Hsave (priced w c) Hkeys (Hprice Ht)). revert Hsave.
unfold Booking_save, priced, Booking_calculate_total_price, Booking_listing.
unfold mbind, action_bind, self, set_self, modify, db, zoom, get_state. simpl.
destruct (total_price_unset c); simpl; [|auto].
destruct Hci as [ci Hci], Hco as [co Hco], Hl as [l Hl].
rewrite Hci, Hco, Hl. simpl.
destruct (Z.ltb 0 (co - ci)); simpl; rewrite ?Hl; simpl; auto.
Qed.


(** ** Initiating a payment that the gateway rejects *)



Section InitiateRejected.
Context (env : Env) (inp : Inputs) (request : Request) (w : World).
Context (validated_data : InitiateData) (bk : Z) (b : Booking.t).
Context (status_code : Z) (body : value).
Hypothesis Hwf : db_wf w.
Hypothesis Hvalid : PaymentInitiateSerializer env (request_data request) = inr validated_data.
Hypothesis Hbooking : bookings w !! bk = Some b.
Hypothesis Hid : Booking.booking_id b = init_booking_id validated_data.
Hypothesis Howner : Booking.user b = request_user request.
Hypothesis Hfresh :
  ∀ k c, payments w !! k = Some c →
         Payment.payment_id c ≠ uuid4_default inp ∧ Payment.booking c ≠ bk
         ∧ Payment.reference c ≠ make_reference (uuid4_hex inp).
Hypothesis Hreply : gateway inp = Responded status_code body.
Hypothesis Hrejected : accepted (gateway inp) = false.






End InitiateRejected.

Lemma demo_world_wf : db_wf demo_world.
Proof.
split.
- apply map_Forall_singleton. split; [reflexivity|].
  apply unique_ok_true. intros k r Hk.
  change (({[ 1 := demo_booking ]} : gmap Z Booking.t) !! k = Some r) in Hk.
  apply lookup_singleton_Some in Hk as [<- _]. by left.
- apply map_Forall_empty.
Qed.


(** ** The price of a booking *)

Section TotalPrice.
Context (now : Z) (w : World) (c : Booking.t) (check_in check_out : Z)
  (l : Listing.t).
Hypothesis Hcheck_in : Booking.check_in c = Some check_in.
Hypothesis Hcheck_out : Booking.check_out c = Some check_out.
Hypothesis Hnights : check_in < check_out.
Hypothesis Hlisting : listings w !! Booking.listing c = Some l.
Hypothesis Hprice : 0 < Listing.price_per_night l.
Hypothesis Huser : is_Some (users w !! Booking.user c).
Hypothesis Hunset : total_price_unset c = true.
Hypothesis Hunique : unique_ok Booking_clash None c (bookings w) = true.

End TotalPrice.


(** ** The confirmation mail and its retries *)

Section Retries.
Context (env : Env) (mail : nat → Delivery).

(** A run ends in a retry only while the counter is below three, and the
    retry then waits [60 * 2 ^ retries] seconds. *)
Lemma run_job_Retry job m countdown exc :
job_task job = send_booking_confirmation_email →
(run_job env job m).1 = Retry countdown exc →
(job_retries job < 3)%nat ∧ countdown = 60 * 2 ^ Z.of_nat (job_retries job).
Proof.
intros Htask. unfold run_job, send_booking_confirmation_email_body, Task_retry.
rewrite Htask. destruct (check_arguments _ _); [|discriminate].
destruct m as [|e]; [discriminate|]. simpl.
destruct (Nat.ltb 3 (job_retries job + 1)) eqn:Hlt; [discriminate|].
intros [= <- <-]. apply Nat.ltb_ge in Hlt. split; [lia|reflexivity].
Qed.

Lemma job_outcomes_bounded fuel : ∀ job,
job_task job = send_booking_confirmation_email →
(length (job_outcomes fuel env mail job) ≤ S (3 - job_retries job))%nat
∧ ∀ n countdown exc,
    job_outcomes fuel env mail job !! n = Some (Retry countdown exc) →
    (job_retries job + n < 3)%nat
    ∧ countdown = 60 * 2 ^ Z.of_nat (job_retries job + n).
Proof.
induction fuel as [|fuel IH]; intros job Htask.
- simpl. split; [lia|]. intros n countdown exc [=].
- simpl.
  destruct ((run_job env job (mail (job_retries job))).1) as [v|c0 e0|e0] eqn:Hrun.
  + split; [simpl; lia|]. intros [|[|n]] countdown exc [=].
  + destruct (run_job_Retry job _ c0 e0 Htask Hrun) as [Hlt ->].
    destruct (IH (retry_job job (60 * 2 ^ Z.of_nat (job_retries job))) Htask)
      as [Hlen Hnth].
    simpl in Hlen, Hnth. split; [simpl; lia|].
    intros [|n] countdown exc Hn; simpl in Hn.
    * injection Hn as <- <-. rewrite Nat.add_0_r. split; [exact Hlt|reflexivity].
    * destruct (Hnth n countdown exc Hn) as [Hlt' ->].
      replace (job_retries job + S n)%nat with (S (job_retries job) + n)%nat by lia.
      split; [exact Hlt'|reflexivity].
  + split; [simpl; lia|]. intros [|[|n]] countdown exc [=].
Qed.

(** Fuel beyond the bound changes nothing: the runs have ended. *)
Lemma job_outcomes_stable fuel : ∀ job,
job_task job = send_booking_confirmation_email →
(S (3 - job_retries job) ≤ fuel)%nat →
job_outcomes fuel env mail job
= job_outcomes (S (3 - job_retries job)) env mail job.
Proof.
induction fuel as [|fuel IH]; intros job Htask Hfuel; [lia|].
simpl.
destruct ((run_job env job (mail (job_retries job))).1) as [v|c0 e0|e0] eqn:Hrun;
  [reflexivity| |reflexivity].
destruct (run_job_Retry job _ c0 e0 Htask Hrun) as [Hlt ->].
f_equal.
rewrite (IH (retry_job job (60 * 2 ^ Z.of_nat (job_retries job))) Htask);
  simpl; [|lia].
replace (3 - job_retries job)%nat with (S (3 - S (job_retries job)))%nat by lia.
reflexivity.
Qed.

(** C9. A queued confirmation job, whatever its arguments and whatever
    each delivery attempt meets: it is run at most four times (the first
    attempt and at most [max_retries = 3] retries), four runs of fuel are
    all it ever uses, and the retry scheduled by run [n] waits
    [60 * 2 ^ n] seconds.  When every delivery fails the runs are three
    retries after 60, 120 and 240 seconds and then the failure of the task,
    which stays in the worker: the response of the request that queued the
    job is the same whatever the deliveries do. *)
Theorem confirmation_retries_bounded (kwargs : list (string * value)) :
(∀ fuel, (length (job_outcomes fuel env mail (fresh_job kwargs)) ≤ 4)%nat)
∧ (∀ fuel, (4 ≤ fuel)%nat →
           job_outcomes fuel env mail (fresh_job kwargs)
           = job_outcomes 4 env mail (fresh_job kwargs))
∧ (∀ fuel n countdown exc,
     job_outcomes fuel env mail (fresh_job kwargs) !! n = Some (Retry countdown exc) →
     (n < 3)%nat ∧ countdown = 60 * 2 ^ Z.of_nat n)
∧ (∀ exc, check_arguments send_booking_confirmation_email kwargs = true →
          (∀ n, mail n = Undelivered exc) →
          job_outcomes 4 env mail (fresh_job kwargs)
          = [Retry 60 exc; Retry 120 exc; Retry 240 exc; Failure exc])
∧ (∀ inp request w mails mails',
     (create_then_deliver env inp request mails w).1
     = (create_then_deliver env inp request mails' w).1).
Proof.
split_and!.
- intros fuel.
  exact (proj1 (job_outcomes_bounded fuel (fresh_job kwargs) eq_refl)).
- intros fuel Hfuel.
  exact (job_outcomes_stable fuel (fresh_job kwargs) eq_refl Hfuel).
- intros fuel n countdown exc Hn.
  exact (proj2 (job_outcomes_bounded fuel (fresh_job kwargs) eq_refl) n countdown exc Hn).
- intros exc Hargs Hmail. simpl. unfold run_job. simpl.
  rewrite Hargs, !Hmail. reflexivity.
- intros inp request w mails mails'. unfold create_then_deliver.
  destruct (listings_views.BookingViewSet_create env inp request w). reflexivity.
Qed.
End Retries.

Lemma confirmation_retries_bounded_witness :
job_outcomes 10 (demo_env true) (λ _, Undelivered (MailError "connection refused"))
  (fresh_job demo_kwargs)
= [Retry 60 (MailError "connection refused");
   Retry 120 (MailError "connection refused");
   Retry 240 (MailError "connection refused");
   Failure (MailError "connection refused")].
Proof.
destruct (confirmation_retries_bounded (demo_env true)
            (λ _, Undelivered (MailError "connection refused")) demo_kwargs)
  as (_ & Hstable & _ & Hfail & _).
rewrite (Hstable 10%nat); [|lia].
apply Hfail; [reflexivity|]. intros n. reflexivity.
Defined.

(** ** The constraints are an invariant of the views *)

Lemma Payment_clash_sym r r' : Payment_clash r r' = Payment_clash r' r.
Proof.
unfold Payment_clash.
rewrite (bool_decide_ext (Payment.payment_id r' = Payment.payment_id r)
           (Payment.payment_id r = Payment.payment_id r')) by (split; congruence).
rewrite (bool_decide_ext (Payment.booking r' = Payment.booking r)
           (Payment.booking r = Payment.booking r')) by (split; congruence).
rewrite (bool_decide_ext (Payment.reference r' = Payment.reference r)
           (Payment.reference r = Payment.reference r')) by (split; congruence).
f_equal.
destruct (Payment.transaction_id r) as [t|], (Payment.transaction_id r') as [t'|];
  simpl; try reflexivity.
apply bool_decide_ext. split; congruence.
Qed.

Lemma Booking_clash_sym r r' : Booking_clash r r' = Booking_clash r' r.
Proof. unfold Booking_clash. apply bool_decide_ext. split; congruence. Qed.

Section TableWf.
Context {R : Type} (row_ok : R → bool) (clash : R → R → bool).
Hypothesis clash_sym : ∀ r r', clash r r' = clash r' r.

(** Writing a row that passed the checks of a save keeps a table
    well-formed. *)
Lemma table_wf_insert k c (tbl : gmap Z R) :
table_wf row_ok clash tbl →
row_ok c = true →
unique_ok clash (Some k) c tbl = true →
table_wf row_ok clash (<[k := c]> tbl).
Proof.
intros Hwf Hrow Huniq k' r' Hk'.
destruct (decide (k' = k)) as [->|Hne].
- rewrite lookup_insert_eq in Hk'. injection Hk' as <-.
  split; [exact Hrow|]. apply unique_ok_overwrite. exact Huniq.
- rewrite lookup_insert_ne in Hk' by done.
  destruct (Hwf k' r' Hk') as [Hrow' Huniq'].
  split; [exact Hrow'|].
  apply unique_ok_true. intros k'' r'' Hk''.
  destruct (decide (k'' = k)) as [->|Hne'].
  + rewrite lookup_insert_eq in Hk''. injection Hk'' as <-. right.
    rewrite clash_sym.
    destruct (proj1 (unique_ok_true clash _ _ _) Huniq k' r' Hk') as [[=]|Hc];
      [congruence|exact Hc].
  + rewrite lookup_insert_ne in Hk'' by done.
    exact (proj1 (unique_ok_true clash _ _ _) Huniq' k'' r'' Hk'').
Qed.

(** The check of an INSERT is the check of an UPDATE at a free key. *)
Lemma unique_ok_None_Some k c (tbl : gmap Z R) :
unique_ok clash None c tbl = true → unique_ok clash (Some k) c tbl = true.
Proof.
rewrite !unique_ok_true. intros H k' r' Hk'.
destruct (H k' r' Hk') as [[=]|Hc]. by right.
Qed.

(** Well-formedness looks at the rows through [row_ok] only. *)
Lemma table_wf_row_ok (row_ok' : R → bool) (tbl : gmap Z R) :
(∀ r, row_ok r = true → row_ok' r = true) →
table_wf row_ok clash tbl → table_wf row_ok' clash tbl.
Proof.
intros Himp Hwf k r Hk. destruct (Hwf k r Hk) as [Hrow Huniq].
split; [apply Himp; exact Hrow|exact Huniq].
Qed.
End TableWf.

Lemma Payment_row_ok_bookings w c k b :
Payment_row_ok w c = true →
Payment_row_ok (set_bookings (<[k := b]> (bookings w)) w) c = true.
Proof.
unfold Payment_row_ok. rewrite !andb_true_iff, !bool_decide_eq_true. simpl.
intros [Ha Hb]. split; [exact Ha|].
destruct (decide (k = Payment.booking c)) as [->|Hne].
- rewrite lookup_insert_eq. eauto.
- rewrite lookup_insert_ne by done. exact Hb.
Qed.

Section WfKept.

Lemma wf_Payment_written w k c :
db_wf w → Payment_row_ok w c = true →
unique_ok Payment_clash (Some k) c (payments w) = true →
db_wf (set_payments (<[k := c]> (payments w)) w).
Proof.
intros [Hb Hp] Hrow Huniq. split; [exact Hb|].
apply (table_wf_insert (Payment_row_ok w) Payment_clash Payment_clash_sym);
  assumption.
Qed.

Lemma wf_Booking_written w k c :
db_wf w → Booking_row_ok w c = true →
unique_ok Booking_clash (Some k) c (bookings w) = true →
db_wf (set_bookings (<[k := c]> (bookings w)) w).
Proof.
intros [Hb Hp] Hrow Huniq. split.
- apply (table_wf_insert (Booking_row_ok w) Booking_clash Booking_clash_sym);
    assumption.
- apply (table_wf_row_ok (Payment_row_ok w) Payment_clash); [|exact Hp].
  intros r. apply Payment_row_ok_bookings.
Qed.

Lemma preserves_wf_Payment_Model_save now :
preserves wf_in (Payment_Model_save now).
Proof.
intros [p w] Hwf. unfold wf_in in *. unfold Payment_Model_save. simpl in *.
destruct (Payment_row_ok w _) eqn:Hrow; simpl; [|exact Hwf].
destruct (unique_ok Payment_clash _ _ _) eqn:Huniq; simpl; [|exact Hwf].
apply wf_Payment_written; assumption.
Qed.

Lemma preserves_wf_Booking_Model_save now :
preserves wf_in (Booking_Model_save now).
Proof.
intros [b w] Hwf. unfold wf_in in *. unfold Booking_Model_save. simpl in *.
destruct (Booking_row_ok w _) eqn:Hrow; simpl; [|exact Hwf].
destruct (unique_ok Booking_clash _ _ _) eqn:Huniq; simpl; [|exact Hwf].
apply wf_Booking_written; [exact Hwf|exact Hrow|].
destruct (Booking.pk b) as [k|]; [exact Huniq|].
apply unique_ok_None_Some. exact Huniq.
Qed.

Lemma preserves_wf_Payment_objects_create now payment_id booking reference
  amount currency status :
preserves db_wf
  (Payment_objects_create now payment_id booking reference amount currency status).
Proof.
intros w Hwf. unfold Payment_objects_create.
destruct (Booking.pk booking) as [bk|]; [|exact Hwf].
destruct (Payment_row_ok w _) eqn:Hrow; simpl; [|exact Hwf].
destruct (unique_ok Payment_clash _ _ _) eqn:Huniq; simpl; [|exact Hwf].
apply wf_Payment_written; [exact Hwf|exact Hrow|].
apply unique_ok_None_Some. exact Huniq.
Qed.

Lemma preserves_wf_db {O A} (m : action World A) :
preserves db_wf m → preserves (wf_in (O := O)) (db m).
Proof.
intros Hm [o w] Hwf. unfold db, zoom, wf_in in *. simpl in *.
specialize (Hm w Hwf). destruct (m w) as [r w']. exact Hm.
Qed.

Lemma preserves_wf_self {O} : preserves (wf_in (O := O)) self.
Proof. intros s Hs. exact Hs. Qed.

Lemma preserves_wf_set_self {O} (f : O → O) : preserves wf_in (set_self f).
Proof. intros [o w] Hs. exact Hs. Qed.

Lemma preserves_wf_requests_call reply call :
preserves db_wf (requests_call reply call).
Proof. intros w Hw. exact Hw. Qed.

Lemma preserves_wf_delay env t kwargs : preserves db_wf (delay env t kwargs).
Proof.
intros w Hw. unfold delay.
destruct (strict_typing env && negb (check_arguments t kwargs)); exact Hw.
Qed.

Lemma preserves_wf_call {O A} (o : O) (m : action (O * World) A) :
preserves wf_in m → preserves db_wf (call o m).
Proof.
intros Hm w Hw. unfold call. specialize (Hm (o, w) Hw).
destruct (m (o, w)) as [r s]. exact Hm.
Qed.

Lemma preserves_wf_Payment_booking {A} (m : action (Booking.obj * World) A) :
preserves wf_in m → preserves wf_in (Payment_booking m).
Proof.
intros Hm [p w] Hwf. unfold Payment_booking.
destruct (match Payment.booking_obj p with Some b => Some b | None => _ end)
  as [b|]; [|exact Hwf].
specialize (Hm (b, w) Hwf). destruct (m (b, w)) as [r [b' w']]. exact Hm.
Qed.
End WfKept.

(** Walks through a method or a [try] block, keeping [db_wf]. *)
Ltac keep_wf :=
  repeat match goal with
  | |- preserves _ (mret _) => apply preserves_ret
  | |- preserves _ (raise _) => apply preserves_raise
  | |- preserves _ get_state => apply preserves_get_state
  | |- preserves _ (py_get _ _ _) => apply preserves_py_get
  | |- preserves _ (py_getitem _ _) => apply preserves_py_getitem
  | |- preserves _ self => apply preserves_wf_self
  | |- preserves _ (set_self _) => apply preserves_wf_set_self
  | |- preserves _ (Payment_Model_save _) => apply preserves_wf_Payment_Model_save
  | |- preserves _ (Booking_Model_save _) => apply preserves_wf_Booking_Model_save
  | |- preserves _ (requests_call _ _) => apply preserves_wf_requests_call
  | |- preserves _ (delay _ _ _) => apply preserves_wf_delay
  | |- preserves _ (Payment_objects_create _ _ _ _ _ _ _) =>
    apply preserves_wf_Payment_objects_create
  | |- preserves _ (db _) => apply preserves_wf_db
  | |- preserves _ (call _ _) => apply preserves_wf_call
  | |- preserves _ (Payment_booking _) => apply preserves_wf_Payment_booking
  | |- preserves _ (try_except _ _) => apply preserves_try_except; [|intros ?]
  | |- preserves _ (_ ≫= _) => apply preserves_bind; [|intros ?]
  | |- preserves _ (if ?b then _ else _) => destruct b
  | |- preserves _ (match ?x with _ => _ end) => destruct x
  | |- preserves _ (let _ := _ in _) => cbv zeta
  end.

Lemma preserves_wf_Booking_save now : preserves wf_in (Booking_save now).
Proof.
unfold Booking_save, Booking_calculate_total_price, Booking_listing. keep_wf.
Qed.

Lemma preserves_wf_Payment_mark_as_failed str now msg :
preserves wf_in (Payment_mark_as_failed str now msg).
Proof.
unfold Payment_mark_as_failed. keep_wf. apply preserves_wf_Booking_save.
Qed.

Lemma preserves_wf_Payment_mark_as_completed str now tid :
preserves wf_in (Payment_mark_as_completed str now tid).
Proof.
unfold Payment_mark_as_completed. keep_wf. apply preserves_wf_Booking_save.
Qed.

Lemma preserves_wf_objects_get {A} model (m : action World A) :
(∀ w, (m w).2 = w) → preserves db_wf (or_DoesNotExist model m).
Proof.
intros Hm w Hw. unfold or_DoesNotExist, try_except, mbind, action_bind.
specialize (Hm w). destruct (m w) as [[a|e] w']; simpl in *; subst w'.
- exact Hw.
- destruct e; try exact Hw. destruct (String.eqb _ _); exact Hw.
Qed.

(** The two payment views take a database that satisfies its constraints to
    one that does, whatever the request, the gateway and the other inputs
    are and however the view ends. *)
Lemma views_keep_db_wf env inp request w :
db_wf w →
db_wf (initiate_payment env inp request w).2
∧ db_wf (verify_payment env inp request w).2.
Proof.
intros Hwf. split.
- revert w Hwf. change (preserves db_wf (initiate_payment env inp request)).
  unfold initiate_payment.
  destruct (PaymentInitiateSerializer env (request_data request));
    [apply preserves_ret|].
  apply preserves_bind.
  { apply preserves_wf_objects_get. intros w. unfold Booking_objects_get.
    destruct (objects_get _ _ _) as [[k c]|e]; reflexivity. }
  intros [booking|]; [|apply preserves_ret].
  apply preserves_bind.
  { intros w Hw. rewrite hasattr_payment_state. exact Hw. }
  intros existing.
  destruct (match existing with Some _ => _ | None => _ end);
    [apply preserves_ret|].
  unfold initiate_payment_try, initiate_payment_except, Booking_listing.
  keep_wf; apply preserves_wf_Payment_mark_as_failed.
- revert w Hwf. change (preserves db_wf (verify_payment env inp request)).
  unfold verify_payment.
  destruct (reference_param request) as [[|a s]|]; try apply preserves_ret.
  apply preserves_bind.
  { apply preserves_wf_objects_get. intros w. unfold Payment_objects_get.
    destruct (objects_get _ _ _) as [[k c]|e]; reflexivity. }
  intros [payment|]; [|apply preserves_ret].
  unfold verify_payment_try, verify_payment_except, Booking_user.
  keep_wf;
    first [apply preserves_wf_Payment_mark_as_failed
          |apply preserves_wf_Payment_mark_as_completed].
Qed.

(** * Further properties *)

(** ** Where the payment views write *)

Section Writes.
Context (Kp Kb : Z → Prop) (I : World → Prop).
Hypothesis Hstable : stable_under_writes Kp Kb I.

Lemma writes_db_booking {A} (m : action World A) :
preserves I m → preserves (writes_in_booking Kb I) (db m).
Proof.
intros Hm [b w] [Hw Hb]. unfold db, zoom. simpl in *.
specialize (Hm w Hw). destruct (m w) as [r w']. split; assumption.
Qed.

Lemma writes_db_payment {A} (m : action World A) :
preserves I m → preserves (writes_in_payment Kp Kb I) (db m).
Proof.
intros Hm [p w] (Hw & Hp). unfold db, zoom. simpl in *.
specialize (Hm w Hw). destruct (m w) as [r w']. split; assumption.
Qed.

Lemma writes_requests_call reply call : preserves I (requests_call reply call).
Proof. intros w Hw. apply (stable_log _ _ _ Hstable). exact Hw. Qed.

Lemma writes_delay env t kwargs : preserves I (delay env t kwargs).
Proof.
intros w Hw. unfold delay.
destruct (strict_typing env && negb (check_arguments t kwargs)); [exact Hw|].
apply (stable_queue _ _ _ Hstable). exact Hw.
Qed.

Lemma writes_self_booking : preserves (writes_in_booking Kb I) self.
Proof. intros s Hs. exact Hs. Qed.

Lemma writes_self_payment : preserves (writes_in_payment Kp Kb I) self.
Proof. intros s Hs. exact Hs. Qed.

Lemma writes_set_booking f :
preserves (writes_in_booking Kb I) (set_self (Booking.on_cols f)).
Proof. intros [b w] Hs. exact Hs. Qed.

(** An assignment to an attribute other than the foreign key. *)
Lemma writes_set_payment f :
(∀ c, Payment.booking (f c) = Payment.booking c) →
preserves (writes_in_payment Kp Kb I) (set_self (Payment.on_cols f)).
Proof.
intros Hf [p w] (Hw & Hk & Hb & Hc).
unfold set_self, modify, writes_in_payment, Payment.on_cols. simpl in *.
rewrite Hf. split_and!; assumption.
Qed.

Lemma writes_Booking_Model_save now :
preserves (writes_in_booking Kb I) (Booking_Model_save now).
Proof.
intros [b w] (Hw & bk & Hpk & Hbk). unfold Booking_Model_save. simpl in *.
rewrite Hpk. destruct (_ && _); simpl.
- split; [|eauto]. apply (stable_booking _ _ _ Hstable); assumption.
- split; [exact Hw|eauto].
Qed.

Lemma writes_Payment_Model_save now :
preserves (writes_in_payment Kp Kb I) (Payment_Model_save now).
Proof.
intros [p w] (Hw & Hk & Hb & Hc). unfold Payment_Model_save. simpl in *.
destruct (_ && _); simpl; split_and!; try assumption.
apply (stable_payment _ _ _ Hstable); assumption.
Qed.

Lemma writes_Payment_booking {A} (m : action (Booking.obj * World) A) :
preserves (writes_in_booking Kb I) m →
preserves (writes_in_payment Kp Kb I) (Payment_booking m).
Proof.
intros Hm [p w] (Hw & Hk & Hb & Hc). unfold Payment_booking. simpl in *.
assert (Hfetch : ∀ b,
          match Payment.booking_obj p with
          | Some b0 => Some b0
          | None =>
            match bookings w !! Payment.booking (Payment.cols p) with
            | Some c => Some (Booking.Obj (Some (Payment.booking (Payment.cols p))) c)
            | None => None
            end
          end = Some b → ∃ bk, Booking.pk b = Some bk ∧ Kb bk).
{ intros b. destruct (Payment.booking_obj p) as [b0|] eqn:Hcache.
  - intros [= <-]. apply Hc. reflexivity.
  - destruct (bookings w !! _); intros [= <-]. simpl. eauto. }
destruct (match Payment.booking_obj p with Some b0 => Some b0 | None => _ end)
  as [b|]; [|split_and!; assumption].
specialize (Hm (b, w) (conj Hw (Hfetch b eq_refl))).
destruct (m (b, w)) as [r [b' w']]. destruct Hm as [Hw' Hb'].
simpl in *. split_and!; try assumption.
intros b0 [= <-]. exact Hb'.
Qed.
End Writes.

(** Walks through a method or a [try] block, keeping a condition that is
    stable under the writes; [H] is the proof that it is. *)
Ltac keep_writes H :=
  repeat match goal with
  | |- preserves _ (mret _) => apply preserves_ret
  | |- preserves _ (raise _) => apply preserves_raise
  | |- preserves _ get_state => apply preserves_get_state
  | |- preserves _ (py_get _ _ _) => apply preserves_py_get
  | |- preserves _ (py_getitem _ _) => apply preserves_py_getitem
  | |- preserves (writes_in_booking _ _) self => apply writes_self_booking
  | |- preserves (writes_in_payment _ _ _) self => apply writes_self_payment
  | |- preserves (writes_in_booking _ _) (set_self _) => apply writes_set_booking
  | |- preserves (writes_in_payment _ _ _) (set_self _) =>
    apply writes_set_payment; intros ?; reflexivity
  | |- preserves _ (Payment_Model_save _) => apply (writes_Payment_Model_save _ _ _ H)
  | |- preserves _ (Booking_Model_save _) => apply (writes_Booking_Model_save _ _ _ H)
  | |- preserves _ (requests_call _ _) => apply (writes_requests_call _ _ _ H)
  | |- preserves _ (delay _ _ _) => apply (writes_delay _ _ _ H)
  | |- preserves (writes_in_booking _ _) (db _) => apply writes_db_booking
  | |- preserves (writes_in_payment _ _ _) (db _) => apply writes_db_payment
  | |- preserves _ (Payment_booking _) => apply writes_Payment_booking
  | |- preserves _ (try_except _ _) => apply preserves_try_except; [|intros ?]
  | |- preserves _ (_ ≫= _) => apply preserves_bind; [|intros ?]
  | |- preserves _ (if ?b then _ else _) => destruct b
  | |- preserves _ (match ?x with _ => _ end) => destruct x
  | |- preserves _ (let _ := _ in _) => cbv zeta
  end.

Section WritesOfViews.
Context (Kp Kb : Z → Prop) (I : World → Prop).
Hypothesis Hstable : stable_under_writes Kp Kb I.

Lemma writes_Booking_save now : preserves (writes_in_booking Kb I) (Booking_save now).
Proof.
unfold Booking_save, Booking_calculate_total_price, Booking_listing.
keep_writes Hstable.
Qed.

Lemma writes_Booking_user : preserves (writes_in_booking Kb I) Booking_user.
Proof. unfold Booking_user. keep_writes Hstable. Qed.

Lemma writes_Payment_mark_as_failed str now msg :
preserves (writes_in_payment Kp Kb I) (Payment_mark_as_failed str now msg).
Proof.
unfold Payment_mark_as_failed. keep_writes Hstable. apply writes_Booking_save.
Qed.

Lemma writes_Payment_mark_as_completed str now tid :
preserves (writes_in_payment Kp Kb I) (Payment_mark_as_completed str now tid).
Proof.
unfold Payment_mark_as_completed. keep_writes Hstable. apply writes_Booking_save.
Qed.

Lemma writes_verify_payment_try env inp url authorization :
preserves (writes_in_payment Kp Kb I) (verify_payment_try env inp url authorization).
Proof.
unfold verify_payment_try. keep_writes Hstable;
  first [apply writes_Payment_mark_as_completed
        |apply writes_Payment_mark_as_failed
        |apply writes_Booking_user].
Qed.

Lemma writes_initiate_payment_try env inp reference url payload authorization :
preserves (writes_in_payment Kp Kb I)
  (initiate_payment_try env inp reference url payload authorization).
Proof.
unfold initiate_payment_try. keep_writes Hstable.
apply writes_Payment_mark_as_failed.
Qed.

Lemma writes_initiate_payment_except env inp e :
preserves (writes_in_payment Kp Kb I) (initiate_payment_except env inp e).
Proof.
unfold initiate_payment_except. keep_writes Hstable;
  apply writes_Payment_mark_as_failed.
Qed.

Lemma writes_verify_payment_except env e :
preserves (writes_in_payment Kp Kb I) (verify_payment_except env e).
Proof. unfold verify_payment_except. keep_writes Hstable. Qed.

(** [verify_payment] keeps the condition when the Payment it finds by the
    reference, if it is not 'completed', and the Booking of that Payment
    are at keys where writes are allowed. *)
Lemma verify_payment_keeps env inp request w :
I w →
(∀ k c, payments w !! k = Some c →
        reference_param request = Some (Payment.reference c) →
        Payment.status c ≠ "completed" →
        Kp k ∧ Kb (Payment.booking c)) →
I (verify_payment env inp request w).2.
Proof.
intros Hw Hfound. unfold verify_payment.
destruct (reference_param request) as [[|a s]|] eqn:Hparam; try exact Hw.
destruct (Payment_objects_get_found (String a s) w) as (res & Hget & Hrow).
unfold mbind at 1, action_bind at 1. rewrite Hget.
destruct res as [[p|]|e]; try exact Hw.
destruct (String.eqb (Payment.status (Payment.cols p)) "completed") eqn:Hp;
  [exact Hw|].
assert (Href : Payment.reference (Payment.cols p) = String a s
               ∧ Payment.booking_obj p = None).
{ unfold or_DoesNotExist, try_except, mbind, action_bind, Payment_objects_get in Hget.
  destruct (objects_get "Payment" _ (payments w)) as [[k c]|e] eqn:Hobj.
  - apply objects_get_Ok in Hobj as (_ & HP & _).
    apply bool_decide_eq_true in HP. simpl in Hget. injection Hget as <-.
    split; [exact HP|reflexivity].
  - simpl in Hget. destruct e; try discriminate Hget.
    destruct (String.eqb _ _); discriminate Hget. }
destruct Href as [Href Hcache].
destruct (Hfound (Payment.pk p) (Payment.cols p) (Hrow p eq_refl)) as [Hk Hb].
{ rewrite Href. reflexivity. }
{ apply String.eqb_neq. exact Hp. }
assert (Hs : writes_in_payment Kp Kb I (p, w)).
{ split_and!; try assumption. intros b Hb'. simpl in Hb'.
  rewrite Hcache in Hb'. discriminate. }
unfold call.
pose proof (preserves_try_except (writes_in_payment Kp Kb I)
              (verify_payment_try env inp
                 (CHAPA_BASE_URL env +:+ "/transaction/verify/" +:+ String a s)
                 ("Bearer " +:+ CHAPA_SECRET_KEY env))
              (verify_payment_except env)
              (writes_verify_payment_try _ _ _ _)
              (writes_verify_payment_except env) (p, w) Hs) as Hrun.
destruct (try_except _ _ (p, w)) as [r s']. exact (proj1 Hrun).
Qed.

(** [initiate_payment] keeps the condition when the Booking it finds for
    the request and the key of the Payment row it inserts are where writes
    are allowed. *)
Lemma initiate_payment_keeps env inp request w :
I w →
Kp (next_pk (payments w)) →
(∀ validated_data bk b,
   PaymentInitiateSerializer env (request_data request) = inr validated_data →
   bookings w !! bk = Some b →
   Booking.booking_id b = init_booking_id validated_data →
   Booking.user b = request_user request →
   Kb bk) →
I (initiate_payment env inp request w).2.
Proof.
intros Hw Hnew Hfound. unfold initiate_payment.
destruct (PaymentInitiateSerializer env (request_data request))
  as [errors|validated_data] eqn:Hvalid; [exact Hw|].
unfold mbind at 1, action_bind at 1.
assert (Hget : ∃ res,
          or_DoesNotExist "Booking"
            (Booking_objects_get (init_booking_id validated_data)
               (request_user request)) w = (res, w)
          ∧ ∀ booking, res = Ok (Some booking) →
              ∃ bk, Booking.pk booking = Some bk ∧ Kb bk).
{ unfold or_DoesNotExist, try_except, mbind, action_bind, Booking_objects_get.
  destruct (objects_get "Booking" _ (bookings w)) as [[bk b]|e] eqn:Hobj; simpl.
  - eexists. split; [reflexivity|]. intros booking [= <-]. exists bk.
    split; [reflexivity|].
    apply objects_get_Ok in Hobj as (Hbk & HP & _).
    apply andb_true_iff in HP as [Hid Hu].
    apply bool_decide_eq_true in Hid, Hu.
    eapply Hfound; [reflexivity|exact Hbk|exact Hid|exact Hu].
  - destruct e; try (eexists; split; [reflexivity|]; intros ? [=]).
    destruct (String.eqb _ _); eexists; (split; [reflexivity|]); intros ? [=]. }
destruct Hget as (res & -> & Hbooking).
destruct res as [[booking|]|e]; try exact Hw.
destruct (Hbooking booking eq_refl) as (bk & Hpk & Hbk).
unfold mbind at 1, action_bind at 1.
pose proof (hasattr_payment_state booking w) as Hhas.
destruct (hasattr_payment booking w) as [[existing|e] w1];
  simpl in Hhas; subst w1; [|exact Hw].
destruct (match existing with Some _ => _ | None => _ end); [exact Hw|].
unfold mbind at 1, action_bind at 1.
unfold Payment_objects_create at 1. rewrite Hpk.
destruct (_ && _); [|exact Hw].
assert (Hw1 : I (set_payments
                   (<[next_pk (payments w) :=
                        Payment.mk (uuid4_default inp) bk None
                          (make_reference (uuid4_hex inp))
                          (Booking.total_price (Booking.cols booking)) "ETB"
                          "pending" None None None (Some (now inp)) None
                          (Some (now inp)) None VNone]> (payments w)) w)).
{ apply (stable_payment _ _ _ Hstable); assumption. }
revert Hw1. generalize (set_payments
  (<[next_pk (payments w) :=
       Payment.mk (uuid4_default inp) bk None (make_reference (uuid4_hex inp))
         (Booking.total_price (Booking.cols booking)) "ETB" "pending" None None
         None (Some (now inp)) None (Some (now inp)) None VNone]> (payments w)) w).
intros w1 Hw1.
unfold mbind at 1, action_bind at 1.
unfold call at 1, Booking_listing, mbind, action_bind, self, db, zoom, get_state.
simpl.
destruct (listings w1 !! _); simpl; [|exact Hw1].
unfold call.
match goal with
| |- I (let '(r, s) := try_except ?m ?h ?s0 in (r, s.2)).2 =>
  pose proof (preserves_try_except (writes_in_payment Kp Kb I) m h
                (writes_initiate_payment_try _ _ _ _ _ _)
                (writes_initiate_payment_except env inp) s0) as Hrun;
  destruct (try_except m h s0) as [r s']
end.
apply Hrun. split_and!; simpl; try assumption.
intros b [= <-]. eauto.
Qed.
End WritesOfViews.

(** X1. The payment views delete nothing and write to two tables only:
    after [initiate_payment] or [verify_payment], whatever the request and
    the inputs, every Payment key and every Booking key of the database is
    still there, and the listings, the users, the mails sent and the
    worker's record are the ones before. *)
Theorem payment_views_delete_nothing env inp request w :
nothing_deleted w (initiate_payment env inp request w).2
∧ nothing_deleted w (verify_payment env inp request w).2.
Proof.
assert (Hstable : stable_under_writes (λ _, True) (λ _, True) (nothing_deleted w)).
{ split.
  - intros l w0 H. exact H.
  - intros q w0 H. exact H.
  - intros k c w0 _ (Hp & Hrest). split; [|exact Hrest].
    simpl. rewrite dom_insert_L. apply union_subseteq_r'. exact Hp.
  - intros k c w0 _ (Hp & Hb & Hrest). split; [exact Hp|]. split; [|exact Hrest].
    simpl. rewrite dom_insert_L. apply union_subseteq_r'. exact Hb. }
assert (Hw : nothing_deleted w w) by (unfold nothing_deleted; split_and!; reflexivity).
split.
- apply (initiate_payment_keeps _ _ _ Hstable); [exact Hw|exact Logic.I|].
  intros; exact Logic.I.
- apply (verify_payment_keeps _ _ _ Hstable); [exact Hw|].
  intros; split; exact Logic.I.
Qed.

(** X2. [initiate_payment] writes to the payments table at one key, a key
    that was free: every Payment row of the database is as before,
    whatever its status.  It changes no Booking but the one the request
    names and the user owns. *)
Theorem initiate_payment_writes_one_payment env inp request w :
payments w !! next_pk (payments w) = None
∧ (∀ k, k ≠ next_pk (payments w) →
        payments (initiate_payment env inp request w).2 !! k = payments w !! k)
∧ (∀ k c, payments w !! k = Some c →
          payments (initiate_payment env inp request w).2 !! k = Some c)
∧ (∀ bk b, bookings w !! bk = Some b →
     (∀ validated_data,
        PaymentInitiateSerializer env (request_data request) = inr validated_data →
        Booking.booking_id b ≠ init_booking_id validated_data
        ∨ Booking.user b ≠ request_user request) →
     bookings (initiate_payment env inp request w).2 !! bk = Some b).
Proof.
assert (Hother : ∀ k, k ≠ next_pk (payments w) →
          payments (initiate_payment env inp request w).2 !! k = payments w !! k).
{ intros k Hk.
  apply (initiate_payment_keeps (λ k', k' ≠ k) (λ _, True)
           (λ w', payments w' !! k = payments w !! k)).
  - split; try (intros; assumption).
    intros k' c w0 Hne H. simpl. rewrite lookup_insert_ne; done.
  - reflexivity.
  - congruence.
  - intros; exact Logic.I. }
split; [apply next_pk_fresh|]. split; [exact Hother|]. split.
- intros k c Hk. rewrite Hother; [exact Hk|].
  intros ->. rewrite next_pk_fresh in Hk. discriminate.
- intros bk b Hbk Hnot.
  apply (initiate_payment_keeps (λ _, True) (λ bk', bk' ≠ bk)
           (λ w', bookings w' !! bk = Some b)).
  + split; try (intros; assumption).
    intros k' c w0 Hne H. simpl. rewrite lookup_insert_ne; done.
  + exact Hbk.
  + exact Logic.I.
  + intros validated_data bk' b' Hvalid Hbk' Hid Hu ->.
    rewrite Hbk in Hbk'. injection Hbk' as <-.
    destruct (Hnot validated_data Hvalid); contradiction.
Qed.

(** X3. [verify_payment] inserts no Payment row, changes no Payment whose
    reference is not the one of the request, and changes no Booking other
    than that of a Payment with that reference. *)
Theorem verify_payment_writes_one_payment env inp request w :
dom (payments (verify_payment env inp request w).2) = dom (payments w)
∧ (∀ k c, payments w !! k = Some c →
          reference_param request ≠ Some (Payment.reference c) →
          payments (verify_payment env inp request w).2 !! k = Some c)
∧ (∀ bk b, bookings w !! bk = Some b →
     (∀ k c, payments w !! k = Some c →
             reference_param request = Some (Payment.reference c) →
             Payment.booking c ≠ bk) →
     bookings (verify_payment env inp request w).2 !! bk = Some b).
Proof.
split_and!.
- apply (verify_payment_keeps (λ k, k ∈ dom (payments w)) (λ _, True)
           (λ w', dom (payments w') = dom (payments w))).
  + split; try (intros; assumption).
    intros k c w0 Hk H. simpl. rewrite dom_insert_L, H.
    apply subseteq_union_1_L, singleton_subseteq_l. exact Hk.
  + reflexivity.
  + intros k c Hk _ _. split; [|exact Logic.I].
    apply elem_of_dom. eauto.
- intros k c Hk Href.
  apply (verify_payment_keeps (λ k', k' ≠ k) (λ _, True)
           (λ w', payments w' !! k = Some c)).
  + split; try (intros; assumption).
    intros k' c' w0 Hne H. simpl. rewrite lookup_insert_ne; done.
  + exact Hk.
  + intros k' c' Hk' Href' _. split; [|exact Logic.I].
    intros ->. rewrite Hk in Hk'. injection Hk' as <-. contradiction.
- intros bk b Hbk Hnot.
  apply (verify_payment_keeps (λ _, True) (λ bk', bk' ≠ bk)
           (λ w', bookings w' !! bk = Some b)).
  + split; try (intros; assumption).
    intros k' c' w0 Hne H. simpl. rewrite lookup_insert_ne; done.
  + exact Hbk.
  + intros k c Hk Href _. split; [exact Logic.I|]. eauto.
Qed.

(** X4. The constraints [models.py] declares (a Booking has at most one
    Payment, [reference], [payment_id], [booking_id] and a non-null
    [transaction_id] are unique, the foreign keys resolve, amount, price
    and dates are set) hold after [initiate_payment] and after
    [verify_payment] when they held before, however the view ends. *)
Theorem payment_views_keep_constraints env inp request w :
db_wf w →
db_wf (initiate_payment env inp request w).2
∧ db_wf (verify_payment env inp request w).2.
Proof. apply views_keep_db_wf. Qed.

Lemma payment_views_keep_constraints_witness :
db_wf (initiate_payment (demo_env true) (demo_inputs reply_checkout)
         demo_initiate_request demo_world).2
∧ db_wf (verify_payment (demo_env true) (demo_inputs (reply_verified "success"))
           demo_verify_request (demo_world_paying "processing")).2.
Proof.
split.
- apply (payment_views_keep_constraints (demo_env true) (demo_inputs reply_checkout)
           demo_initiate_request demo_world demo_world_wf).
- apply (payment_views_keep_constraints (demo_env true)
           (demo_inputs (reply_verified "success"))
           demo_verify_request (demo_world_paying "processing")
           (demo_world_paying_wf "processing")).
Defined.

(** ** Initiating the payment of a booking that has none *)

Section InitiateFresh.
Context (env : Env) (inp : Inputs) (request : Request) (w : World).
Context (validated_data : InitiateData) (bk : Z) (b : Booking.t).
Hypothesis Hwf : db_wf w.
Hypothesis Hvalid : PaymentInitiateSerializer env (request_data request) = inr validated_data.
Hypothesis Hbooking : bookings w !! bk = Some b.
Hypothesis Hid : Booking.booking_id b = init_booking_id validated_data.
Hypothesis Howner : Booking.user b = request_user request.
Hypothesis Hfresh :
  ∀ k c, payments w !! k = Some c →
         Payment.payment_id c ≠ uuid4_default inp ∧ Payment.booking c ≠ bk
         ∧ Payment.reference c ≠ make_reference (uuid4_hex inp).







End InitiateFresh.




(** ** Requests the payment views turn away *)

(** X8. [initiate_payment] turns a request away before it writes or calls
    the gateway: data the serializer rejects get its errors with status
    400; a [booking_id] that no booking of the requester carries (a booking
    of another user included) gets 404 "Booking not found".  The state is
    the one before. *)
Theorem initiate_payment_turned_away env inp request w :
(∀ errors,
   PaymentInitiateSerializer env (request_data request) = inl errors →
   initiate_payment env inp request w
   = (Ok (Build_Response errors HTTP_400_BAD_REQUEST), w))
∧ (∀ validated_data,
     PaymentInitiateSerializer env (request_data request) = inr validated_data →
     (∀ bk b, bookings w !! bk = Some b →
              Booking.booking_id b ≠ init_booking_id validated_data
              ∨ Booking.user b ≠ request_user request) →
     initiate_payment env inp request w
     = (Ok (Build_Response (dict [("error", VStr "Booking not found")])
              HTTP_404_NOT_FOUND), w)).
Proof.
split.
- intros errors Hinvalid. unfold initiate_payment. rewrite Hinvalid. reflexivity.
- intros validated_data Hvalid Hnone. unfold initiate_payment. rewrite Hvalid.
  cbv zeta.
  unfold or_DoesNotExist, try_except, Booking_objects_get.
  unfold mbind at 1. unfold action_bind at 1.
  unfold mbind at 1. unfold action_bind at 1.
  rewrite objects_get_none; [reflexivity|].
  intros bk b Hbk. apply andb_false_iff.
  destruct (Hnone bk b Hbk) as [Hne|Hne]; [left|right];
    apply bool_decide_eq_false_2; exact Hne.
Qed.

(** X9. [verify_payment] turns a request away before it writes or calls
    the gateway: without a [reference] and without a [tx_ref] in the query
    (or with empty ones) it answers 400 "Payment reference is required";
    with a reference that no Payment carries it answers 404 "Payment not
    found".  The state is the one before.  A [reference] that is not empty
    is the one looked up, whatever [tx_ref] says. *)
Theorem verify_payment_turned_away env inp request w :
((query_params request !! "reference" = None
  ∨ query_params request !! "reference" = Some "") →
 (query_params request !! "tx_ref" = None
  ∨ query_params request !! "tx_ref" = Some "") →
 verify_payment env inp request w
 = (Ok (Build_Response (dict [("error", VStr "Payment reference is required")])
          HTTP_400_BAD_REQUEST), w))
∧ (∀ reference,
     reference ≠ "" →
     (query_params request !! "reference" = Some reference
      ∨ ((query_params request !! "reference" = None
          ∨ query_params request !! "reference" = Some "")
         ∧ query_params request !! "tx_ref" = Some reference)) →
     (∀ k c, payments w !! k = Some c → Payment.reference c ≠ reference) →
     verify_payment env inp request w
     = (Ok (Build_Response (dict [("error", VStr "Payment not found")])
              HTTP_404_NOT_FOUND), w)).
Proof.
split.
- intros Href Htx. unfold verify_payment, reference_param.
  destruct Href as [-> | ->], Htx as [-> | ->]; reflexivity.
- intros reference Hne Hquery Hnone.
  assert (Hparam : reference_param request = Some reference).
  { unfold reference_param.
    destruct Hquery as [-> | [[-> | ->] ->]]; try reflexivity.
    destruct (String.eqb_spec reference ""); [contradiction|reflexivity]. }
  unfold verify_payment. rewrite Hparam.
  destruct reference as [|a s] eqn:E; [done|]. rewrite <- E in *.
  unfold or_DoesNotExist, try_except, Payment_objects_get.
  unfold mbind at 1. unfold action_bind at 1.
  unfold mbind at 1. unfold action_bind at 1.
  rewrite objects_get_none; [reflexivity|].
  intros k c Hk. apply bool_decide_eq_false_2. exact (Hnone k c Hk).
Qed.

(** ** The model methods on a stored Payment *)

Lemma Payment_booking_fetch {A} (m : action (Booking.obj * World) A) k cP b w :
bookings w !! Payment.booking cP = Some b →
Payment_booking m (Payment.Obj k cP None, w)
= (let '(r, (b', w')) := m (Booking.Obj (Some (Payment.booking cP)) b, w) in
   (r, (Payment.Obj k cP (Some b'), w'))).
Proof. intros Hb. unfold Payment_booking. simpl. rewrite Hb. reflexivity. Qed.

(** A second save of a Payment whose row was written at [k] after passing
    the checks, a Booking having been written since. *)
Lemma Payment_Model_save_again now p c1 bk b' w :
Payment_row_ok w c1 = true →
unique_ok Payment_clash (Some (Payment.pk p)) c1 (payments w) = true →
Payment_keys (Payment.cols p) = Payment_keys c1 →
Payment_Model_save now
  (p, set_bookings (<[bk := b']> (bookings w))
        (set_payments (<[Payment.pk p := c1]> (payments w)) w))
= (Ok tt,
   (Payment.on_cols (Payment.set_updated_at (Some now)) p,
    set_bookings (<[bk := b']> (bookings w))
      (set_payments
         (<[Payment.pk p := Payment.set_updated_at (Some now) (Payment.cols p)]>
            (payments w)) w))).
Proof.
intros Hrow Huniq Hkeys.
erewrite Payment_Model_save_Ok; [ | | | exact Hkeys].
- unfold set_bookings, set_payments. simpl. rewrite insert_insert_eq. reflexivity.
- apply (Payment_row_ok_bookings
           (set_payments (<[Payment.pk p := c1]> (payments w)) w) c1 bk b').
  exact Hrow.
- apply unique_ok_overwrite. exact Huniq.
Qed.

(** [mark_as_failed] on a Payment as [objects.get] returned it. *)
Lemma Payment_mark_as_failed_stored str now msg k c b w :
db_wf w →
payments w !! k = Some c →
bookings w !! Payment.booking c = Some b →
Payment_mark_as_failed str now msg (Payment.Obj k c None, w)
= (Ok tt,
   (Payment.Obj k (failed_payment str now msg c)
      (Some (Booking.Obj (Some (Payment.booking c))
               (saved_booking now w "cancelled" b))),
    set_bookings
      (<[Payment.booking c := saved_booking now w "cancelled" b]> (bookings w))
      (set_payments (<[k := failed_payment str now msg c]> (payments w)) w))).
Proof.
intros Hwf Hk Hb.
destruct (proj2 Hwf k c Hk) as [Hrow Huniq].
destruct (proj1 Hwf _ b Hb) as [Hbrow Hbuniq].
unfold Payment_mark_as_failed, mbind, action_bind, set_self, modify. simpl.
assert (Hstep : ∀ cQ, Payment_keys cQ = Payment_keys c →
  (let (r, s') := Payment_Model_save now (Payment.Obj k cQ None, w) in
   match r with
   | Ok _ =>
     let (r0, s'0) :=
       Payment_booking
         (λ s, (Ok (), (Booking.on_cols (Booking.set_status "cancelled") s.1, s.2))) s' in
     match r0 with
     | Ok _ => Payment_booking (Booking_save now) s'0
     | Raise e => (Raise e, s'0)
     end
   | Raise e => (Raise e, s')
   end)
  = (Ok tt,
     (Payment.Obj k (Payment.set_updated_at (Some now) cQ)
        (Some (Booking.Obj (Some (Payment.booking c))
                 (saved_booking now w "cancelled" b))),
      set_bookings
        (<[Payment.booking c := saved_booking now w "cancelled" b]> (bookings w))
        (set_payments (<[k := Payment.set_updated_at (Some now) cQ]> (payments w)) w)))).
{ intros cQ HQ.
  assert (HbQ : Payment.booking cQ = Payment.booking c)
    by (unfold Payment_keys in HQ; congruence).
  erewrite Payment_Model_save_Ok by first [exact Hrow | exact Huniq | exact HQ].
  unfold Payment.on_cols. simpl.
  rewrite (Payment_booking_fetch _ k (Payment.set_updated_at (Some now) cQ) b)
    by (simpl; rewrite HbQ; exact Hb).
  simpl. rewrite HbQ.
  unfold Payment_booking. simpl.
  unfold Booking.on_cols. simpl.
  rewrite Booking_save_Ok; [reflexivity|exact Hbrow|exact Hbuniq]. }
unfold failed_payment. destruct (truthy msg); simpl; apply Hstep; reflexivity.
Qed.

(** [mark_as_completed] on a Payment as [objects.get] returned it, when no
    other row has the transaction id. *)
Lemma Payment_mark_as_completed_stored str now tid k c b w :
db_wf w →
payments w !! k = Some c →
bookings w !! Payment.booking c = Some b →
unique_ok Payment_clash (Some k) (completed_payment str now tid c) (payments w) = true →
Payment_mark_as_completed str now tid (Payment.Obj k c None, w)
= (Ok tt,
   (Payment.Obj k (completed_payment str now tid c)
      (Some (Booking.Obj (Some (Payment.booking c))
               (saved_booking now w "confirmed" b))),
    set_bookings
      (<[Payment.booking c := saved_booking now w "confirmed" b]> (bookings w))
      (set_payments (<[k := completed_payment str now tid c]> (payments w)) w))).
Proof.
intros Hwf Hk Hb Huniq.
destruct (proj2 Hwf k c Hk) as [Hrow _].
destruct (proj1 Hwf _ b Hb) as [Hbrow Hbuniq].
unfold Payment_mark_as_completed, mbind, action_bind, set_self, modify. simpl.
assert (Hstep : ∀ cQ,
  Payment.set_updated_at (Some now) cQ = completed_payment str now tid c →
  (let (r, s') := Payment_Model_save now (Payment.Obj k cQ None, w) in
   match r with
   | Ok _ =>
     let (r0, s'0) :=
       Payment_booking
         (λ s, (Ok (), (Booking.on_cols (Booking.set_status "confirmed") s.1, s.2))) s' in
     match r0 with
     | Ok _ => Payment_booking (Booking_save now) s'0
     | Raise e => (Raise e, s'0)
     end
   | Raise e => (Raise e, s')
   end)
  = (Ok tt,
     (Payment.Obj k (completed_payment str now tid c)
        (Some (Booking.Obj (Some (Payment.booking c))
                 (saved_booking now w "confirmed" b))),
      set_bookings
        (<[Payment.booking c := saved_booking now w "confirmed" b]> (bookings w))
        (set_payments (<[k := completed_payment str now tid c]> (payments w)) w)))).
{ intros cQ HQ.
  assert (Hkeys : Payment_keys cQ = Payment_keys (completed_payment str now tid c))
    by (rewrite <- HQ; reflexivity).
  assert (Hrow' : Payment_row_ok w (completed_payment str now tid c) = true).
  { rewrite <- Hrow. unfold Payment_row_ok, completed_payment.
    destruct (truthy tid); reflexivity. }
  assert (HbQ : Payment.booking (completed_payment str now tid c) = Payment.booking c)
    by (unfold completed_payment; destruct (truthy tid); reflexivity).
  erewrite Payment_Model_save_Ok by first [exact Hrow' | exact Huniq | exact Hkeys].
  unfold Payment.on_cols. simpl. rewrite HQ.
  rewrite (Payment_booking_fetch _ k (completed_payment str now tid c) b)
    by (rewrite HbQ; exact Hb).
  rewrite HbQ. simpl.
  unfold Payment_booking. simpl.
  unfold Booking.on_cols. simpl.
  rewrite Booking_save_Ok; [reflexivity|exact Hbrow|exact Hbuniq]. }
clear Huniq. unfold completed_payment in *.
destruct (truthy tid); simpl; apply Hstep; reflexivity.
Qed.

(** [mark_as_completed] with a transaction id another row has: the UPDATE
    is refused and nothing is written. *)
Lemma Payment_mark_as_completed_clash str now tid k c w :
unique_ok Payment_clash (Some k) (completed_payment str now tid c) (payments w) = false →
Payment_mark_as_completed str now tid (Payment.Obj k c None, w)
= (Raise IntegrityError, (Payment.Obj k (completed_payment str now tid c) None, w)).
Proof.
intros Huniq.
unfold Payment_mark_as_completed, mbind, action_bind, set_self, modify. simpl.
assert (Hstep : ∀ cQ,
  Payment.set_updated_at (Some now) cQ = completed_payment str now tid c →
  Payment_Model_save now (Payment.Obj k cQ None, w)
  = (Raise IntegrityError, (Payment.Obj k (completed_payment str now tid c) None, w))).
{ intros cQ HQ. unfold Payment_Model_save. simpl. rewrite HQ, Huniq.
  rewrite andb_false_r. reflexivity. }
unfold completed_payment in *.
destruct (truthy tid); simpl; unfold Payment.on_cols; simpl;
  rewrite Hstep; reflexivity.
Qed.

(** ** Verifying a payment the gateway has settled *)

Section VerifySettled.
Context (env : Env) (inp : Inputs) (request : Request) (w : World).
Context (reference : string) (k : Z) (c : Payment.t) (b : Booking.t).
Hypothesis Hwf : db_wf w.
Hypothesis Hparam : reference_param request = Some reference.
Hypothesis Hnonempty : reference ≠ "".
Hypothesis Hpayment : payments w !! k = Some c.
Hypothesis Href : Payment.reference c = reference.
Hypothesis Hst : Payment.status c ≠ "completed".
Hypothesis Hb : bookings w !! Payment.booking c = Some b.

(** The view up to the branch on the transaction status [ts]. *)
Lemma verify_payment_settled_run status_code (d t : gmap string value) :
gateway inp = Responded status_code (VDict d) →
accepted (gateway inp) = true →
d !! "data" = Some (VDict t) →
verify_payment env inp request w
= (let '(r, s) :=
     try_except
       (let transaction_status := default VNone (t !! "status") in
        if eq_str transaction_status "success" then
          transaction_id ← py_get (VDict t) "reference" VNone;
          Payment_mark_as_completed (str_value env) (now inp) transaction_id;;
          method ← py_get (VDict t) "method" (VStr "");
          set_self (Payment.on_cols
                      (Payment.set_payment_method (to_column (str_value env) method)));;
          set_self (Payment.on_cols (Payment.set_raw_response (VDict d)));;
          Payment_Model_save (now inp);;
          booking ← Payment_booking self;
          user ← Payment_booking Booking_user;
          db (delay env send_booking_confirmation_email
                [("booking_id", VStr (Booking.booking_id (Booking.cols booking)));
                 ("user_email", VStr (User.email user))]);;
          payment ← self;
          w ← db get_state;
          mret {|
            response_data :=
              dict [("status", VStr "success");
                    ("message", VStr "Payment verified and completed successfully");
                    ("data", PaymentSerializer env w payment)];
            response_status := HTTP_200_OK |}
        else if eq_str transaction_status "failed" then
          Payment_mark_as_failed (str_value env) (now inp)
            (VStr "Payment failed at gateway");;
          set_self (Payment.on_cols (Payment.set_raw_response (VDict d)));;
          Payment_Model_save (now inp);;
          payment ← self;
          w ← db get_state;
          mret {|
            response_data :=
              dict [("status", VStr "failed");
                    ("message", VStr "Payment verification failed");
                    ("data", PaymentSerializer env w payment)];
            response_status := HTTP_400_BAD_REQUEST |}
        else
          set_self (Payment.on_cols (Payment.set_status "processing"));;
          set_self (Payment.on_cols (Payment.set_raw_response (VDict d)));;
          Payment_Model_save (now inp);;
          payment ← self;
          w ← db get_state;
          mret {|
            response_data :=
              dict [("status", VStr "processing");
                    ("message", VStr "Payment is still being processed");
                    ("data", PaymentSerializer env w payment)];
            response_status := HTTP_200_OK |})
       (verify_payment_except env)
       (Payment.Obj k c None,
        set_gateway_log (gateway_log w ++ [verify_call env reference]) w) in
   (r, s.2)).
Proof.
intros Hreply Hacc Hdata.
rewrite (verify_payment_found env inp request w reference k c Hwf Hparam Hnonempty
           Hpayment Href).
apply String.eqb_neq in Hst. rewrite Hst.
unfold call, try_except, verify_payment_try.
unfold mbind at 1. unfold action_bind at 1.
unfold db at 1. unfold zoom at 1. unfold requests_call. rewrite Hreply.
rewrite Hreply in Hacc. simpl in Hacc.
apply andb_true_iff in Hacc as [Hcode Hsuccess].
cbn [fst snd]. rewrite Hcode.
unfold mbind at 1. unfold action_bind at 1.
unfold mbind at 1. unfold action_bind at 1.
unfold py_get at 1. unfold mret at 1. unfold action_ret at 1.
destruct (d !! "status") as [v|] eqn:Hs; simpl in Hsuccess; [|discriminate].
unfold mret at 1. unfold action_ret at 1.
rewrite Hsuccess.
unfold mbind at 1. unfold action_bind at 1.
unfold py_get at 1. rewrite Hdata.
unfold mret at 1. unfold action_ret at 1.
unfold mbind at 1. unfold action_bind at 1.
unfold py_get at 1.
unfold mret at 1. unfold action_ret at 1.
unfold verify_call.
destruct (t !! "status") as [ts|]; reflexivity.
Qed.
(** X10. A Payment that is not 'completed', and a gateway that reports the
    transaction as "failed": the view answers 400 tagged "failed"; the
    Payment row is 'failed' with the message "Payment failed at gateway" and
    the gateway's answer, its Booking is 'cancelled'; the columns under a
    constraint, the queue and every other row are as before. *)
Theorem verify_payment_failed_at_gateway status_code (d t : gmap string value) :
gateway inp = Responded status_code (VDict d) →
accepted (gateway inp) = true →
d !! "data" = Some (VDict t) →
t !! "status" = Some (VStr "failed") →
∃ resp w' c' b',
  verify_payment env inp request w = (Ok resp, w')
  ∧ response_status resp = HTTP_400_BAD_REQUEST
  ∧ status_tag resp = Some (VStr "failed")
  ∧ data_of resp
    = Some (PaymentSerializer env w'
              (Payment.Obj k c' (Some (Booking.Obj (Some (Payment.booking c)) b'))))
  ∧ payments w' = <[k := c']> (payments w)
  ∧ bookings w' = <[Payment.booking c := b']> (bookings w)
  ∧ Payment.status c' = "failed"
  ∧ Payment.error_message c' = Some "Payment failed at gateway"
  ∧ Payment.raw_response c' = VDict d
  ∧ Payment_keys c' = Payment_keys c
  ∧ Booking.status b' = "cancelled"
  ∧ Booking_keys b' = Booking_keys b
  ∧ queue w' = queue w
  ∧ gateway_log w' = (gateway_log w ++ [verify_call env reference])%list.
Proof.
intros Hreply Hacc Hdata Hts.
rewrite (verify_payment_settled_run status_code d t Hreply Hacc Hdata).
rewrite Hts. unfold default. cbn [from_option id eq_str String.eqb Ascii.eqb Bool.eqb].
unfold try_except.
unfold mbind at 1. unfold action_bind at 1.
rewrite (Payment_mark_as_failed_stored (str_value env) (now inp)
           (VStr "Payment failed at gateway") k c b
           (set_gateway_log (gateway_log w ++ [verify_call env reference]) w)
           Hwf Hpayment Hb).
set (w0 := set_gateway_log (gateway_log w ++ [verify_call env reference]) w).
set (c1 := failed_payment (str_value env) (now inp) (VStr "Payment failed at gateway") c).
set (b1 := saved_booking (now inp) w0 "cancelled" b).
destruct (proj2 Hwf k c Hpayment) as [Hrow Huniq].
assert (Hkeys1 : Payment_keys c1 = Payment_keys c) by reflexivity.
assert (Hrow1 : Payment_row_ok w0 c1 = true).
{ rewrite (Payment_row_ok_keys w0 c1 c Hkeys1). exact Hrow. }
assert (Huniq1 : unique_ok Payment_clash (Some k) c1 (payments w0) = true).
{ rewrite (unique_ok_ext Payment_clash (Some k) c1 c); [exact Huniq|].
  intros r'. apply Payment_clash_keys. exact Hkeys1. }
pose proof (Payment_Model_save_again (now inp)
              (Payment.Obj k (Payment.set_raw_response (VDict d) c1)
                 (Some (Booking.Obj (Some (Payment.booking c)) b1)))
              c1 (Payment.booking c) b1 w0 Hrow1 Huniq1 eq_refl) as Hsave.
cbn [Payment.pk Payment.cols] in Hsave.
unfold mbind at 1. unfold action_bind at 1.
unfold set_self at 1. unfold modify at 1.
cbn [fst snd]. unfold Payment.on_cols at 1.
cbn [Payment.pk Payment.cols Payment.booking_obj].
unfold mbind at 1. unfold action_bind at 1.
rewrite Hsave. clear Hsave.
eexists _, _, (Payment.set_updated_at (Some (now inp))
                 (Payment.set_raw_response (VDict d) c1)), b1.
split; [reflexivity|].
destruct (priced_keys w0 (Booking.set_status "cancelled" b)) as (Hbkeys & Hbst & _).
split_and!; try reflexivity.
- unfold b1, saved_booking. simpl. rewrite Hbst. reflexivity.
- unfold b1, saved_booking, Booking_keys in *. simpl. exact Hbkeys.
Qed.
(** The check of the UPDATE that [mark_as_completed] makes: it passes when
    no other row has the transaction id, and fails when one has. *)
Lemma completed_payment_unique tid :
(truthy tid = true →
 ∀ k' c', payments w !! k' = Some c' → k' ≠ k →
          Payment.transaction_id c' ≠ to_column (str_value env) tid) →
unique_ok Payment_clash (Some k)
  (completed_payment (str_value env) (now inp) tid c) (payments w) = true.
Proof.
intros Hfree. destruct (proj2 Hwf k c Hpayment) as [_ Huniq].
apply unique_ok_true. intros k' c' Hk'.
destruct (decide (k' = k)) as [->|Hne]; [by left|]. right.
destruct (proj1 (unique_ok_true Payment_clash _ _ _) Huniq k' c' Hk')
  as [[= ?]|Hclash]; [contradiction|].
revert Hclash. unfold Payment_clash, completed_payment.
destruct (truthy tid) eqn:Htid; simpl; [|auto].
rewrite !orb_false_iff. intros [Hcols _].
split; [exact Hcols|]. apply andb_false_iff. right.
apply bool_decide_eq_false_2. apply (Hfree eq_refl k' c' Hk' Hne).
Qed.

Lemma completed_payment_clash tid k' c' :
truthy tid = true →
payments w !! k' = Some c' → k' ≠ k →
Payment.transaction_id c' = to_column (str_value env) tid →
unique_ok Payment_clash (Some k)
  (completed_payment (str_value env) (now inp) tid c) (payments w) = false.
Proof.
intros Htid Hk' Hne Hsame.
apply (unique_ok_false Payment_clash _ _ _ k' c' Hk'); [congruence|].
unfold Payment_clash, completed_payment. rewrite Htid. simpl.
apply orb_true_iff. right. apply andb_true_iff.
split; apply bool_decide_eq_true_2; [|exact Hsame].
destruct tid; simpl in *; eauto; discriminate.
Qed.

(** X11. A Payment that is not 'completed', and a gateway that reports the
    transaction as "success" with a reference no other Payment has: the
    Payment row is 'completed' with that reference, the time, the method
    and the answer, its Booking is 'confirmed'.  Both rows are written
    before the notification is tried: with Celery's argument check on, the
    call of [delay] with two of the six arguments raises, the view answers
    500 and nothing is queued, the rows stay written; with the check off
    the view answers 200 and one job with these two arguments is queued. *)
Theorem verify_payment_success_commits status_code (d t : gmap string value) :
gateway inp = Responded status_code (VDict d) →
accepted (gateway inp) = true →
d !! "data" = Some (VDict t) →
t !! "status" = Some (VStr "success") →
(truthy (default VNone (t !! "reference")) = true →
 ∀ k' c', payments w !! k' = Some c' → k' ≠ k →
          Payment.transaction_id c'
          ≠ to_column (str_value env) (default VNone (t !! "reference"))) →
∃ resp w' c' b' u,
  verify_payment env inp request w = (Ok resp, w')
  ∧ users w !! Booking.user b = Some u
  ∧ payments w' = <[k := c']> (payments w)
  ∧ bookings w' = <[Payment.booking c := b']> (bookings w)
  ∧ Payment.status c' = "completed"
  ∧ Payment.completed_at c' = Some (now inp)
  ∧ Payment.transaction_id c'
    = (if truthy (default VNone (t !! "reference"))
       then to_column (str_value env) (default VNone (t !! "reference"))
       else Payment.transaction_id c)
  ∧ Payment.payment_method c'
    = to_column (str_value env) (default (VStr "") (t !! "method"))
  ∧ Payment.raw_response c' = VDict d
  ∧ Booking.status b' = "confirmed"
  ∧ Booking_keys b' = Booking_keys b
  ∧ gateway_log w' = (gateway_log w ++ [verify_call env reference])%list
  ∧ (if strict_typing env
     then response_status resp = HTTP_500_INTERNAL_SERVER_ERROR
          ∧ message_of resp = Some (VStr "An unexpected error occurred")
          ∧ queue w' = queue w
     else response_status resp = HTTP_200_OK
          ∧ status_tag resp = Some (VStr "success")
          ∧ queue w'
            = (queue w ++
               [fresh_job [("booking_id", VStr (Booking.booking_id b));
                           ("user_email", VStr (User.email u))]])%list).
Proof.
intros Hreply Hacc Hdata Hts Hfree.
rewrite (verify_payment_settled_run status_code d t Hreply Hacc Hdata).
rewrite Hts. unfold default at 1.
cbn [from_option id eq_str String.eqb Ascii.eqb Bool.eqb].
set (tid := default VNone (t !! "reference")) in *.
set (w0 := set_gateway_log (gateway_log w ++ [verify_call env reference]) w).
set (c1 := completed_payment (str_value env) (now inp) tid c).
set (b1 := saved_booking (now inp) w0 "confirmed" b).
pose proof (completed_payment_unique tid Hfree) as Huniq1. fold c1 in Huniq1.
destruct (proj2 Hwf k c Hpayment) as [Hrow _].
destruct (proj1 Hwf _ b Hb) as [Hbrow _].
pose proof (Booking_row_ok_true w b Hbrow) as (_ & _ & _ & [u Hu] & _).
assert (Hrow1 : Payment_row_ok w0 c1 = true).
{ rewrite <- Hrow. unfold c1, Payment_row_ok, completed_payment.
  destruct (truthy tid); reflexivity. }
pose proof (Payment_mark_as_completed_stored (str_value env) (now inp) tid k c b
              w0 Hwf Hpayment Hb Huniq1) as Hmark.
fold c1 b1 in Hmark.
unfold try_except.
unfold mbind at 1. unfold action_bind at 1.
unfold py_get at 1. unfold mret at 1. unfold action_ret at 1.
change (match t !! "reference" with Some x => x | None => VNone end) with tid.
unfold mbind at 1. unfold action_bind at 1.
rewrite Hmark. clear Hmark.
unfold mbind at 1. unfold action_bind at 1.
unfold py_get at 1. unfold mret at 1. unfold action_ret at 1.
set (method := match t !! "method" with Some x => x | None => VStr "" end).
pose proof (Payment_Model_save_again (now inp)
              (Payment.Obj k
                 (Payment.set_raw_response (VDict d)
                    (Payment.set_payment_method
                       (to_column (str_value env) method) c1))
                 (Some (Booking.Obj (Some (Payment.booking c)) b1)))
              c1 (Payment.booking c) b1 w0 Hrow1 Huniq1 eq_refl) as Hsave.
cbn [Payment.pk Payment.cols] in Hsave.
unfold mbind at 1. unfold action_bind at 1.
unfold set_self at 1. unfold modify at 1. cbn [fst snd].
unfold mbind at 1. unfold action_bind at 1.
unfold set_self at 1. unfold modify at 1. cbn [fst snd].
unfold Payment.on_cols at 1 2.
cbn [Payment.pk Payment.cols Payment.booking_obj].
unfold mbind at 1. unfold action_bind at 1.
rewrite Hsave. clear Hsave.
destruct (priced_keys w0 (Booking.set_status "confirmed" b)) as (Hbkeys & Hbst & _).
assert (Hb1 : Booking_keys b1 = Booking_keys b ∧ Booking.status b1 = "confirmed").
{ unfold b1, saved_booking, Booking_keys in *. simpl. rewrite Hbst. split; [exact Hbkeys|reflexivity]. }
destruct Hb1 as [Hb1keys Hb1st].
assert (Hc1 : Payment.status c1 = "completed"
              ∧ Payment.completed_at c1 = Some (now inp)
              ∧ Payment.transaction_id c1
                = (if truthy tid then to_column (str_value env) tid
                   else Payment.transaction_id c)).
{ unfold c1, completed_payment. destruct (truthy tid); simpl; done. }
destruct Hc1 as (Hc1st & Hc1at & Hc1tid).
clearbody b1 c1.
assert (Hu1 : users w !! Booking.user b1 = Some u).
{ unfold Booking_keys in Hb1keys. injection Hb1keys as _ -> _ _ _. exact Hu. }
assert (Hid1 : Booking.booking_id b1 = Booking.booking_id b).
{ unfold Booking_keys in Hb1keys. injection Hb1keys as -> _ _ _ _. reflexivity. }
unfold Payment_booking, Booking_user, self, db, zoom, get_state, mbind,
  action_bind, mret, action_ret, Payment.on_cols, Payment.set_booking_obj.
cbn [fst snd Payment.pk Payment.cols Payment.booking_obj Booking.cols Booking.pk
     users set_bookings set_payments set_gateway_log w0].
rewrite Hu1, Hid1. cbn [fst snd].
assert (Hargs : check_arguments send_booking_confirmation_email
                  [("booking_id", VStr (Booking.booking_id b));
                   ("user_email", VStr (User.email u))] = false)
  by reflexivity.
unfold delay. rewrite Hargs.
destruct (strict_typing env); cbn [andb negb].
- unfold raise, verify_payment_except. cbn [is_RequestException fst snd].
  unfold mret, action_ret.
  eexists _, _, _, b1, u. split; [reflexivity|].
  split_and!; try reflexivity; assumption.
- unfold modify. cbn [fst snd].
  eexists _, _, _, b1, u. split; [reflexivity|].
  split_and!; try reflexivity; assumption.
Qed.

(** X12. The gateway reports "success" with a reference that another
    Payment already has as transaction id: the UPDATE inside
    [mark_as_completed] violates the unique constraint, the view answers
    500 with the stock message, and no row and no queue entry has changed:
    the Payment is not completed and the Booking not confirmed. *)
Theorem verify_payment_transaction_id_taken status_code (d t : gmap string value)
  (tid : value) k' c' :
gateway inp = Responded status_code (VDict d) →
accepted (gateway inp) = true →
d !! "data" = Some (VDict t) →
t !! "status" = Some (VStr "success") →
t !! "reference" = Some tid →
truthy tid = true →
payments w !! k' = Some c' →
k' ≠ k →
Payment.transaction_id c' = to_column (str_value env) tid →
verify_payment env inp request w
= (Ok {| response_data := dict [("status", VStr "error");
                                ("message", VStr "An unexpected error occurred")];
         response_status := HTTP_500_INTERNAL_SERVER_ERROR |},
   set_gateway_log (gateway_log w ++ [verify_call env reference]) w).
Proof.
intros Hreply Hacc Hdata Hts Htid Htruthy Hk' Hne Hsame.
rewrite (verify_payment_settled_run status_code d t Hreply Hacc Hdata).
rewrite Hts. unfold default at 1.
cbn [from_option id eq_str String.eqb Ascii.eqb Bool.eqb].
unfold try_except.
unfold mbind at 1. unfold action_bind at 1.
unfold py_get at 1. unfold mret at 1. unfold action_ret at 1. rewrite Htid.
unfold mbind at 1. unfold action_bind at 1.
rewrite (Payment_mark_as_completed_clash (str_value env) (now inp) tid k c
           (set_gateway_log (gateway_log w ++ [verify_call env reference]) w)
           (completed_payment_clash tid k' c' Htruthy Hk' Hne Hsame)).
reflexivity.
Qed.
End VerifySettled.

Lemma demo_world_two_wf : db_wf demo_world_two.
Proof.
split.
- apply map_Forall_insert_2; [|apply map_Forall_singleton].
  all: split; [reflexivity|].
  all: apply unique_ok_true; intros k r Hk.
  all: change (bookings demo_world_two)
         with (<[7 := demo_booking_paid]>
                 ({[ 1 := demo_booking ]} : gmap Z Booking.t)) in Hk.
  all: apply lookup_insert_Some in Hk as [[<- <-]|[Hne Hk]]; [by (left + right)|].
  all: apply lookup_singleton_Some in Hk as [<- <-]; by (left + right).
- apply map_Forall_insert_2; [|apply map_Forall_singleton].
  all: split; [reflexivity|].
  all: apply unique_ok_true; intros k r Hk.
  all: change (payments demo_world_two)
         with (<[7 := demo_payment_paid]>
                 ({[ 1 := demo_payment "processing" ]} : gmap Z Payment.t)) in Hk.
  all: apply lookup_insert_Some in Hk as [[<- <-]|[Hne Hk]]; [by (left + right)|].
  all: apply lookup_singleton_Some in Hk as [<- <-]; by (left + right).
Qed.

Lemma verify_payment_failed_at_gateway_witness :
∃ resp w',
  verify_payment (demo_env true) (demo_inputs (reply_verified "failed"))
    demo_verify_request (demo_world_paying "processing") = (Ok resp, w')
  ∧ response_status resp = HTTP_400_BAD_REQUEST
  ∧ Payment.status <$> payments w' !! 1 = Some "failed"
  ∧ Booking.status <$> bookings w' !! 1 = Some "cancelled".
Proof.
assert (Hne : "TRV-0123456789AB" ≠ "") by discriminate.
assert (Hst : Payment.status (demo_payment "processing") ≠ "completed")
  by discriminate.
destruct (verify_payment_failed_at_gateway (demo_env true)
            (demo_inputs (reply_verified "failed")) demo_verify_request
            (demo_world_paying "processing") "TRV-0123456789AB" 1
            (demo_payment "processing") demo_booking
            (demo_world_paying_wf "processing") eq_refl Hne eq_refl eq_refl Hst
            eq_refl 200
            (list_to_map
               [("status", VStr "success");
                ("data", dict [("status", VStr "failed");
                               ("reference", VStr "CHAPA-REF-1");
                               ("method", VStr "telebirr")])])
            (list_to_map
               [("status", VStr "failed");
                ("reference", VStr "CHAPA-REF-1");
                ("method", VStr "telebirr")])
            eq_refl eq_refl eq_refl eq_refl)
  as (resp & w' & c' & b' & Hrun & Hstatus & _ & _ & Hp & Hb & Hcst & _ & _ & _
      & Hbst & _).
exists resp, w'. split; [exact Hrun|]. split; [exact Hstatus|].
rewrite Hp, Hb, !lookup_insert_eq. simpl. rewrite Hcst, Hbst. split; reflexivity.
Defined.

Lemma verify_payment_success_commits_witness :
∃ resp w',
  verify_payment (demo_env true) (demo_inputs (reply_verified "success"))
    demo_verify_request (demo_world_paying "processing") = (Ok resp, w')
  ∧ response_status resp = HTTP_500_INTERNAL_SERVER_ERROR
  ∧ Payment.status <$> payments w' !! 1 = Some "completed"
  ∧ Booking.status <$> bookings w' !! 1 = Some "confirmed"
  ∧ queue w' = [].
Proof.
assert (Hne : "TRV-0123456789AB" ≠ "") by discriminate.
assert (Hst : Payment.status (demo_payment "processing") ≠ "completed")
  by discriminate.
destruct (verify_payment_success_commits (demo_env true)
            (demo_inputs (reply_verified "success")) demo_verify_request
            (demo_world_paying "processing") "TRV-0123456789AB" 1
            (demo_payment "processing") demo_booking
            (demo_world_paying_wf "processing") eq_refl Hne eq_refl eq_refl Hst
            eq_refl 200
            (list_to_map
               [("status", VStr "success");
                ("data", dict [("status", VStr "success");
                               ("reference", VStr "CHAPA-REF-1");
                               ("method", VStr "telebirr")])])
            (list_to_map
               [("status", VStr "success");
                ("reference", VStr "CHAPA-REF-1");
                ("method", VStr "telebirr")])
            eq_refl eq_refl eq_refl eq_refl)
  as (resp & w' & c' & b' & u & Hrun & _ & Hp & Hb & Hcst & _ & _ & _ & _ & Hbst
      & _ & _ & Hstrict).
- intros _ k' c' Hk' Hne'.
  change (payments (demo_world_paying "processing"))
    with ({[ 1 := demo_payment "processing" ]} : gmap Z Payment.t) in Hk'.
  apply lookup_singleton_Some in Hk' as [<- _]. contradiction.
- simpl in Hstrict. destruct Hstrict as (Hstatus & _ & Hq).
  exists resp, w'. split; [exact Hrun|]. split; [exact Hstatus|].
  rewrite Hp, Hb, !lookup_insert_eq. simpl. rewrite Hcst, Hbst, Hq.
  split_and!; reflexivity.
Defined.

Lemma verify_payment_transaction_id_taken_witness :
(verify_payment (demo_env true) (demo_inputs (reply_verified "success"))
   demo_verify_request demo_world_two).2
= set_gateway_log
    [verify_call (demo_env true) "TRV-0123456789AB"] demo_world_two.
Proof.
assert (Hne : "TRV-0123456789AB" ≠ "") by discriminate.
assert (Hst : Payment.status (demo_payment "processing") ≠ "completed")
  by discriminate.
assert (Hk : (7 : Z) ≠ 1) by discriminate.
rewrite (verify_payment_transaction_id_taken (demo_env true)
           (demo_inputs (reply_verified "success")) demo_verify_request
           demo_world_two "TRV-0123456789AB" 1 (demo_payment "processing")
           demo_world_two_wf eq_refl Hne eq_refl eq_refl Hst 200
           (list_to_map
              [("status", VStr "success");
               ("data", dict [("status", VStr "success");
                              ("reference", VStr "CHAPA-REF-1");
                              ("method", VStr "telebirr")])])
           (list_to_map
              [("status", VStr "success");
               ("reference", VStr "CHAPA-REF-1");
               ("method", VStr "telebirr")])
           (VStr "CHAPA-REF-1") 7 demo_payment_paid
           eq_refl eq_refl eq_refl eq_refl eq_refl eq_refl eq_refl Hk eq_refl).
reflexivity.
Defined.

(** ** Reading the status of a payment *)



(** ** A booking without a night *)

(** X14. A booking whose [check_out] is not after its [check_in], or that
    lacks a date: [calculate_total_price] returns 0 and leaves the price as
    it is.  [save] then stores no price of its own: with no price set the
    INSERT or UPDATE is refused ([total_price] is NOT NULL) and the table
    is as before; with a price of zero the row is written as a plain model
    save would, zero included. *)
Theorem booking_without_a_night now pk c w :
no_night c →
Booking_calculate_total_price (Booking.Obj pk c, w) = (Ok 0, (Booking.Obj pk c, w))
∧ (Booking.total_price c = None →
   (Booking_save now (Booking.Obj pk c, w)).1 = Raise IntegrityError
   ∧ (Booking_save now (Booking.Obj pk c, w)).2.2 = w)
∧ (Booking.total_price c = Some 0 →
   Booking_save now (Booking.Obj pk c, w)
   = Booking_Model_save now (Booking.Obj pk c, w)).
Proof.
intros Hno.
assert (Hcalc : Booking_calculate_total_price (Booking.Obj pk c, w)
                = (Ok 0, (Booking.Obj pk c, w))).
{ unfold Booking_calculate_total_price, no_night in *.
  unfold mbind, action_bind, self. simpl.
  destruct (Booking.check_out c) as [co|]; [|reflexivity].
  destruct (Booking.check_in c) as [ci|]; [|reflexivity].
  assert (Z.ltb 0 (co - ci) = false) as -> by (apply Z.ltb_ge; lia).
  reflexivity. }
assert (Hsave : total_price_unset c = true →
                Booking_save now (Booking.Obj pk c, w)
                = Booking_Model_save now (Booking.Obj pk c, w)).
{ intros Hunset. unfold Booking_save.
  unfold mbind at 1. unfold action_bind at 1. unfold self at 1. cbn [fst snd Booking.cols].
  rewrite Hunset.
  unfold mbind at 1. unfold action_bind at 1.
  unfold mbind at 1. unfold action_bind at 1.
  rewrite Hcalc. reflexivity. }
split; [exact Hcalc|]. split.
- intros Hnone. rewrite Hsave by (unfold total_price_unset; rewrite Hnone; reflexivity).
  unfold Booking_Model_save. cbn [Booking.cols Booking.pk].
  assert (Hrow : ∀ c', Booking.total_price c' = None → Booking_row_ok w c' = false).
  { intros c' Hc'. unfold Booking_row_ok. rewrite Hc'.
    rewrite (bool_decide_eq_false_2 (is_Some None)) by (intros [? [=]]).
    rewrite !andb_false_r. reflexivity. }
  rewrite Hrow; [split; reflexivity|].
  destruct pk; simpl; exact Hnone.
- intros Hzero. apply Hsave. unfold total_price_unset. rewrite Hzero. reflexivity.
Qed.

Lemma booking_without_a_night_witness :
(Booking_save 2000
   (Booking.Obj None
      (Booking.mk "b-0003" 1 1 (Some 739003) (Some 739003) 2 None "pending"
         None None), demo_world)).1
= Raise IntegrityError.
Proof.
assert (Hno : no_night (Booking.mk "b-0003" 1 1 (Some 739003) (Some 739003) 2
                          None "pending" None None)).
{ cbv [no_night Booking.check_out Booking.check_in]. lia. }
destruct (booking_without_a_night 2000 None
            (Booking.mk "b-0003" 1 1 (Some 739003) (Some 739003) 2 None "pending"
               None None) demo_world Hno)
  as (_ & Hnone & _).
exact (proj1 (Hnone eq_refl)).
Defined.

(** ** Creating a booking *)

(** [Booking.save] is the model save of the instance with the price
    [priced] leaves, provided the listing is there to be read. *)
Lemma Booking_save_priced now pk c w :
is_Some (listings w !! Booking.listing c) →
Booking_save now (Booking.Obj pk c, w)
= Booking_Model_save now (Booking.Obj pk (priced w c), w).
Proof.
intros [l Hl]. unfold Booking_save, priced.
unfold mbind at 1. unfold action_bind at 1. unfold self at 1.
cbn [fst snd Booking.cols].
destruct (total_price_unset c); [|reflexivity].
unfold mbind at 1. unfold action_bind at 1.
unfold mbind at 1. unfold action_bind at 1.
unfold Booking_calculate_total_price, Booking_listing.
unfold mbind, action_bind, self, set_self, modify, db, zoom, get_state. simpl.
destruct (Booking.check_out c) as [co|]; [|reflexivity].
destruct (Booking.check_in c) as [ci|]; [|reflexivity].
rewrite Hl. destruct (Z.ltb 0 (co - ci)); simpl; [|reflexivity].
rewrite Hl. reflexivity.
Qed.

(** [calculate_total_price] for a stay with a night sets the price anew. *)
Lemma Booking_calculate_total_price_nights pk c w ci co l :
Booking.check_in c = Some ci → Booking.check_out c = Some co → ci < co →
listings w !! Booking.listing c = Some l →
Booking_calculate_total_price (Booking.Obj pk c, w)
= (Ok (Listing.price_per_night l * (co - ci)),
   (Booking.Obj pk
      (Booking.set_total_price (Some (Listing.price_per_night l * (co - ci))) c), w)).
Proof.
intros Hci Hco Hlt Hl.
unfold Booking_calculate_total_price, Booking_listing, mbind, action_bind,
  self, set_self, modify, db, zoom, get_state. simpl.
rewrite Hci, Hco.
assert (Z.ltb 0 (co - ci) = true) as -> by (apply Z.ltb_lt; lia).
simpl. rewrite Hl. reflexivity.
Qed.

Section NewBooking.
Context (env : Env) (inp : Inputs) (request : Request) (w : World).
Context (attrs : Booking.t) (check_in check_out : Z) (l : Listing.t) (u : User.t).
Hypothesis Hcheck_in : Booking.check_in attrs = Some check_in.
Hypothesis Hcheck_out : Booking.check_out attrs = Some check_out.
Hypothesis Hnights : check_in < check_out.
Hypothesis Hlisting : listings w !! Booking.listing attrs = Some l.
Hypothesis Huser : users w !! request_user request = Some u.
Hypothesis Hfresh :
  ∀ k r, bookings w !! k = Some r → Booking.booking_id r ≠ uuid4_default inp.

(** The instance [serializer.save(user=request.user)] builds. *)
Let c0 : Booking.t :=
  Booking.set_booking_id (uuid4_default inp)
    (Booking.set_user (request_user request) attrs).

(** The first save of the new instance inserts it. *)
Lemma new_booking_saved :
let stored := Booking.set_updated_at (Some (now inp))
                (Booking.set_created_at (Some (now inp)) (priced w c0)) in
Booking_save (now inp) (Booking.Obj None c0, w)
= (Ok tt, (Booking.Obj (Some (next_pk (bookings w))) stored,
           set_bookings (<[next_pk (bookings w) := stored]> (bookings w)) w))
∧ Booking.total_price (priced w c0)
  = (if total_price_unset attrs
     then Some (Listing.price_per_night l * (check_out - check_in))
     else Booking.total_price attrs)
∧ Booking_keys (priced w c0) = Booking_keys c0
∧ Booking.status (priced w c0) = Booking.status attrs
∧ unique_ok Booking_clash None stored (bookings w) = true.
Proof.
intros stored.
assert (Hlt : Z.ltb 0 (check_out - check_in) = true) by (apply Z.ltb_lt; lia).
assert (Hprice : Booking.total_price (priced w c0)
                 = (if total_price_unset attrs
                    then Some (Listing.price_per_night l * (check_out - check_in))
                    else Booking.total_price attrs)).
{ unfold priced, c0. unfold total_price_unset at 1. simpl.
  fold (total_price_unset attrs).
  rewrite Hcheck_in, Hcheck_out, Hlisting, Hlt.
  destruct (total_price_unset attrs); reflexivity. }
destruct (priced_keys w c0) as (Hkeys & Hst & _).
assert (Huniq : unique_ok Booking_clash None stored (bookings w) = true).
{ apply unique_ok_true. intros k r Hk. right.
  unfold Booking_clash. apply bool_decide_eq_false_2.
  unfold stored. simpl.
  unfold Booking_keys in Hkeys. injection Hkeys as -> _ _ _ _.
  exact (Hfresh k r Hk). }
split; [|split; [exact Hprice|split; [exact Hkeys|split; [exact Hst|exact Huniq]]]].
rewrite Booking_save_priced by (simpl; eauto).
unfold Booking_Model_save. cbn [Booking.pk Booking.cols]. fold stored.
assert (Hrow : Booking_row_ok w stored = true).
{ unfold Booking_row_ok, stored. simpl.
  unfold Booking_keys in Hkeys. injection Hkeys as _ -> -> -> ->.
  rewrite Hprice. simpl. rewrite Hcheck_in, Hcheck_out, Hlisting, Huser.
  rewrite !bool_decide_eq_true_2; eauto.
  destruct (total_price_unset attrs) eqn:Hunset; [eauto|].
  unfold total_price_unset in Hunset.
  destruct (Booking.total_price attrs); [eauto|discriminate]. }
rewrite Hrow, Huniq. reflexivity.
Qed.
(** [perform_create] of [listings/views.py], run to its end. *)
Lemma perform_create_run :
let total := Listing.price_per_night l * (check_out - check_in) in
let stored := Booking.set_updated_at (Some (now inp))
                (Booking.set_created_at (Some (now inp))
                   (Booking.set_total_price (Some total) c0)) in
let k := next_pk (bookings w) in
BookingViewSet_perform_create inp attrs request w
= (Ok (Booking.Obj (Some k) stored),
   set_bookings (<[k := stored]> (bookings w)) w)
∧ bookings w !! k = None
∧ Booking.total_price stored = Some total
∧ Booking.user stored = request_user request
∧ Booking.booking_id stored = uuid4_default inp.
Proof.
intros total stored k.
split; [|split; [apply next_pk_fresh|split_and!; reflexivity]].
destruct new_booking_saved as (Hsave & Hprice & Hkeys & Hst & Huniq).
cbv zeta in Hsave, Huniq.
set (stored1 := Booking.set_updated_at (Some (now inp))
                  (Booking.set_created_at (Some (now inp)) (priced w c0))) in *.
set (w1 := set_bookings (<[k := stored1]> (bookings w)) w).
assert (Hlt : Z.ltb 0 (check_out - check_in) = true) by (apply Z.ltb_lt; lia).
assert (Hcols : Booking.check_in stored1 = Some check_in
                ∧ Booking.check_out stored1 = Some check_out
                ∧ Booking.listing stored1 = Booking.listing attrs
                ∧ Booking.user stored1 = request_user request).
{ unfold Booking_keys in Hkeys. unfold stored1. simpl.
  injection Hkeys as _ -> -> -> ->. simpl. auto. }
destruct Hcols as (Hci1 & Hco1 & Hl1 & Hu1).
assert (Hcalc : Booking_calculate_total_price (Booking.Obj (Some k) stored1, w1)
                = (Ok total,
                   (Booking.Obj (Some k)
                      (Booking.set_total_price (Some total) stored1), w1))).
{ apply Booking_calculate_total_price_nights; [exact Hci1|exact Hco1|exact Hnights|].
  rewrite Hl1. exact Hlisting. }
assert (Hsame : Booking.set_total_price (Some total) stored1
                = Booking.set_created_at (Some (now inp))
                    (Booking.set_updated_at (Some (now inp))
                       (Booking.set_total_price (Some total) c0))).
{ unfold stored1, priced.
  destruct (total_price_unset c0); [|reflexivity].
  destruct (Booking.check_out c0) as [co'|], (Booking.check_in c0) as [ci'|],
    (listings w !! Booking.listing c0) as [l'|]; try reflexivity.
  destruct (Z.ltb 0 (co' - ci')); reflexivity. }
set (c2 := Booking.set_total_price (Some total) stored1) in *.
assert (Hrow2 : Booking_row_ok w1 c2 = true).
{ rewrite Hsame. unfold Booking_row_ok, c0. simpl.
  rewrite Hcheck_in, Hcheck_out, Hlisting, Huser.
  rewrite !bool_decide_eq_true_2; eauto. }
assert (Huniq2 : unique_ok Booking_clash (Some k) c2 (bookings w1) = true).
{ apply (unique_ok_inserted Booking_clash k c2 stored1 (bookings w)).
  rewrite (unique_ok_ext Booking_clash None c2 stored1); [exact Huniq|].
  intros r. reflexivity. }
assert (Hpriced2 : priced w1 c2 = c2).
{ unfold priced. destruct (total_price_unset c2); [|reflexivity].
  replace (Booking.check_out c2) with (Some check_out) by (symmetry; exact Hco1).
  replace (Booking.check_in c2) with (Some check_in) by (symmetry; exact Hci1).
  replace (listings w1 !! Booking.listing c2) with (Some l)
    by (symmetry;
        change (listings w1 !! Booking.listing c2)
          with (listings w !! Booking.listing stored1);
        rewrite Hl1; exact Hlisting).
  rewrite Hlt. reflexivity. }
unfold BookingViewSet_perform_create. fold c0.
unfold mbind at 1. unfold action_bind at 1. unfold run at 1.
rewrite Hsave. cbn [fst snd]. fold k. fold w1.
unfold mbind at 1. unfold action_bind at 1. unfold run at 1.
rewrite Hcalc. cbn [fst snd].
unfold mbind at 1. unfold action_bind at 1. unfold run at 1.
rewrite (Booking_save_Ok (now inp) k c2 w1 Hrow2 Huniq2).
cbn [fst snd]. rewrite Hpriced2.
unfold mret, action_ret, w1, set_bookings. cbn. rewrite insert_insert_eq.
rewrite Hsame. reflexivity.
Qed.

(** X15. [BookingViewSet.perform_create] of [listings/views.py], for a stay
    of at least one night at an existing listing: the row it leaves has
    [total_price = price_per_night * nights], whatever price the validated
    data carried (a price sent by the client is overwritten by the call of
    [calculate_total_price] between the two saves); the row belongs to the
    requester and sits at a key that was free. *)
Theorem perform_create_recomputes_price :
let total := Listing.price_per_night l * (check_out - check_in) in
let stored := Booking.set_updated_at (Some (now inp))
                (Booking.set_created_at (Some (now inp))
                   (Booking.set_total_price (Some total) c0)) in
let k := next_pk (bookings w) in
BookingViewSet_perform_create inp attrs request w
= (Ok (Booking.Obj (Some k) stored),
   set_bookings (<[k := stored]> (bookings w)) w)
∧ bookings w !! k = None
∧ Booking.total_price stored = Some total
∧ Booking.user stored = request_user request
∧ Booking.booking_id stored = uuid4_default inp.
Proof. exact perform_create_run. Qed.
(** [create] of [listings/listings/views.py], run to its end, and the
    job it queued run once. *)
Lemma listings_create_run :
BookingSerializer env (request_data request) = inr attrs →
∃ stored kwargs,
  listings_views.BookingViewSet_create env inp request w
  = (Ok {| response_data :=
             dict [("message",
                    VStr "Booking created successfully! Confirmation email will be sent shortly.");
                   ("booking",
                    BookingSerializer_data env
                      (Booking.Obj (Some (next_pk (bookings w))) stored))];
           response_status := HTTP_201_CREATED |},
     set_queue (queue w ++ [fresh_job kwargs])
       (set_bookings (<[next_pk (bookings w) := stored]> (bookings w)) w))
  ∧ Booking.user stored = request_user request
  ∧ Booking.total_price stored
    = (if total_price_unset attrs
       then Some (Listing.price_per_night l * (check_out - check_in))
       else Booking.total_price attrs)
  ∧ check_arguments send_booking_confirmation_email kwargs = true
  ∧ kwarg kwargs "booking_id" = VNum (next_pk (bookings w))
  ∧ (run_job env (fresh_job kwargs) Delivered).2 = [confirmation_email env kwargs]
  ∧ recipient_list (confirmation_email env kwargs) = [User.email u]
  ∧ subject (confirmation_email env kwargs)
    = "Booking Confirmation - " +:+ Listing.title l
  ∧ from_email (confirmation_email env kwargs) = DEFAULT_FROM_EMAIL env.
Proof.
intros Hvalid.
destruct new_booking_saved as (Hsave & Hprice & Hkeys & Hst & Huniq).
cbv zeta in Hsave, Huniq.
set (k := next_pk (bookings w)) in *.
set (stored := Booking.set_updated_at (Some (now inp))
                 (Booking.set_created_at (Some (now inp)) (priced w c0))) in *.
assert (Hcols : Booking.listing stored = Booking.listing attrs
                ∧ Booking.user stored = request_user request
                ∧ Booking.total_price stored = Booking.total_price (priced w c0)).
{ unfold Booking_keys in Hkeys. unfold stored. simpl.
  injection Hkeys as _ -> -> _ _. simpl. auto. }
destruct Hcols as (Hl1 & Hu1 & Hp1).
clearbody stored.
unfold listings_views.BookingViewSet_create. rewrite Hvalid.
unfold listings_views.BookingViewSet_perform_create. fold c0.
unfold mbind at 1. unfold action_bind at 1.
unfold mbind at 1. unfold action_bind at 1. unfold run at 1.
rewrite Hsave. cbn [fst snd].
unfold mbind at 1. unfold action_bind at 1. unfold call at 1.
unfold Booking_user at 1.
unfold mbind at 1. unfold action_bind at 1. unfold self at 1. cbn [fst snd].
unfold mbind at 1. unfold action_bind at 1. unfold db at 1. unfold zoom at 1.
unfold get_state at 1. cbn [fst snd Booking.cols users set_bookings].
rewrite Hu1, Huser. unfold mret at 1. unfold action_ret at 1. cbn [fst snd].
unfold mbind at 1. unfold action_bind at 1. unfold call at 1.
unfold Booking_listing at 1.
unfold mbind at 1. unfold action_bind at 1. unfold self at 1. cbn [fst snd].
unfold mbind at 1. unfold action_bind at 1. unfold db at 1. unfold zoom at 1.
unfold get_state at 1. cbn [fst snd Booking.cols listings set_bookings].
rewrite Hl1, Hlisting. unfold mret at 1. unfold action_ret at 1. cbn [fst snd].
unfold mbind at 1. unfold action_bind at 1.
cbn [Booking.pk].
set (kwargs := [("booking_id", VNum k);
                ("user_email", VStr (User.email u));
                ("user_name",
                 VStr (if String.eqb (get_full_name u) "" then User.username u
                       else get_full_name u));
                ("listing_title", VStr (Listing.title l));
                ("check_in", VStr (str_date env (Booking.check_in stored)));
                ("check_out", VStr (str_date env (Booking.check_out stored)))]).
assert (Hargs : check_arguments send_booking_confirmation_email kwargs = true)
  by reflexivity.
unfold delay. rewrite Hargs, andb_false_r.
unfold modify, mret, action_ret.
exists stored, kwargs.
split; [reflexivity|].
split_and!; try reflexivity; try assumption.
rewrite Hp1. exact Hprice.
Qed.

(** X16. [BookingViewSet.create] of [listings/listings/views.py], for a
    stay of at least one night at an existing listing: the view answers
    201, inserts one Booking of the requester at a free key, and queues one
    confirmation job whose arguments fit the signature of the task, under
    either setting of Celery's argument check.  The price stored is the one
    the validated data carried when it carried one that is not zero, and
    [price_per_night * nights] otherwise.  A run of that job whose delivery
    goes through sends one mail, to the requester's address, with the
    listing's title in the subject. *)
Theorem create_queues_confirmation :
BookingSerializer env (request_data request) = inr attrs →
∃ resp w' stored kwargs mail,
  listings_views.BookingViewSet_create env inp request w = (Ok resp, w')
  ∧ response_status resp = HTTP_201_CREATED
  ∧ bookings w !! next_pk (bookings w) = None
  ∧ bookings w' = <[next_pk (bookings w) := stored]> (bookings w)
  ∧ payments w' = payments w
  ∧ Booking.user stored = request_user request
  ∧ Booking.total_price stored
    = (if total_price_unset attrs
       then Some (Listing.price_per_night l * (check_out - check_in))
       else Booking.total_price attrs)
  ∧ queue w' = (queue w ++ [fresh_job kwargs])%list
  ∧ check_arguments send_booking_confirmation_email kwargs = true
  ∧ kwarg kwargs "booking_id" = VNum (next_pk (bookings w))
  ∧ (run_job env (fresh_job kwargs) Delivered).2 = [mail]
  ∧ recipient_list mail = [User.email u]
  ∧ subject mail = "Booking Confirmation - " +:+ Listing.title l
  ∧ from_email mail = DEFAULT_FROM_EMAIL env.
Proof.
intros Hvalid.
destruct (listings_create_run Hvalid)
  as (stored & kwargs & Hrun & Hu & Hprice & Hargs & Hid & Hmail & Hto & Hsubject
      & Hfrom).
eexists _, _, stored, kwargs, (confirmation_email env kwargs).
split; [exact Hrun|].
split_and!; try reflexivity; try assumption.
apply next_pk_fresh.
Qed.
(** What either way of creating the booking leaves in the table. *)
Lemma created_bookings :
(∃ stored,
   bookings (BookingViewSet_perform_create inp attrs request w).2
   = <[next_pk (bookings w) := stored]> (bookings w)
   ∧ Booking.user stored = request_user request)
∧ (BookingSerializer env (request_data request) = inr attrs →
   ∃ stored,
     bookings (listings_views.BookingViewSet_create env inp request w).2
     = <[next_pk (bookings w) := stored]> (bookings w)
     ∧ users (listings_views.BookingViewSet_create env inp request w).2 = users w
     ∧ Booking.user stored = request_user request).
Proof.
split.
- destruct perform_create_run as (Hrun & _ & _ & Hu & _).
  cbv zeta in Hrun. rewrite Hrun. eexists. split; [reflexivity|exact Hu].
- intros Hvalid.
  destruct (listings_create_run Hvalid) as (stored & kwargs & Hrun & Hu & _).
  rewrite Hrun. exists stored. simpl. auto.
Qed.

(** X24. A booking created through either [perform_create] shows up in the
    querysets as the views filter them: it is added to the creator's own
    queryset, at a key that queryset did not have, and the queryset of any
    other user who is not staff is the one before; in
    [listings/listings/views.py] a staff member's queryset is the whole
    table, the new booking included. *)
Theorem created_booking_in_own_queryset (other : Request) :
(∃ stored,
   BookingViewSet_get_queryset request
     (BookingViewSet_perform_create inp attrs request w).2
   = <[next_pk (bookings w) := stored]> (BookingViewSet_get_queryset request w)
   ∧ BookingViewSet_get_queryset request w !! next_pk (bookings w) = None
   ∧ (request_user other ≠ request_user request →
      BookingViewSet_get_queryset other
        (BookingViewSet_perform_create inp attrs request w).2
      = BookingViewSet_get_queryset other w))
∧ (BookingSerializer env (request_data request) = inr attrs →
   ∃ stored q,
     listings_views.BookingViewSet_get_queryset request w = Some q
     ∧ listings_views.BookingViewSet_get_queryset request
         (listings_views.BookingViewSet_create env inp request w).2
       = Some (<[next_pk (bookings w) := stored]> q)
     ∧ q !! next_pk (bookings w) = None
     ∧ ∀ u', users w !! request_user other = Some u' →
             request_user other ≠ request_user request →
             listings_views.BookingViewSet_get_queryset other
               (listings_views.BookingViewSet_create env inp request w).2
             = Some (if User.is_staff u'
                     then <[next_pk (bookings w) := stored]> (bookings w)
                     else BookingViewSet_get_queryset other w)).
Proof.
assert (Hown : ∀ stored, Booking.user stored = request_user request →
          filter (λ kr : Z * Booking.t, Booking.user kr.2 = request_user request)
            (<[next_pk (bookings w) := stored]> (bookings w))
          = <[next_pk (bookings w) := stored]>
              (filter (λ kr : Z * Booking.t, Booking.user kr.2 = request_user request)
                 (bookings w))).
{ intros stored Hu. apply map_filter_insert_True. exact Hu. }
assert (Hother : ∀ stored, Booking.user stored = request_user request →
          request_user other ≠ request_user request →
          filter (λ kr : Z * Booking.t, Booking.user kr.2 = request_user other)
            (<[next_pk (bookings w) := stored]> (bookings w))
          = filter (λ kr : Z * Booking.t, Booking.user kr.2 = request_user other)
              (bookings w)).
{ intros stored Hu Hne. apply map_filter_insert_not'.
  - simpl. congruence.
  - intros y Hy. rewrite next_pk_fresh in Hy. discriminate Hy. }
assert (Hfree : ∀ user,
          filter (λ kr : Z * Booking.t, Booking.user kr.2 = user) (bookings w)
            !! next_pk (bookings w) = None).
{ intros user. apply map_lookup_filter_None. left. apply next_pk_fresh. }
destruct created_bookings as [(stored & Hb & Hu) Hlistings].
split.
- exists stored. unfold BookingViewSet_get_queryset. rewrite Hb.
  split; [exact (Hown stored Hu)|]. split; [apply Hfree|].
  intros Hne. exact (Hother stored Hu Hne).
- intros Hvalid. destruct (Hlistings Hvalid) as (stored2 & Hb2 & Husers & Hu2).
  unfold listings_views.BookingViewSet_get_queryset.
  rewrite Husers, Hb2, Huser.
  destruct (User.is_staff u).
  + exists stored2, (bookings w). split; [reflexivity|]. split; [reflexivity|].
    split; [apply next_pk_fresh|].
    intros u' Hu' Hne. rewrite Hu'. destruct (User.is_staff u'); [reflexivity|].
    unfold BookingViewSet_get_queryset. rewrite (Hother stored2 Hu2 Hne). reflexivity.
  + eexists stored2, _. split; [reflexivity|].
    split; [rewrite (Hown stored2 Hu2); reflexivity|].
    split; [apply Hfree|].
    intros u' Hu' Hne. rewrite Hu'. destruct (User.is_staff u'); [reflexivity|].
    unfold BookingViewSet_get_queryset. rewrite (Hother stored2 Hu2 Hne). reflexivity.
Qed.
End NewBooking.

Lemma perform_create_recomputes_price_witness :
∃ booking w',
  BookingViewSet_perform_create (demo_inputs reply_checkout)
    (Booking.mk "" 0 1 (Some 739000) (Some 739003) 2 (Some 1) "pending" None None)
    demo_initiate_request demo_world = (Ok booking, w')
  ∧ Booking.total_price (Booking.cols booking) = Some 60000.
Proof.
destruct (perform_create_recomputes_price (demo_inputs reply_checkout)
            demo_initiate_request demo_world
            (Booking.mk "" 0 1 (Some 739000) (Some 739003) 2 (Some 1) "pending"
               None None)
            739000 739003 demo_listing demo_user) as (Hrun & _ & Hprice & _).
- reflexivity.
- reflexivity.
- lia.
- reflexivity.
- reflexivity.
- intros k r Hk.
  change (bookings demo_world) with ({[ 1 := demo_booking ]} : gmap Z Booking.t) in Hk.
  apply lookup_singleton_Some in Hk as [_ <-]. discriminate.
- eexists _, _. split; [exact Hrun|exact Hprice].
Defined.

Lemma create_queues_confirmation_witness :
∃ resp w' kwargs,
  listings_views.BookingViewSet_create (demo_env true) (demo_inputs reply_checkout)
    demo_initiate_request demo_world = (Ok resp, w')
  ∧ response_status resp = HTTP_201_CREATED
  ∧ queue w' = [fresh_job kwargs]
  ∧ check_arguments send_booking_confirmation_email kwargs = true.
Proof.
destruct (create_queues_confirmation (demo_env true) (demo_inputs reply_checkout)
            demo_initiate_request demo_world demo_booking_attrs
            739000 739003 demo_listing demo_user)
  as (resp & w' & stored & kwargs & mail & Hrun & Hstatus & _ & _ & _ & _ & _
      & Hq & Hargs & _).
- reflexivity.
- reflexivity.
- lia.
- reflexivity.
- reflexivity.
- intros k r Hk.
  change (bookings demo_world) with ({[ 1 := demo_booking ]} : gmap Z Booking.t) in Hk.
  apply lookup_singleton_Some in Hk as [_ <-]. discriminate.
- reflexivity.
- exists resp, w', kwargs. split; [exact Hrun|]. split; [exact Hstatus|].
  split; [exact Hq|exact Hargs].
Defined.

(** ** The worker and one confirmation job *)






(** ** The reference of a payment *)

Lemma upper_length s : String.length (upper s) = String.length s.
Proof. induction s as [|c s IH]; simpl; [reflexivity|]. rewrite IH. reflexivity. Qed.

Lemma substring_0_length s : ∀ n,
String.length (String.substring 0 n s) = Nat.min n (String.length s).
Proof.
induction s as [|c s IH]; intros [|n]; simpl; try reflexivity.
rewrite IH. reflexivity.
Qed.

Lemma ascii_upper_not_lower c :
¬ (97 ≤ nat_of_ascii (ascii_upper c) ≤ 122)%nat.
Proof.
unfold ascii_upper.
destruct (Nat.leb 97 (nat_of_ascii c)) eqn:Hlo; simpl.
- destruct (Nat.leb (nat_of_ascii c) 122) eqn:Hhi.
  + apply Nat.leb_le in Hlo, Hhi.
    rewrite nat_ascii_embedding by lia. lia.
  + apply Nat.leb_gt in Hhi. lia.
- apply Nat.leb_gt in Hlo. lia.
Qed.

Lemma upper_get s : ∀ i ch,
String.get i (upper s) = Some ch → ∃ c, ch = ascii_upper c.
Proof.
induction s as [|c s IH]; intros i ch; simpl; [discriminate|].
destruct i as [|i]; [intros [= <-]; eauto|]. apply IH.
Qed.

(** X18. The reference [initiate_payment] draws is "TRV-" followed by the
    first twelve characters of the uuid's hex form in upper case: it is
    never empty, has 16 characters for a hex form of twelve or more (at
    most 16 in any case), and holds no lower-case ASCII letter. *)
Theorem make_reference_format hex :
String.length (make_reference hex) = (4 + Nat.min 12 (String.length hex))%nat
∧ String.substring 0 4 (make_reference hex) = "TRV-"
∧ make_reference hex ≠ ""
∧ ((12 ≤ String.length hex)%nat → String.length (make_reference hex) = 16%nat)
∧ (∀ i ch, String.get i (make_reference hex) = Some ch →
           ¬ (97 ≤ nat_of_ascii ch ≤ 122)%nat).
Proof.
assert (Hlen : String.length (make_reference hex)
               = (4 + Nat.min 12 (String.length hex))%nat).
{ unfold make_reference.
  change (String.length ("TRV-" +:+ upper (String.substring 0 12 hex)))
    with (4 + String.length (upper (String.substring 0 12 hex)))%nat.
  rewrite upper_length, substring_0_length. reflexivity. }
split; [exact Hlen|]. split.
{ unfold make_reference. simpl.
  destruct (upper (String.substring 0 12 hex)); reflexivity. }
split; [discriminate|]. split.
- intros Hhex. rewrite Hlen. lia.
- intros i ch. unfold make_reference.
  destruct i as [|[|[|[|i]]]]; simpl;
    try (intros [= <-]; vm_compute; lia).
  intros Hget. destruct (upper_get _ _ _ Hget) as [c ->].
  apply ascii_upper_not_lower.
Qed.

(** ** The requests sent to the gateway *)

Section LogKept.
Context (L : list GatewayCall).

Lemma log_db {O A} (m : action World A) :
preserves (log_is L) m → preserves (log_in (O := O) L) (db m).
Proof.
intros Hm [o w] Hw. unfold db, zoom. simpl.
specialize (Hm w Hw). destruct (m w) as [r w']. exact Hm.
Qed.

Lemma log_self {O} : preserves (log_in (O := O) L) self.
Proof. intros s Hs. exact Hs. Qed.

Lemma log_set_self {O} (f : O → O) : preserves (log_in L) (set_self f).
Proof. intros s Hs. exact Hs. Qed.

Lemma log_delay env t kwargs : preserves (log_is L) (delay env t kwargs).
Proof.
intros w Hw. unfold delay.
destruct (strict_typing env && negb (check_arguments t kwargs)); exact Hw.
Qed.

Lemma log_Payment_Model_save now : preserves (log_in L) (Payment_Model_save now).
Proof.
intros [p w] Hw. unfold Payment_Model_save.
destruct (_ && _); exact Hw.
Qed.

Lemma log_Booking_Model_save now : preserves (log_in L) (Booking_Model_save now).
Proof.
intros [b w] Hw. unfold Booking_Model_save.
destruct (_ && _); exact Hw.
Qed.

Lemma log_Payment_booking {A} (m : action (Booking.obj * World) A) :
preserves (log_in L) m → preserves (log_in L) (Payment_booking m).
Proof.
intros Hm [p w] Hw. unfold Payment_booking.
destruct (Payment.booking_obj p) as [b|].
- specialize (Hm (b, w) Hw). destruct (m (b, w)) as [r [b' w']]. exact Hm.
- destruct (bookings w !! Payment.booking (Payment.cols p)) as [c|]; [|exact Hw].
  specialize (Hm (Booking.Obj (Some (Payment.booking (Payment.cols p))) c, w) Hw).
  destruct (m _) as [r [b' w']]. exact Hm.
Qed.
End LogKept.

(** Walks through a method or a [try] block that sends nothing. *)
Ltac keep_log :=
  repeat match goal with
  | |- preserves _ (mret _) => apply preserves_ret
  | |- preserves _ (raise _) => apply preserves_raise
  | |- preserves _ get_state => apply preserves_get_state
  | |- preserves _ (py_get _ _ _) => apply preserves_py_get
  | |- preserves _ (py_getitem _ _) => apply preserves_py_getitem
  | |- preserves _ self => apply log_self
  | |- preserves _ (set_self _) => apply log_set_self
  | |- preserves _ (Payment_Model_save _) => apply log_Payment_Model_save
  | |- preserves _ (Booking_Model_save _) => apply log_Booking_Model_save
  | |- preserves _ (delay _ _ _) => apply log_delay
  | |- preserves _ (db _) => apply log_db
  | |- preserves _ (Payment_booking _) => apply log_Payment_booking
  | |- preserves _ (try_except _ _) => apply preserves_try_except; [|intros ?]
  | |- preserves _ (_ ≫= _) => apply preserves_bind; [|intros ?]
  | |- preserves _ (if ?b then _ else _) => destruct b
  | |- preserves _ (match ?x with _ => _ end) => destruct x
  | |- preserves _ (let _ := _ in _) => cbv zeta
  end.

Section LogOfViews.
Context (L : list GatewayCall).

Lemma log_Booking_save now : preserves (log_in L) (Booking_save now).
Proof.
unfold Booking_save, Booking_calculate_total_price, Booking_listing. keep_log.
Qed.

Lemma log_Booking_user : preserves (log_in L) Booking_user.
Proof. unfold Booking_user. keep_log. Qed.

Lemma log_Payment_mark_as_failed str now msg :
preserves (log_in L) (Payment_mark_as_failed str now msg).
Proof. unfold Payment_mark_as_failed. keep_log. apply log_Booking_save. Qed.

Lemma log_Payment_mark_as_completed str now tid :
preserves (log_in L) (Payment_mark_as_completed str now tid).
Proof. unfold Payment_mark_as_completed. keep_log. apply log_Booking_save. Qed.
End LogOfViews.

(** The [try] blocks send one request, first thing, and their [except]
    clauses none. *)
Lemma verify_payment_try_log env inp url authorization p w :
gateway_log
  (try_except (verify_payment_try env inp url authorization)
     (verify_payment_except env) (p, w)).2.2
= (gateway_log w ++ [Get url authorization])%list.
Proof.
set (L := (gateway_log w ++ [Get url authorization])%list).
assert (Hexcept : ∀ e, preserves (log_in L) (verify_payment_except env e)).
{ intros e. unfold verify_payment_except. keep_log. }
unfold try_except, verify_payment_try.
unfold mbind at 1. unfold action_bind at 1.
unfold db at 1. unfold zoom at 1. unfold requests_call. cbn [fst snd].
destruct (gateway inp) as [status_code response_data|e].
- match goal with
  | |- gateway_log (let (r, s') := ?k ?s in _).2.2 = _ =>
    assert (Hk : preserves (log_in L) k);
      [|specialize (Hk s eq_refl); destruct (k s) as [[a|e] s']]
  end.
  + keep_log;
      first [apply log_Payment_mark_as_completed
            |apply log_Payment_mark_as_failed
            |apply log_Booking_user].
  + exact Hk.
  + exact (Hexcept e s' Hk).
- refine (Hexcept e (p, _) _). reflexivity.
Qed.

Lemma initiate_payment_try_log env inp reference url payload authorization p w :
gateway_log
  (try_except (initiate_payment_try env inp reference url payload authorization)
     (initiate_payment_except env inp) (p, w)).2.2
= (gateway_log w ++ [Post url payload authorization])%list.
Proof.
set (L := (gateway_log w ++ [Post url payload authorization])%list).
assert (Hexcept : ∀ e, preserves (log_in L) (initiate_payment_except env inp e)).
{ intros e. unfold initiate_payment_except. keep_log;
    apply log_Payment_mark_as_failed. }
unfold try_except, initiate_payment_try.
unfold mbind at 1. unfold action_bind at 1.
unfold db at 1. unfold zoom at 1. unfold requests_call. cbn [fst snd].
destruct (gateway inp) as [status_code response_data|e].
- match goal with
  | |- gateway_log (let (r, s') := ?k ?s in _).2.2 = _ =>
    assert (Hk : preserves (log_in L) k);
      [|specialize (Hk s eq_refl); destruct (k s) as [[a|e] s']]
  end.
  + keep_log. apply log_Payment_mark_as_failed.
  + exact Hk.
  + exact (Hexcept e s' Hk).
- refine (Hexcept e (p, _) _). reflexivity.
Qed.

(** X19. A call of a payment view sends at most one request to the
    gateway, and never rewrites the log of those sent before:
    [initiate_payment] sends nothing or one POST to the initialize URL with
    the secret key; [verify_payment] sends nothing or one GET to the verify
    URL of the reference in the query, whatever the gateway answers and
    however the view ends. *)
Theorem payment_views_one_gateway_request env inp request w :
sent_at_most_one
  (λ call, ∃ payload,
     call = Post (CHAPA_BASE_URL env +:+ "/transaction/initialize") payload
              ("Bearer " +:+ CHAPA_SECRET_KEY env))
  (gateway_log w) (gateway_log (initiate_payment env inp request w).2)
∧ sent_at_most_one
    (λ call, ∃ reference,
       reference_param request = Some reference ∧ call = verify_call env reference)
    (gateway_log w) (gateway_log (verify_payment env inp request w).2).
Proof.
split.
- unfold initiate_payment.
  destruct (PaymentInitiateSerializer env (request_data request))
    as [errors|validated_data]; [left; reflexivity|].
  cbv zeta.
  unfold mbind at 1. unfold action_bind at 1.
  pose proof (Booking_objects_get_state (init_booking_id validated_data)
                (request_user request) w) as Hget.
  destruct (or_DoesNotExist "Booking" _ w) as [res w0]. simpl in Hget. subst w0.
  destruct res as [[booking|]|e]; try (left; reflexivity).
  unfold mbind at 1. unfold action_bind at 1.
  pose proof (hasattr_payment_state booking w) as Hhas.
  destruct (hasattr_payment booking w) as [[existing|e] w1];
    simpl in Hhas; subst w1; [|left; reflexivity].
  destruct (match existing with Some _ => _ | None => _ end); [left; reflexivity|].
  unfold mbind at 1. unfold action_bind at 1.
  unfold Payment_objects_create at 1.
  destruct (Booking.pk booking) as [bk|]; [|left; reflexivity].
  cbv zeta. destruct (_ && _); [|left; reflexivity].
  match goal with
  | |- context [set_payments ?tbl w] =>
    assert (Hlog : gateway_log (set_payments tbl w) = gateway_log w) by reflexivity;
    revert Hlog; generalize (set_payments tbl w); intros w1 Hlog
  end.
  unfold mbind at 1. unfold action_bind at 1.
  unfold call at 1, Booking_listing, mbind, action_bind, self, db, zoom, get_state.
  simpl.
  destruct (listings w1 !! _) as [listing|]; simpl; [|left; exact Hlog].
  right. eexists. split; [eexists; reflexivity|]. unfold call.
  match goal with
  | |- gateway_log
         (let '(r, s) :=
            try_except (initiate_payment_try _ _ _ _ ?payload _) ?h (?p0, _) in
          (r, s.2)).2 = _ =>
    pose proof (initiate_payment_try_log env inp (make_reference (uuid4_hex inp))
                  (CHAPA_BASE_URL env +:+ "/transaction/initialize") payload
                  ("Bearer " +:+ CHAPA_SECRET_KEY env) p0 w1) as Hrun;
    destruct (try_except _ h (p0, w1)) as [r s']
  end.
  rewrite <- Hlog. exact Hrun.
- unfold verify_payment.
  destruct (reference_param request) as [[|a s]|] eqn:Hparam; try (left; reflexivity).
  destruct (Payment_objects_get_found (String a s) w) as (res & Hget & _).
  unfold mbind at 1. unfold action_bind at 1. rewrite Hget.
  destruct res as [[p|]|e]; try (left; reflexivity).
  destruct (String.eqb (Payment.status (Payment.cols p)) "completed");
    [left; reflexivity|].
  right. exists (verify_call env (String a s)).
  split; [exists (String a s); split; reflexivity|]. unfold call.
  pose proof (verify_payment_try_log env inp
                (CHAPA_BASE_URL env +:+ "/transaction/verify/" +:+ String a s)
                ("Bearer " +:+ CHAPA_SECRET_KEY env) p w) as Hlog.
  destruct (try_except _ _ (p, w)) as [r s']. exact Hlog.
Qed.

(** ** From the initiation to the verification *)

Section InitiateThenVerify.
Context (env : Env) (inp : Inputs) (request : Request) (w : World).
Context (validated_data : InitiateData) (bk : Z) (b : Booking.t).
Context (status_code : Z) (d dd : gmap string value) (url : value).
Hypothesis Hwf : db_wf w.
Hypothesis Hvalid : PaymentInitiateSerializer env (request_data request) = inr validated_data.
Hypothesis Hbooking : bookings w !! bk = Some b.
Hypothesis Hid : Booking.booking_id b = init_booking_id validated_data.
Hypothesis Howner : Booking.user b = request_user request.
Hypothesis Hfresh :
  ∀ k c, payments w !! k = Some c →
         Payment.payment_id c ≠ uuid4_default inp ∧ Payment.booking c ≠ bk
         ∧ Payment.reference c ≠ make_reference (uuid4_hex inp).
Hypothesis Hreply : gateway inp = Responded status_code (VDict d).
Hypothesis Haccepted : accepted (gateway inp) = true.
Hypothesis Hdata : d !! "data" = Some (VDict dd).
Hypothesis Hurl : dd !! "checkout_url" = Some url.

End InitiateThenVerify.


(** ** The exceptions that leave a payment view *)

Section LookupFailures.
Context {R : Type} (model : string) (P : R → bool).


Lemma objects_get_Multiple (tbl : gmap Z R) :
objects_get model P tbl = Raise MultipleObjectsReturned →
∃ k c k' c', k ≠ k' ∧ tbl !! k = Some c ∧ P c = true
             ∧ tbl !! k' = Some c' ∧ P c' = true.
Proof.
unfold objects_get. intros H.
destruct (map_to_list (filter (λ kr, P kr.2 = true) tbl))
  as [|[k c] [|[k' c'] l]] eqn:E; try discriminate H.
pose proof (NoDup_fst_map_to_list (filter (λ kr, P kr.2 = true) tbl)) as Hnd.
rewrite E in Hnd. simpl in Hnd.
apply NoDup_cons in Hnd as [Hnot _].
assert (Hk : (k, c) ∈ map_to_list (filter (λ kr, P kr.2 = true) tbl))
  by (rewrite E; apply list_elem_of_here).
assert (Hk' : (k', c') ∈ map_to_list (filter (λ kr, P kr.2 = true) tbl))
  by (rewrite E; apply list_elem_of_further, list_elem_of_here).
apply elem_of_map_to_list, map_lookup_filter_Some in Hk, Hk'.
exists k, c, k', c'. split; [|tauto].
intros ->. apply Hnot. apply list_elem_of_here.
Qed.
End LookupFailures.

(** On a database that satisfies its constraints a lookup by reference
    finds nothing or one row. *)
Lemma wf_Payment_objects_get_cases w reference :
db_wf w →
or_DoesNotExist "Payment" (Payment_objects_get reference) w = (Ok None, w)
∨ ∃ k c, payments w !! k = Some c ∧ Payment.reference c = reference
         ∧ or_DoesNotExist "Payment" (Payment_objects_get reference) w
           = (Ok (Some (Payment.Obj k c None)), w).
Proof.
intros Hwf.
destruct (objects_get_cases "Payment"
            (λ p, bool_decide (Payment.reference p = reference)) (payments w))
  as [Hget | [Hget | (k & c & Hget & Hk & HP)]].
- left. unfold or_DoesNotExist, try_except, mbind, action_bind, Payment_objects_get.
  rewrite Hget. reflexivity.
- apply objects_get_Multiple in Hget as (k & c & k' & c' & Hne & Hk & HP & Hk' & HP').
  apply bool_decide_eq_true in HP, HP'.
  exfalso. apply Hne. symmetry.
  apply (wf_payment_unique w Hwf k c k' c' Hk Hk'). right. left. congruence.
- right. exists k, c. apply bool_decide_eq_true in HP.
  split; [exact Hk|]. split; [exact HP|].
  apply or_DoesNotExist_Ok. unfold Payment_objects_get. rewrite Hget. reflexivity.
Qed.

Section Answers.
Context {S A : Type} (P : A → Prop).

Lemma answers_ret (a : A) : P a → answers (S := S) P (mret a).
Proof. intros Ha s. exact Ha. Qed.

Lemma answers_bind {B} (m : action S B) (k : B → action S A) :
(∀ b, answers P (k b)) → answers P (m ≫= k).
Proof.
intros Hk s. unfold mbind, action_bind.
destruct (m s) as [[b|e] s']; [apply Hk|exact Logic.I].
Qed.

Lemma answers_try_except (m : action S A) (h : exn → action S A) :
answers P m → (∀ e, answers P (h e)) → answers P (try_except m h).
Proof.
intros Hm Hh s. unfold try_except. specialize (Hm s).
destruct (m s) as [[a|e] s']; [exact Hm|apply Hh].
Qed.

Lemma answers_call {O} (o : O) (m : action (O * S) A) :
answers P m → answers P (call o m).
Proof.
intros Hm s. unfold call. specialize (Hm (o, s)).
destruct (m (o, s)) as [r s']. exact Hm.
Qed.
End Answers.

(** Walks to the [return] statements of a view. *)
Ltac to_answers :=
  repeat match goal with
  | |- answers _ (mret _) => apply answers_ret
  | |- answers _ (call _ _) => apply answers_call
  | |- answers _ (try_except _ _) => apply answers_try_except; [|intros ?]
  | |- answers _ (_ ≫= _) => apply answers_bind; intros ?
  | |- answers _ (if ?b then _ else _) => destruct b
  | |- answers _ (match ?x with _ => _ end) => destruct x
  | |- answers _ (let _ := _ in _) => cbv zeta
  end.

(** X21. On a database that satisfies its constraints [verify_payment]
    always answers: no exception leaves the view, whatever the request and
    whatever the gateway does (what the [try] block raises, the two
    [except] clauses turn into a 500 response), and the status of the
    answer is 200, 400, 404 or 500. *)
Theorem verify_payment_always_answers env inp request w :
db_wf w →
∃ resp, (verify_payment env inp request w).1 = Ok resp
        ∧ payment_view_status resp.
Proof.
intros Hwf.
assert (Hstatus : answers payment_view_status (verify_payment env inp request)).
{ unfold verify_payment, verify_payment_try, verify_payment_except.
  to_answers; unfold payment_view_status; simpl; tauto. }
specialize (Hstatus w).
assert (Hok : ∃ resp, (verify_payment env inp request w).1 = Ok resp).
{ unfold verify_payment.
  destruct (reference_param request) as [[|a s]|]; try (eexists; reflexivity).
  destruct (wf_Payment_objects_get_cases w (String a s) Hwf)
    as [Hget | (k & c & _ & _ & Hget)];
    rewrite (bind_Ok _ _ _ _ _ Hget); [eexists; reflexivity|].
  destruct (String.eqb _ _); [eexists; reflexivity|].
  unfold call, try_except.
  destruct (verify_payment_try _ _ _ _ _) as [[resp|e] s']; [eexists; reflexivity|].
  unfold verify_payment_except.
  destruct (is_RequestException e); eexists; reflexivity. }
destruct Hok as [resp Hok]. rewrite Hok in Hstatus.
exists resp. split; [exact Hok|exact Hstatus].
Qed.

Lemma verify_payment_always_answers_witness :
∃ resp,
  (verify_payment (demo_env true) (demo_inputs (Failed AttributeError))
     demo_verify_request (demo_world_paying "pending")).1 = Ok resp.
Proof.
destruct (verify_payment_always_answers (demo_env true)
            (demo_inputs (Failed AttributeError)) demo_verify_request
            (demo_world_paying "pending")) as (resp & Hrun & _).
- apply demo_world_paying_wf.
- exists resp. exact Hrun.
Defined.





(** ** The two status methods of a Payment *)



Lemma created_booking_in_own_queryset_witness :
∃ stored,
  BookingViewSet_get_queryset demo_initiate_request
    (BookingViewSet_perform_create (demo_inputs reply_checkout) demo_booking_attrs
       demo_initiate_request demo_world).2
  = <[next_pk (bookings demo_world) := stored]>
      (BookingViewSet_get_queryset demo_initiate_request demo_world).
Proof.
destruct (created_booking_in_own_queryset (demo_env true)
            (demo_inputs reply_checkout) demo_initiate_request demo_world
            demo_booking_attrs 739000 739003 demo_listing demo_user)
  with (other := demo_verify_request)
  as [(stored & Hown & _) _].
- reflexivity.
- reflexivity.
- lia.
- reflexivity.
- reflexivity.
- intros k r Hk.
  change (bookings demo_world) with ({[ 1 := demo_booking ]} : gmap Z Booking.t) in Hk.
  apply lookup_singleton_Some in Hk as [_ <-]. discriminate.
- exists stored. exact Hown.
Defined.
